(** * Extension lifecycle manager of the SD WebUI extension API

    A shallow embedding of [src/app/api/extensions/extension_api.py]
    (class [ExtensionAPI]) and the properties of its scan, backup,
    install, uninstall and toggle operations.

    The Python code works on the file system through [os], [shutil],
    [git], [requests], [zipfile] and [subprocess].  The file system is
    a tree of directories and files; the operations are written in a
    state-and-exception monad over a [World] holding that tree, the
    clock, a schedule of refusals by the operating system and the
    standard output.  The collaborators the code does not implement
    (git, HTTP, the zip reader, the process launcher) are the fields of
    an [Env] record.

    Modelling conventions:
    - a path is the list of its components; identifiers and entry names
      are single components (the data model's "filesystem-safe
      string"), so [os.path.join base name] appends one component;
    - strings are [string]s of 8-bit characters;
    - [Exn] stands for the subclasses of Python's [Exception], which is
      what [except Exception] and a bare [except] catch here;
    - a single call refused by the operating system changes nothing;
      an operation made of several calls ([shutil.copytree], a
      download, an extraction) keeps what the calls before the refused
      one have done. *)

From stdpp Require Import gmap strings list fin_maps pretty.
From Stdlib Require Import ZArith Ascii.

Set Warnings "-register-all,-abstract-large-number".
Open Scope string_scope.

(** ** Strings *)

(** [s.startswith(pre)] *)
Definition startswith (s pre : string) : bool := String.prefix pre s.

(** [s[n:]] *)
Fixpoint slice_from (n : nat) (s : string) : string :=
  match n, s with
  | O, _ => s
  | S n', String _ s' => slice_from n' s'
  | S _, EmptyString => EmptyString
  end.

(** [s[:n]] *)
Fixpoint slice_to (n : nat) (s : string) : string :=
  match n, s with
  | O, _ => EmptyString
  | S n', String c s' => String c (slice_to n' s')
  | S _, EmptyString => EmptyString
  end.

(** [needle in s] *)
Fixpoint contains (s needle : string) : bool :=
  String.prefix needle s ||
  match s with
  | EmptyString => false
  | String _ s' => contains s' needle
  end.

(** [s.replace(a, b)] for single characters. *)
Fixpoint replace_char (a b : ascii) (s : string) : string :=
  match s with
  | EmptyString => EmptyString
  | String c s' => String (if Ascii.eqb c a then b else c) (replace_char a b s')
  end.

Definition is_upper (c : ascii) : bool :=
  let n := nat_of_ascii c in ((65 <=? n) && (n <=? 90))%nat.
Definition is_lower (c : ascii) : bool :=
  let n := nat_of_ascii c in ((97 <=? n) && (n <=? 122))%nat.
Definition to_upper (c : ascii) : ascii :=
  if is_lower c then ascii_of_nat (nat_of_ascii c - 32) else c.
Definition to_lower (c : ascii) : ascii :=
  if is_upper c then ascii_of_nat (nat_of_ascii c + 32) else c.

(** [s.title()] on ASCII letters: a letter that follows a letter is
    lowercased, any other letter is uppercased. *)
Fixpoint title_from (after_letter : bool) (s : string) : string :=
  match s with
  | EmptyString => EmptyString
  | String c s' =>
      let cased := is_upper c || is_lower c in
      String (if after_letter then to_lower c else to_upper c)
             (title_from cased s')
  end.
Definition title (s : string) : string := title_from false s.

(** The [w] low decimal digits of [n], most significant first. *)
Fixpoint zero_pad (w n : nat) : string :=
  match w with
  | O => EmptyString
  | S w' => zero_pad w' (n / 10)%nat +:+ String (ascii_of_nat (48 + n mod 10)%nat) EmptyString
  end.

(** ** Exceptions *)

Inductive Exn : Type :=
| HTTPException (status_code : nat) (detail : string)
| TimeoutExpired (text : string)
| CalledProcessError (returncode : Z) (text : string)
| Error (cls : string) (text : string).

(** [str(e)].  Starlette's [HTTPException] prints as
    ["{status_code}: {detail}"]. *)
Definition str (e : Exn) : string :=
  match e with
  | HTTPException c d => pretty c +:+ ": " +:+ d
  | TimeoutExpired t => t
  | CalledProcessError _ t => t
  | Error _ t => t
  end.

(** ** The file system *)

Inductive node : Type :=
| File (data : string)
| Dir (entries : gmap string node).

Abbreviation path := (list string).

(** [os.path.join(base, name)] for a single component [name]. *)
Definition join (base : path) (name : string) : path := base ++ [name].

Fixpoint lookup_path (p : path) (t : node) : option node :=
  match p with
  | [] => Some t
  | n :: p' =>
      match t with
      | Dir es =>
          match es !! n with
          | Some c => lookup_path p' c
          | None => None
          end
      | File _ => None
      end
  end.

(** Unlink the entry at [p] with everything below it. *)
Fixpoint remove_path (p : path) (t : node) : node :=
  match p with
  | [] => t
  | n :: p' =>
      match t with
      | Dir es =>
          match p' with
          | [] => Dir (delete n es)
          | _ :: _ =>
              match es !! n with
              | Some c => Dir (<[n := remove_path p' c]> es)
              | None => t
              end
          end
      | File _ => t
      end
  end.

(** Put [v] at [p], replacing what is there.  With [parents] the
    missing directories on the way are created ([os.makedirs]); without,
    the parent directory has to exist.  [None]: a component on the way
    is not a directory, or a parent is missing. *)
Fixpoint put_path (parents : bool) (p : path) (v : node) (t : node) : option node :=
  match p with
  | [] => Some v
  | n :: p' =>
      match t with
      | Dir es =>
          match es !! n with
          | Some c =>
              match put_path parents p' v c with
              | Some c' => Some (Dir (<[n := c']> es))
              | None => None
              end
          | None =>
              match p' with
              | [] => Some (Dir (<[n := v]> es))
              | _ :: _ =>
                  if parents then
                    match put_path parents p' v (Dir ∅) with
                    | Some c' => Some (Dir (<[n := c']> es))
                    | None => None
                    end
                  else None
              end
          end
      | File _ => None
      end
  end.

Definition path_exists (p : path) (t : node) : bool :=
  match lookup_path p t with Some _ => true | None => false end.

Definition path_isdir (p : path) (t : node) : bool :=
  match lookup_path p t with Some (Dir _) => true | _ => false end.

(** Two paths part ways at some component: neither is below the other. *)
Fixpoint diverge (p q : path) : bool :=
  match p, q with
  | x :: p', y :: q' => if decide (x = y) then diverge p' q' else true
  | _, _ => false
  end.

(** ** The world and the monad of the operations *)

(** [datetime.now()]: the local wall-clock time. *)
Record datetime : Type := {
  year : nat; month : nat; day : nat;
  hour : nat; minute : nat; second : nat;
  microsecond : nat
}.

(** [dt.strftime("%Y%m%d_%H%M%S")] *)
Definition strftime (dt : datetime) : string :=
  zero_pad 4 (year dt) +:+ zero_pad 2 (month dt) +:+ zero_pad 2 (day dt) +:+ "_" +:+
  zero_pad 2 (hour dt) +:+ zero_pad 2 (minute dt) +:+ zero_pad 2 (second dt).

(** [dt.replace(microsecond=us)] *)
Definition replace_microsecond (us : nat) (dt : datetime) : datetime :=
  {| year := year dt; month := month dt; day := day dt;
     hour := hour dt; minute := minute dt; second := second dt; microsecond := us |}.

(** The dates [datetime.now()] returns in the years of four digits. *)
Definition valid_datetime (dt : datetime) : bool :=
  ((1000 <=? year dt) && (year dt <? 10 ^ 4) && (1 <=? month dt) && (month dt <=? 12)
   && (1 <=? day dt) && (day dt <=? 31)
   && (hour dt <? 24) && (minute dt <? 60) && (second dt <? 60))%nat.

(** [datetime.strptime(s, "%Y%m%d_%H%M%S")], the reader of the format
    [strftime] writes; the program does not call it, the statements
    about the timestamp do.  [take_number w s] reads the number the
    first [w] characters write in decimal. *)
Definition digit_value (c : ascii) : option nat :=
  let n := nat_of_ascii c in
  if ((48 <=? n) && (n <=? 57))%nat then Some (n - 48)%nat else None.

Fixpoint digits_value (acc : nat) (s : string) : option nat :=
  match s with
  | EmptyString => Some acc
  | String c s' =>
      match digit_value c with
      | Some d => digits_value (10 * acc + d)%nat s'
      | None => None
      end
  end.

Definition take_number (w : nat) (s : string) : option (nat * string) :=
  if (w <=? String.length s)%nat then
    match digits_value 0 (slice_to w s) with
    | Some n => Some (n, slice_from w s)
    | None => None
    end
  else None.

Definition strptime (s : string) : option datetime :=
  '(years, s) ← take_number 4 s;
  '(months, s) ← take_number 2 s;
  '(days, s) ← take_number 2 s;
  match s with
  | String "_" s =>
      '(hours, s) ← take_number 2 s;
      '(minutes, s) ← take_number 2 s;
      '(seconds, s) ← take_number 2 s;
      match s with
      | EmptyString =>
          Some {| year := years; month := months; day := days;
                  hour := hours; minute := minutes; second := seconds;
                  microsecond := 0 |}
      | String _ _ => None
      end
  | _ => None
  end.

(** [faults] is what the operating system will answer to the coming
    mutating calls (delete, rename, write, and each step of a copy),
    one entry per call:
    [Some e] refuses the call with [e] (permission denied, disk full),
    [None] lets it through; past the end every call goes through. *)
Record World : Type := {
  fs : node;
  now : datetime;
  faults : list (option Exn);
  stdout : list string
}.

Definition set_fs (t : node) (w : World) : World :=
  {| fs := t; now := now w; faults := faults w; stdout := stdout w |}.
Definition set_faults (l : list (option Exn)) (w : World) : World :=
  {| fs := fs w; now := now w; faults := l; stdout := stdout w |}.
Definition add_stdout (s : string) (w : World) : World :=
  {| fs := fs w; now := now w; faults := faults w; stdout := stdout w ++ [s] |}.

Inductive Outcome (A : Type) : Type :=
| Ret (a : A)
| Raise (e : Exn).
Arguments Ret {A} a.
Arguments Raise {A} e.

Definition M (A : Type) : Type := World → Outcome A * World.

Definition ret {A} (a : A) : M A := λ w, (Ret a, w).
Definition raise {A} (e : Exn) : M A := λ w, (Raise e, w).
Definition bind {A B} (m : M A) (k : A → M B) : M B :=
  λ w, match m w with
       | (Ret a, w') => k a w'
       | (Raise e, w') => (Raise e, w')
       end.

(** [try: body  except Exception as e: handler(e)] *)
Definition try_except {A} (body : M A) (handler : Exn → M A) : M A :=
  λ w, match body w with
       | (Ret a, w') => (Ret a, w')
       | (Raise e, w') => handler e w'
       end.

Notation "x <- m ;; k" := (bind m (λ x, k))
  (at level 100, m at next level, right associativity).
Notation "m ;;; k" := (bind m (λ _, k))
  (at level 100, right associativity).

Definition get_fs : M node := λ w, (Ret (fs w), w).
Definition put_fs (t : node) : M unit := λ w, (Ret tt, set_fs t w).

(** [print(s)] *)
Definition print (s : string) : M unit := λ w, (Ret tt, add_stdout s w).

(** [datetime.now()] *)
Definition datetime_now : M datetime := λ w, (Ret (now w), w).

(** The operating system's answer to the next mutating call. *)
Definition os_call : M unit :=
  λ w, match faults w with
       | Some e :: l => (Raise e, set_faults l w)
       | None :: l => (Ret tt, set_faults l w)
       | [] => (Ret tt, w)
       end.

Definition show_path (p : path) : string := String.concat "/" p.

(** ** [os], [shutil] *)

(** [os.path.exists(p)]; never raises. *)
Definition os_path_exists (p : path) : M bool :=
  t <- get_fs ;; ret (path_exists p t).

(** [os.path.isdir(p)]; never raises. *)
Definition os_path_isdir (p : path) : M bool :=
  t <- get_fs ;; ret (path_isdir p t).

(** [os.listdir(p)]: the names in the directory, in the order the
    system gives them. *)
Definition os_listdir (p : path) : M (list string) :=
  t <- get_fs ;;
  match lookup_path p t with
  | Some (Dir es) => ret (map fst (map_to_list es))
  | Some (File _) => raise (Error "NotADirectoryError" ("Not a directory: " +:+ show_path p))
  | None => raise (Error "FileNotFoundError" ("No such file or directory: " +:+ show_path p))
  end.

(** [shutil.rmtree(p)] *)
Definition shutil_rmtree (p : path) : M unit :=
  os_call ;;;
  t <- get_fs ;;
  match lookup_path p t with
  | Some (Dir _) => put_fs (remove_path p t)
  | Some (File _) => raise (Error "NotADirectoryError" ("Not a directory: " +:+ show_path p))
  | None => raise (Error "FileNotFoundError" ("No such file or directory: " +:+ show_path p))
  end.

(** What [shutil.copytree] does below the directory it has made.  It
    does not stop at an error: a file the system refuses to copy
    ([copy2]) is left out, a subdirectory it refuses to make
    ([os.makedirs]) is left out with all it holds, and the copy goes on
    with the next entry; a subdirectory is copied the same way, entry by
    entry, and may be left partly filled; the metadata of a directory
    are copied last ([copystat]).  Each of these is one call answered by
    the schedule.  The errors are gathered on the way.  The result: what
    was copied, the errors, and what is left of the schedule. *)
Definition Copied (A : Type) : Type := A * list Exn * list (option Exn).

Definition copy_entry (copy : node → list (option Exn) → Copied (option node))
    (name : string) (child : node)
    (others : list (option Exn) → Copied (gmap string node))
  : list (option Exn) → Copied (gmap string node) :=
  λ l, let '(c, errs, l') := copy child l in
       let '(copied, errors, rest) := others l' in
       (match c with Some c' => <[name := c']> copied | None => copied end,
        (errs ++ errors)%list, rest).

Definition copy_entries (copy : node → list (option Exn) → Copied (option node))
    (es : gmap string node) : list (option Exn) → Copied (gmap string node) :=
  map_fold (copy_entry copy) (λ l, (∅, [], l)) es.

Definition copystat (st : Copied (gmap string node)) : Copied (gmap string node) :=
  let '(copied, errors, l) := st in
  match l with
  | Some e :: l' => (copied, (errors ++ [e])%list, l')
  | None :: l' => (copied, errors, l')
  | [] => (copied, errors, [])
  end.

Fixpoint copy_node (n : node) (l : list (option Exn)) : Copied (option node) :=
  match n with
  | File _ =>
      match l with
      | Some e :: l' => (None, [e], l')
      | None :: l' => (Some n, [], l')
      | [] => (Some n, [], [])
      end
  | Dir es =>
      match l with
      | Some e :: l' => (None, [e], l')
      | _ =>
          let '(copied, errors, rest) := copystat (copy_entries copy_node es (tail l)) in
          (Some (Dir copied), errors, rest)
      end
  end.

(** The calls a whole copy takes: one for a file; for a directory, one
    to make it, those of its entries, and one for its metadata. *)
Fixpoint copy_calls (n : node) : nat :=
  match n with
  | File _ => 1
  | Dir es => S (S (map_fold (λ _ child r, copy_calls child + r) 0 es))
  end.

(** The height of a tree. *)
Fixpoint depth (n : node) : nat :=
  match n with
  | File _ => 0
  | Dir es => S (map_fold (λ _ child r, depth child `max` r) 0 es)
  end.

(** [shutil.copytree(src, dst)]: [dst] is made (it must not exist; its
    missing parents are made too), and this is the one step whose
    error is raised as it is, with nothing changed.  Then the entries
    are copied as [copy_entries] tells, and the errors met on the way
    are raised together at the end as one [shutil.Error], with what was
    copied left in place.  (The text of a [shutil.Error] lists source,
    destination and reason of each error; the model keeps the
    reasons.) *)
Definition shutil_copytree (src dst : path) : M unit :=
  os_call ;;;
  t <- get_fs ;;
  match lookup_path src t with
  | Some (Dir es) =>
      if path_exists dst t
      then raise (Error "FileExistsError" ("File exists: " +:+ show_path dst))
      else
        λ w, let '(copied, errors, rest) := copystat (copy_entries copy_node es (faults w)) in
             match put_path true dst (Dir copied) t with
             | Some t' =>
                 (match errors with
                  | [] => Ret tt
                  | _ :: _ => Raise (Error "Error" (String.concat "; " (map str errors)))
                  end, set_fs t' (set_faults rest w))
             | None =>
                 (Raise (Error "NotADirectoryError" ("Not a directory: " +:+ show_path dst)), w)
             end
  | Some (File _) => raise (Error "NotADirectoryError" ("Not a directory: " +:+ show_path src))
  | None => raise (Error "FileNotFoundError" ("No such file or directory: " +:+ show_path src))
  end.

(** [os.rename(src, dst)]: [src] must exist, [dst] must not, and the
    parent of [dst] must. *)
Definition os_rename (src dst : path) : M unit :=
  os_call ;;;
  t <- get_fs ;;
  match lookup_path src t with
  | Some v =>
      if path_exists dst t
      then raise (Error "FileExistsError" ("File exists: " +:+ show_path dst))
      else match put_path false dst v (remove_path src t) with
           | Some t' => put_fs t'
           | None => raise (Error "FileNotFoundError" ("No such file or directory: " +:+ show_path dst))
           end
  | None => raise (Error "FileNotFoundError" ("No such file or directory: " +:+ show_path src))
  end.

(** [os.makedirs(p, exist_ok=True)] *)
Definition os_makedirs (p : path) : M unit :=
  os_call ;;;
  t <- get_fs ;;
  match lookup_path p t with
  | Some (Dir _) => ret tt
  | Some (File _) => raise (Error "FileExistsError" ("File exists: " +:+ show_path p))
  | None =>
      match put_path true p (Dir ∅) t with
      | Some t' => put_fs t'
      | None => raise (Error "NotADirectoryError" ("Not a directory: " +:+ show_path p))
      end
  end.

(** [open(p, 'wb')] and the writes: the file gets the content [data].
    With [parents] the missing directories above are made first. *)
Definition write_file (parents : bool) (p : path) (data : string) : M unit :=
  os_call ;;;
  t <- get_fs ;;
  match lookup_path p t with
  | Some (Dir _) => raise (Error "IsADirectoryError" ("Is a directory: " +:+ show_path p))
  | _ =>
      match put_path parents p (File data) t with
      | Some t' => put_fs t'
      | None => raise (Error "FileNotFoundError" ("No such file or directory: " +:+ show_path p))
      end
  end.

(** What is stored at [p], the first half of [open(p).read()] and of
    [zipfile.ZipFile(p)]: it raises when there is no file at [p].  The
    second half, opening the file and decoding what it holds, may
    raise as well, on any file: that answer is [open_text]'s for a text
    and [zip_members]'s for an archive, which the callers ask with the
    bytes found here. *)
Definition file_content (p : path) : M string :=
  t <- get_fs ;;
  match lookup_path p t with
  | Some (File data) => ret data
  | Some (Dir _) => raise (Error "IsADirectoryError" ("Is a directory: " +:+ show_path p))
  | None => raise (Error "FileNotFoundError" ("No such file or directory: " +:+ show_path p))
  end.

(** [os.remove(p)] *)
Definition os_remove (p : path) : M unit :=
  os_call ;;;
  t <- get_fs ;;
  match lookup_path p t with
  | Some (File _) => put_fs (remove_path p t)
  | Some (Dir _) => raise (Error "IsADirectoryError" ("Is a directory: " +:+ show_path p))
  | None => raise (Error "FileNotFoundError" ("No such file or directory: " +:+ show_path p))
  end.

(** ** Collaborators *)

(** How a launched process ended. *)
Inductive ProcOutcome : Type :=
| Completed (returncode : Z)
| TimedOut
| SpawnFailed (e : Exn).

(** What a streamed response delivers: the bytes received, and the
    error that interrupted the stream, if any. *)
Record Download : Type := {
  received : string;
  interrupted : option Exn
}.

(** What git, the network, the archive reader, the process launcher
    and the file metadata answer. *)
Record Env : Type := {
  (** [git.Repo.clone_from(url, _)]: the checkout, or the error. *)
  git_clone_from : string → Exn + node;
  (** [repo.git.checkout(version)] on a checkout: the checkout moved to
      that version, or [None] when git refuses. *)
  git_checkout : node → string → option node;
  (** [git.Repo(dir).iter_commits(max_count=1)]: the hexsha of the
      latest commit, [inr None] without commits, or the error. *)
  git_head_hexsha : node → Exn + option string;
  (** [requests.get(url, stream=True)] and [raise_for_status()]: the
      error, or the response whose body [iter_content] then streams. *)
  requests_get : string → Exn + Download;
  (** [zipfile.ZipFile(p)] on a file with these bytes: the members,
      each a relative path with the content of a file or [None] for a
      directory; or the error ([BadZipFile], [PermissionError]). *)
  zip_members : string → Exn + list (path * option string);
  (** [subprocess.run(["python", script], cwd=cwd, timeout=t)]: how the
      process ends and what it leaves on the file system. *)
  subprocess_run : path → path → nat → node → ProcOutcome * node;
  (** [datetime.fromtimestamp(os.path.getctime(p)).isoformat()] *)
  getctime_iso : path → string;
  (** [datetime.timestamp()] as printed in an f-string. *)
  timestamp_repr : datetime → string
}.

(** ** Data models of the API.  The fields no operation reads
    (description, author, homepage, tags, ...) are left out. *)

Record ExtensionMetadata : Type := {
  meta_id : string;
  meta_name : string;
  meta_version : string;
  repository : string;
  dependencies : list string;
  installUrl : string;
  installMethod : string
}.

Record InstalledExtension : Type := {
  ext_id : string;
  ext_name : string;
  ext_version : string;
  ext_path : path;
  isEnabled : bool;
  installedDate : string;
  lastUsed : option string;
  hasUpdates : bool
}.

Record InstallRequest : Type := {
  req_extensionId : string;
  req_version : option string;
  force : bool;
  installDependencies : bool
}.

(** The dictionaries the operations return; a key an operation does not
    set is [None]. *)
Record Result : Type := {
  success : bool;
  extensionId : string;
  version : option string;
  message : string;
  backupId : option string;
  enabled : option bool
}.

(** [v or d] for an optional string: [None] and [""] are falsy. *)
Definition or_default (v : option string) (d : string) : string :=
  match v with
  | Some s => if decide (s = "") then d else s
  | None => d
  end.

(** [ExtensionAPI]: the instance and its three directories. *)
Record ExtensionAPI : Type := { sd_path : path }.

Definition extensions_path (self : ExtensionAPI) : path := sd_path self ++ ["extensions"].
Definition temp_path (self : ExtensionAPI) : path := sd_path self ++ ["temp"; "extensions"].
Definition backup_path (self : ExtensionAPI) : path := sd_path self ++ ["backups"; "extensions"].

(** The timeout of the post-install script, in seconds. *)
Definition install_script_timeout : nat := 300.

Section ExtensionAPI.

Variable env : Env.
Variable self : ExtensionAPI.

(** [__init__]: the scratch and backup directories are made. *)
Definition init : M unit :=
  os_makedirs (temp_path self) ;;;
  os_makedirs (backup_path self).

(** *** Scanner *)

Definition info_files_present (ext_path : path) : M bool :=
  a <- os_path_exists (join ext_path "install.py") ;;
  if a then ret true else
  (** ['scripts/']: with the trailing separator only a directory counts *)
  b <- os_path_isdir (join ext_path "scripts") ;;
  if b then ret true else
  c <- os_path_exists (join ext_path "__init__.py") ;;
  if c then ret true else
  os_path_exists (join ext_path "README.md").

Definition git_short_version (ext_path : path) : M string :=
  try_except
    (g <- os_path_exists (join ext_path ".git") ;;
     if g then
       t <- get_fs ;;
       match lookup_path ext_path t with
       | Some d =>
           match git_head_hexsha env d with
           | inl e => raise e
           | inr (Some sha) => ret (slice_to 8 sha)
           | inr None => ret "unknown"
           end
       | None => raise (Error "NoSuchPathError" (show_path ext_path))
       end
     else ret "unknown")
    (λ _, ret "unknown").

(** [os.path.getctime(p)], already formatted. *)
Definition os_path_getctime (p : path) : M string :=
  t <- get_fs ;;
  if path_exists p t then ret (getctime_iso env p)
  else raise (Error "FileNotFoundError" ("No such file or directory: " +:+ show_path p)).

Definition _parse_extension_info (ext_id : string) (ext_path : path)
  : M (option InstalledExtension) :=
  try_except
    (has_valid_structure <- info_files_present ext_path ;;
     if negb has_valid_structure then ret None else
     let name := title (replace_char "_" " " (replace_char "-" " " ext_id)) in
     version <- git_short_version ext_path ;;
     installed_date <- os_path_getctime ext_path ;;
     let is_enabled := negb (startswith ext_id "disabled_") in
     ret (Some {| ext_id := ext_id; ext_name := name; ext_version := version;
                  ext_path := ext_path; isEnabled := is_enabled;
                  installedDate := installed_date; lastUsed := None;
                  hasUpdates := false |}))
    (λ e, print ("Error parsing extension " +:+ ext_id +:+ ": " +:+ str e) ;;; ret None).

(** The body of the [for] loop: what one item adds to [extensions]. *)
Definition scan_item (item : string) : M (list InstalledExtension) :=
  let ext_path := join (extensions_path self) item in
  d <- os_path_isdir ext_path ;;
  if d && negb (startswith item ".") then
    extension <- _parse_extension_info item ext_path ;;
    match extension with
    | Some ext => ret [ext]
    | None => ret []
    end
  else ret [].

(** The loop inside its [try]: an exception ends it, and the list
    built so far is what is returned. *)
Fixpoint scan_items (items : list string) (extensions : list InstalledExtension)
  : M (list InstalledExtension) :=
  match items with
  | [] => ret extensions
  | item :: rest =>
      λ w, match scan_item item w with
           | (Ret found, w') => scan_items rest (extensions ++ found) w'
           | (Raise e, w') =>
               (print ("Error scanning extensions: " +:+ str e) ;;; ret extensions) w'
           end
  end.

Definition _scan_installed_extensions : M (list InstalledExtension) :=
  present <- os_path_exists (extensions_path self) ;;
  if negb present then ret [] else
  λ w, match os_listdir (extensions_path self) w with
       | (Ret items, w') => scan_items items [] w'
       | (Raise e, w') => (print ("Error scanning extensions: " +:+ str e) ;;; ret []) w'
       end.

(** *** Backup manager *)

Definition backup_id_of (extension_id reason : string) (dt : datetime) : string :=
  extension_id +:+ "_" +:+ reason +:+ "_" +:+ strftime dt.

Definition _create_backup (extension_id reason : string) : M string :=
  dt <- datetime_now ;;
  let backup_id := backup_id_of extension_id reason dt in
  let source_path := join (extensions_path self) extension_id in
  let backup_path := join (backup_path self) backup_id in
  present <- os_path_exists source_path ;;
  (if present then shutil_copytree source_path backup_path else ret tt) ;;;
  ret backup_id.

(** *** Installer *)

(** [git.Repo.clone_from(url, target)]: git wants [target] absent or an
    empty directory, and leaves nothing behind when it fails. *)
Definition clone_from (repo_url : string) (target_path : path) : M node :=
  match git_clone_from env repo_url with
  | inl e => raise e
  | inr checkout =>
      t <- get_fs ;;
      let free := match lookup_path target_path t with
                  | None => true
                  | Some (Dir es) => if decide (es = ∅) then true else false
                  | Some (File _) => false
                  end in
      if free then
        match put_path true target_path checkout t with
        | Some t' => put_fs t' ;;; ret checkout
        | None => raise (Error "GitCommandError" ("could not create work tree dir " +:+ show_path target_path))
        end
      else raise (Error "GitCommandError" ("destination path already exists: " +:+ show_path target_path))
  end.

(** [repo.git.checkout(version)] *)
Definition checkout_version (repo : node) (target_path : path) (version : string) : M unit :=
  match git_checkout env repo version with
  | Some moved =>
      t <- get_fs ;;
      match put_path false target_path moved t with
      | Some t' => put_fs t'
      | None => raise (Error "GitCommandError" ("checkout failed in " +:+ show_path target_path))
      end
  | None => raise (Error "GitCommandError" ("pathspec did not match: " +:+ version))
  end.

Definition _git_clone_extension (repo_url : string) (target_path : path)
    (version : option string) : M unit :=
  try_except
    (present <- os_path_exists target_path ;;
     (if present then shutil_rmtree target_path else ret tt) ;;;
     repo <- clone_from repo_url target_path ;;
     match version with
     | Some v =>
         if negb (bool_decide (v = "")) && negb (bool_decide (v = "latest")) then
           try_except (checkout_version repo target_path v)
             (λ _, print ("Could not checkout version " +:+ v +:+ ", using default branch"))
         else ret tt
     | None => ret tt
     end)
    (λ e, raise (HTTPException 500 ("Git clone failed: " +:+ str e))).

(** [zip_ref.extractall(target)]: the members one after the other. *)
Fixpoint extractall (target_path : path) (members : list (path * option string)) : M unit :=
  match members with
  | [] => ret tt
  | (rel, Some data) :: rest =>
      write_file true (target_path ++ rel) data ;;; extractall target_path rest
  | (rel, None) :: rest =>
      os_makedirs (target_path ++ rel) ;;; extractall target_path rest
  end.

Definition _download_and_extract (download_url : string) (target_path : path) : M unit :=
  try_except
    (dt <- datetime_now ;;
     let temp_file := join (temp_path self) ("download_" +:+ timestamp_repr env dt +:+ ".zip") in
     match requests_get env download_url with
     | inl e => raise e
     | inr response =>
         (** [open(temp_file, 'wb')] and the chunks written as they
             arrive; an interrupted stream raises with the file left *)
         write_file false temp_file (received response) ;;;
         match interrupted response with
         | Some e => raise e
         | None =>
             data <- file_content temp_file ;;
             match zip_members env data with
             | inl e => raise e
             | inr members =>
                 extractall target_path members ;;;
                 os_remove temp_file
             end
         end
     end)
    (λ e, raise (HTTPException 500 ("Download failed: " +:+ str e))).

Fixpoint _install_dependencies (dependencies : list string) : M unit :=
  match dependencies with
  | [] => ret tt
  | dep :: rest => print ("Would install dependency: " +:+ dep) ;;; _install_dependencies rest
  end.

(** [subprocess.run([...], cwd=cwd, check=True, timeout=timeout)] *)
Definition subprocess_run_check (script cwd : path) (timeout : nat) : M unit :=
  t <- get_fs ;;
  let '(outcome, t') := subprocess_run env script cwd timeout t in
  put_fs t' ;;;
  match outcome with
  | Completed 0 => ret tt
  | Completed code =>
      raise (CalledProcessError code
               ("Command 'python " +:+ show_path script +:+ "' returned non-zero exit status " +:+ pretty code))
  | TimedOut =>
      raise (TimeoutExpired
               ("Command 'python " +:+ show_path script +:+ "' timed out after " +:+ pretty timeout +:+ " seconds"))
  | SpawnFailed e => raise e
  end.

Definition _configure_extension (extension_id : string) (extension_path : path) : M unit :=
  let install_script := join extension_path "install.py" in
  present <- os_path_exists install_script ;;
  if present then
    try_except (subprocess_run_check install_script extension_path install_script_timeout)
      (λ e, match e with
            | TimeoutExpired _ =>
                print ("Install script for " +:+ extension_id +:+ " timed out")
            | CalledProcessError _ _ =>
                print ("Install script for " +:+ extension_id +:+ " failed: " +:+ str e)
            | _ => raise e
            end)
  else ret tt.

(** The first steps of the [try] block of [install_extension]: the
    backup of an existing target, the materialization by the install
    method, and the dependencies. *)
Definition install_materialize (request : InstallRequest) (metadata : ExtensionMetadata) : M unit :=
  let target_path := join (extensions_path self) (req_extensionId request) in
  present <- os_path_exists target_path ;;
  (if present then _create_backup (req_extensionId request) "before_install" ;;; ret tt
   else ret tt) ;;;
  (if bool_decide (installMethod metadata = "git_clone") then
     _git_clone_extension (repository metadata) target_path (req_version request)
   else if bool_decide (installMethod metadata = "download_zip") then
     _download_and_extract (installUrl metadata) target_path
   else
     raise (HTTPException 400 ("Unsupported install method: " +:+ installMethod metadata))) ;;;
  (if installDependencies request && negb (bool_decide (dependencies metadata = [])) then
     _install_dependencies (dependencies metadata)
   else ret tt).

(** The [try] block of [install_extension]: those steps, the
    post-install configuration and the result. *)
Definition install_body (request : InstallRequest) (metadata : ExtensionMetadata) : M Result :=
  let target_path := join (extensions_path self) (req_extensionId request) in
  install_materialize request metadata ;;;
  _configure_extension (req_extensionId request) target_path ;;;
  ret {| success := true;
         extensionId := req_extensionId request;
         version := Some (or_default (req_version request) (meta_version metadata));
         message := "Successfully installed " +:+ meta_name metadata;
         backupId := None; enabled := None |}.

Definition install_extension (request : InstallRequest) (metadata : ExtensionMetadata) : M Result :=
  try_except (install_body request metadata)
    (λ e, ret {| success := false;
                 extensionId := req_extensionId request;
                 version := None;
                 message := "Installation failed: " +:+ str e;
                 backupId := None; enabled := None |}).

(** *** Lifecycle manager *)

(** The [try] block of [uninstall_extension]. *)
Definition uninstall_body (extension_id : string) : M Result :=
  let extension_path := join (extensions_path self) extension_id in
  present <- os_path_exists extension_path ;;
  if negb present then
    ret {| success := false; extensionId := extension_id; version := None;
           message := "Extension not found"; backupId := None; enabled := None |}
  else
    backup_id <- _create_backup extension_id "before_uninstall" ;;
    shutil_rmtree extension_path ;;;
    ret {| success := true; extensionId := extension_id; version := None;
           message := "Extension uninstalled successfully";
           backupId := Some backup_id; enabled := None |}.

Definition uninstall_extension (extension_id : string) : M Result :=
  try_except (uninstall_body extension_id)
    (λ e, ret {| success := false; extensionId := extension_id; version := None;
                 message := "Uninstallation failed: " +:+ str e;
                 backupId := None; enabled := None |}).

(** The [try] block of [toggle_extension]. *)
Definition toggle_body (extension_id : string) (enabled : bool) : M Result :=
  let current_path := join (extensions_path self) extension_id in
  (if enabled then
     if startswith extension_id "disabled_" then
       let new_id := slice_from 9 extension_id in
       let new_path := join (extensions_path self) new_id in
       os_rename current_path new_path
     else ret tt
   else
     if negb (startswith extension_id "disabled_") then
       let new_id := "disabled_" +:+ extension_id in
       let new_path := join (extensions_path self) new_id in
       os_rename current_path new_path
     else ret tt) ;;;
  ret {| success := true; extensionId := extension_id; version := None;
         message := "Extension " +:+ (if enabled then "enabled" else "disabled");
         backupId := None; enabled := Some enabled |}.

Definition toggle_extension (extension_id : string) (enabled : bool) : M Result :=
  try_except (toggle_body extension_id enabled)
    (λ e, ret {| success := false; extensionId := extension_id; version := None;
                 message := "Toggle failed: " +:+ str e;
                 backupId := None; enabled := None |}).

End ExtensionAPI.

(** ** Host detection *)

(** What the regular expression, git and the host application answer. *)
Record HostEnv : Type := {
  (** [re.search(r'version.*?[\'"]([\d.]+)[\'"]', content, re.IGNORECASE)]:
      group 1 of the first match. *)
  search_version : string → option string;
  (** [open(p, 'r', encoding='utf-8').read()] on a file with these
      bytes: the text, or the error ([UnicodeDecodeError],
      [PermissionError]). *)
  open_text : path → string → Exn + string;
  (** [git.Repo(dir).tags] sorted by commit date, newest first, as
      printed by [str]; or the error. *)
  git_tags_newest_first : node → Exn + list string;
  (** [requests.get("http://127.0.0.1:7860/internal/ping", timeout=5)]:
      the status code, or the error. *)
  ping : Exn + nat
}.

Record SDWebUIInfo : Type := {
  info_version : string;
  info_path : path;
  extensionsPath : path;
  isRunning : bool;
  apiUrl : option string;
  installedExtensions : list InstalledExtension
}.

Section Detection.

Variable env : Env.
Variable host : HostEnv.
Variable self : ExtensionAPI.

(** The version read from [launch.py], when the file is there and the
    pattern matches. *)
Definition launch_py_version : M (option string) :=
  let launch_py := join (sd_path self) "launch.py" in
  present <- os_path_exists launch_py ;;
  if present then
    data <- file_content launch_py ;;
    match open_text host launch_py data with
    | inl e => raise e
    | inr content => ret (search_version host content)
    end
  else ret None.

(** The newest git tag, inside its own [try]: any error counts as no
    tag. *)
Definition newest_git_tag : M (option string) :=
  try_except
    (t <- get_fs ;;
     match lookup_path (sd_path self) t with
     | Some d =>
         match git_tags_newest_first host d with
         | inl e => raise e
         | inr (tag :: _) => ret (Some tag)
         | inr [] => ret None
         end
     | None => raise (Error "NoSuchPathError" (show_path (sd_path self)))
     end)
    (λ _, ret None).

Definition _detect_sd_version : M string :=
  try_except
    (found <- launch_py_version ;;
     match found with
     | Some v => ret v
     | None =>
         g <- os_path_exists (join (sd_path self) ".git") ;;
         if g then
           tagged <- newest_git_tag ;;
           match tagged with
           | Some tag => ret tag
           | None => ret "unknown"
           end
         else ret "unknown"
     end)
    (λ _, ret "unknown").

Definition _check_sd_webui_running : M bool :=
  try_except
    (match ping host with
     | inl e => raise e
     | inr status_code => ret (bool_decide (status_code = 200))
     end)
    (λ _, ret false).

Definition detect_sd_webui_info : M SDWebUIInfo :=
  version <- _detect_sd_version ;;
  is_running <- _check_sd_webui_running ;;
  installed_extensions <- _scan_installed_extensions env self ;;
  ret {| info_version := version;
         info_path := sd_path self;
         extensionsPath := extensions_path self;
         isRunning := is_running;
         apiUrl := if is_running then Some "http://127.0.0.1:7860" else None;
         installedExtensions := installed_extensions |}.

End Detection.

(** ** The FastAPI routes *)

(** The envelope [{"success": True, "data": ...}] of a route. *)
Record Envelope (A : Type) : Type := {
  envelope_success : bool;
  data : A
}.
Arguments envelope_success {A} _.
Arguments data {A} _.

(** The routes, under the names they have in the module.  Each awaits
    the method of the API instance in a [try] and answers an error with
    [HTTPException(status_code=500, detail=str(e))]. *)
Module Router.
Section Routes.

Variable env : Env.
Variable host : HostEnv.
Variable extension_api : ExtensionAPI.

Definition detect_sdwebui : M (Envelope SDWebUIInfo) :=
  try_except
    (info <- detect_sd_webui_info env host extension_api ;;
     ret {| envelope_success := true; data := info |})
    (λ e, raise (HTTPException 500 (str e))).

Definition list_installed : M (Envelope (list InstalledExtension)) :=
  try_except
    (extensions <- _scan_installed_extensions env extension_api ;;
     ret {| envelope_success := true; data := extensions |})
    (λ e, raise (HTTPException 500 (str e))).

Definition install_extension (request : InstallRequest) (metadata : ExtensionMetadata)
  : M (Envelope Result) :=
  try_except
    (result <- install_extension env extension_api request metadata ;;
     ret {| envelope_success := true; data := result |})
    (λ e, raise (HTTPException 500 (str e))).

Definition uninstall_extension (extension_id : string) : M (Envelope Result) :=
  try_except
    (result <- uninstall_extension extension_api extension_id ;;
     ret {| envelope_success := true; data := result |})
    (λ e, raise (HTTPException 500 (str e))).

Definition toggle_extension (extension_id : string) (enabled : bool) : M (Envelope Result) :=
  try_except
    (result <- toggle_extension extension_api extension_id enabled ;;
     ret {| envelope_success := true; data := result |})
    (λ e, raise (HTTPException 500 (str e))).

End Routes.
End Router.

(** ** Vocabulary of the further properties *)

(** What an entry of a scan says about its directory. *)
Definition entry_describes (env : Env) (self : ExtensionAPI) (t : node)
    (e : InstalledExtension) : Prop :=
  ext_path e = join (extensions_path self) (ext_id e)
  ∧ ext_name e = title (replace_char "_" " " (replace_char "-" " " (ext_id e)))
  ∧ isEnabled e = negb (startswith (ext_id e) "disabled_")
  ∧ hasUpdates e = false
  ∧ lastUsed e = None
  ∧ installedDate e = getctime_iso env (ext_path e)
  ∧ (path_exists (join (ext_path e) ".git") t = false → ext_version e = "unknown").

Definition is_dir_node (n : node) : bool :=
  match n with Dir _ => true | File _ => false end.

(** The kind of what is at a path: [None] nothing, [Some true] a
    directory, [Some false] a file. *)
Definition kind_at (p : path) (t : node) : option bool :=
  is_dir_node <$> lookup_path p t.

(** ** Vocabulary of the statements *)

(** The operating system lets the next [n] mutating calls through. *)
Abbreviation allowed :=
  (forallb (λ o : option Exn, match o with None => true | Some _ => false end)).

Definition calls_allowed (n : nat) (w : World) : bool :=
  forallb (λ o, match o with None => true | Some _ => false end) (take n (faults w)).

(** The markers of a valid extension, as [_parse_extension_info] tests
    them on the entries of the extension's directory: an entry of any
    kind named [install.py], [__init__.py] or [README.md], or a
    directory named [scripts]. *)
Definition has_info_file (entries : gmap string node) : bool :=
  match entries !! "install.py" with Some _ => true | None => false end
  || match entries !! "scripts" with Some (Dir _) => true | _ => false end
  || match entries !! "__init__.py" with Some _ => true | None => false end
  || match entries !! "README.md" with Some _ => true | None => false end.

Definition is_file (o : option node) : bool :=
  match o with Some (File _) => true | _ => false end.

(** The markers read with the kinds the specification names: an
    install script file, a [scripts] subdirectory, a module marker
    file, a README file. *)
Definition has_marker_file (entries : gmap string node) : bool :=
  is_file (entries !! "install.py")
  || match entries !! "scripts" with Some (Dir _) => true | _ => false end
  || is_file (entries !! "__init__.py")
  || is_file (entries !! "README.md").

(** What the loop of [_scan_installed_extensions] keeps: the items
    that are directories, are not hidden and have an info file. *)
Definition scan_accepts (self : ExtensionAPI) (t : node) (item : string) : bool :=
  match lookup_path (join (extensions_path self) item) t with
  | Some (Dir es) => negb (startswith item ".") && has_info_file es
  | _ => false
  end.

(** Where an extension and a backup live. *)
Definition extension_dir (self : ExtensionAPI) (extension_id : string) : path :=
  join (extensions_path self) extension_id.
Definition backup_dir (self : ExtensionAPI) (backup_id : string) : path :=
  join (backup_path self) backup_id.

(** The result dictionaries. *)
Definition toggle_ok (extension_id : string) (enabled : bool) : Result :=
  {| success := true; extensionId := extension_id; version := None;
     message := "Extension " +:+ (if enabled then "enabled" else "disabled");
     backupId := None; enabled := Some enabled |}.

Definition failure (extension_id msg : string) : Result :=
  {| success := false; extensionId := extension_id; version := None;
     message := msg; backupId := None; enabled := None |}.

Definition uninstall_ok (extension_id backup_id : string) : Result :=
  {| success := true; extensionId := extension_id; version := None;
     message := "Extension uninstalled successfully";
     backupId := Some backup_id; enabled := None |}.

Definition install_ok (request : InstallRequest) (metadata : ExtensionMetadata) : Result :=
  {| success := true; extensionId := req_extensionId request;
     version := Some (or_default (req_version request) (meta_version metadata));
     message := "Successfully installed " +:+ meta_name metadata;
     backupId := None; enabled := None |}.

(** ** Example worlds *)

Definition dt0 : datetime :=
  {| year := 2024; month := 3; day := 9; hour := 14; minute := 5; second := 7;
     microsecond := 42 |}.

Definition api0 : ExtensionAPI := {| sd_path := ["sd"] |}.

(** An extension [foo] with an install script, a hidden directory, an
    empty directory [bar], and a directory [docs] whose only entry is a
    directory named [README.md]. *)
Definition extensions0 : gmap string node :=
  <["foo" := Dir (<["install.py" := File "print('hi')"]> ∅)]>
  (<[".git" := Dir (<["README.md" := File "x"]> ∅)]>
  (<["bar" := Dir ∅]>
  (<["docs" := Dir (<["README.md" := Dir ∅]> ∅)]> ∅))).

Definition fs0 : node :=
  Dir (<["sd" := Dir (<["extensions" := Dir extensions0]>
                     (<["backups" := Dir (<["extensions" := Dir ∅]> ∅)]>
                     (<["temp" := Dir (<["extensions" := Dir ∅]> ∅)]> ∅)))]> ∅).

Definition w0 : World := {| fs := fs0; now := dt0; faults := []; stdout := [] |}.

(** The same world with the next mutating call refused. *)
Definition w0_refused : World :=
  {| fs := fs0; now := dt0;
     faults := [Some (Error "PermissionError" "Permission denied")]; stdout := [] |}.

(** The same world with the second mutating call refused, and what a
    backup of [foo] leaves there: the backup directory made, its one
    entry not copied. *)
Definition w0_second_refused : World :=
  {| fs := fs0; now := dt0;
     faults := [None; Some (Error "PermissionError" "Permission denied")]; stdout := [] |}.

Definition w0_partial_backup : World :=
  snd (_create_backup api0 "foo" "before_uninstall" w0_second_refused).

(** A network that is down, and an install script that hangs. *)
Definition env0 : Env :=
  {| git_clone_from := λ _, inl (Error "GitCommandError" "repository not found");
     git_checkout := λ _ _, None;
     git_head_hexsha := λ _, inr None;
     requests_get := λ _, inl (Error "ConnectionError" "connection refused");
     zip_members := λ _, inr [];
     subprocess_run := λ _ _ _ t, (TimedOut, t);
     getctime_iso := λ _, "2024-03-09T14:05:07";
     timestamp_repr := λ _, "1709993107.123456" |}.

(** A reachable repository whose checkout has an install script; the
    script exits with status 1. *)
Definition env1 : Env :=
  {| git_clone_from := λ _, inr (Dir (<["install.py" := File "raise SystemExit(1)"]> ∅));
     git_checkout := λ _ _, None;
     git_head_hexsha := λ _, inr None;
     requests_get := λ _, inl (Error "ConnectionError" "connection refused");
     zip_members := λ _, inr [];
     subprocess_run := λ _ _ _ t, (Completed 1, t);
     getctime_iso := λ _, "2024-03-09T14:05:07";
     timestamp_repr := λ _, "1709993107.123456" |}.

Definition request0 (id : string) : InstallRequest :=
  {| req_extensionId := id; req_version := None; force := false;
     installDependencies := true |}.

Definition metadata0 (id method : string) : ExtensionMetadata :=
  {| meta_id := id; meta_name := "Example"; meta_version := "1.0";
     repository := "https://example.org/repo.git"; dependencies := [];
     installUrl := "https://example.org/repo.zip"; installMethod := method |}.

(** The world after the backup of [foo] taken for [reason], and after
    the removal of [foo] that follows it. *)
Definition w0_backed_up (reason : string) : World :=
  snd (_create_backup api0 "foo" reason w0).

Definition w0_removed (reason : string) : World :=
  snd (shutil_rmtree (extension_dir api0 "foo") (w0_backed_up reason)).

(** The world after the clone of a new extension [new] from the
    repository of [env1]. *)
Definition w0_cloned : World :=
  snd (install_materialize env1 api0 (request0 "new") (metadata0 "new" "git_clone") w0).

(** What the scan of [w0] lists. *)
Definition scanned0 : list InstalledExtension :=
  match fst (_scan_installed_extensions env0 api0 w0) with
  | Ret l => l
  | Raise _ => []
  end.

(** ** More example worlds *)

(** Collaborators that answer the same whatever they are asked. *)
Definition env_of (clone : Exn + node) (moved : option node) (got : Exn + Download)
    (members : Exn + list (path * option string)) (ended : ProcOutcome) : Env :=
  {| git_clone_from := λ _, clone;
     git_checkout := λ _ _, moved;
     git_head_hexsha := λ _, inr None;
     requests_get := λ _, got;
     zip_members := λ _, members;
     subprocess_run := λ _ _ _ t, (ended, t);
     getctime_iso := λ _, "2024-03-09T14:05:07";
     timestamp_repr := λ _, "1709993107.123456" |}.

Definition unreachable : Exn := Error "ConnectionError" "connection refused".

(** A repository whose checkout has a README only; git can move it to
    any version. *)
Definition env_plain : Env :=
  env_of (inr (Dir (<["README.md" := File "plain"]> ∅)))
    (Some (Dir (<["README.md" := File "moved"]> ∅)))
    (inl unreachable) (inr []) (Completed 0).


(** A checkout with an install script, and a launcher that ends as
    told. *)
Definition env_script (ended : ProcOutcome) : Env :=
  env_of (inr (Dir (<["install.py" := File "print('hi')"]> ∅))) None
    (inl unreachable) (inr []) ended.

(** A download that arrives, read as an archive as told. *)
Definition env_archive (members : Exn + list (path * option string)) : Env :=
  env_of (inl unreachable) None (inr {| received := "PK"; interrupted := None |})
    members (Completed 0).

(** A download whose stream breaks after two bytes. *)
Definition env_interrupted : Env :=
  env_of (inl unreachable) None
    (inr {| received := "PK";
            interrupted := Some (Error "ChunkedEncodingError" "Connection broken") |})
    (inr []) (Completed 0).

Definition members0 : list (path * option string) :=
  [(["scripts"], None); (["scripts"; "a.py"], Some "pass"); (["README.md"], Some "hi")].

(** The byte 255, which starts no UTF-8 sequence. *)
Definition undecodable : string := String (ascii_of_nat 255) "".

Definition host0 : HostEnv :=
  {| search_version := λ content, if contains content "version" then Some "1.7.0" else None;
     open_text := λ _ data,
       if contains data undecodable
       then inl (Error "UnicodeDecodeError" "invalid start byte")
       else inr data;
     git_tags_newest_first := λ _, inr ["v1.6.0"; "v1.5.0"];
     ping := inr 200 |}.

Definition world_of (t : node) (l : list (option Exn)) : World :=
  {| fs := t; now := dt0; faults := l; stdout := [] |}.

Definition sd_tree (extensions : node) : node :=
  Dir (<["sd" := Dir (<["extensions" := extensions]>
                     (<["backups" := Dir (<["extensions" := Dir ∅]> ∅)]>
                     (<["temp" := Dir (<["extensions" := Dir ∅]> ∅)]> ∅)))]> ∅).

(** The extensions root is a file. *)
Definition w_root_file : World := world_of (sd_tree (File "not a directory")) [].

(** [foo] is a file. *)
Definition w_foo_file : World := world_of (sd_tree (Dir (<["foo" := File "x"]> ∅))) [].

(** Both [foo] and [disabled_foo] are there. *)
Definition w_both : World :=
  world_of (sd_tree (Dir (<["foo" := Dir (<["install.py" := File "a"]> ∅)]>
                         (<["disabled_foo" := Dir (<["install.py" := File "b"]> ∅)]> ∅)))) [].

(** The copy of [foo] goes through (three calls), the call after it is
    refused. *)
Definition w0_delete_refused : World :=
  world_of fs0 [None; None; None; Some (Error "PermissionError" "Permission denied")].

(** An empty disk. *)
Definition w_empty : World := world_of (Dir ∅) [].

(** The host has a [launch.py], a [.git] and no extensions root. *)
Definition w_host : World :=
  world_of (Dir (<["sd" := Dir (<["launch.py" := File "version = '1.7.0'"]>
                               (<[".git" := Dir ∅]> ∅))]> ∅)) [].

(** The host's [launch.py] is a directory. *)
Definition w_host_dir : World :=
  world_of (Dir (<["sd" := Dir (<["launch.py" := Dir ∅]> (<[".git" := Dir ∅]> ∅))]> ∅)) [].

(** The host's [launch.py] is not UTF-8 text. *)
Definition w_host_undecodable : World :=
  world_of (Dir (<["sd" := Dir (<["launch.py" := File ("version = " +:+ undecodable)]>
                               (<[".git" := Dir ∅]> ∅))]> ∅)) [].

(** * Properties *)

(** ** Strings *)

Lemma startswith_app (pre s : string) : startswith (pre +:+ s) pre = true.
Proof. unfold startswith. induction pre as [|c pre IH]; simpl.
  - by destruct s.
  - rewrite IH. by destruct (Ascii.ascii_dec c c).
Qed.

Lemma slice_from_app (pre s : string) : slice_from (String.length pre) (pre +:+ s) = s.
Proof. induction pre; simpl; auto. Qed.

Lemma length_app (a b : string) :
  String.length (a +:+ b) = String.length a + String.length b.
Proof. induction a; simpl; auto. Qed.

Lemma append_assoc (a b c : string) : a +:+ (b +:+ c) = (a +:+ b) +:+ c.
Proof. induction a as [|x a IH]; [done |]. change (String x (a +:+ (b +:+ c)) = String x ((a +:+ b) +:+ c)). by f_equal. Qed.

Lemma contains_startswith (s needle : string) :
  startswith s needle = true → contains s needle = true.
Proof. unfold startswith. intros H. destruct s; cbn [contains]; by rewrite H. Qed.

Lemma prefixed_ne (pre s : string) : pre ≠ "" → s ≠ pre +:+ s.
Proof.
  intros Hp Heq. apply (f_equal String.length) in Heq. rewrite length_app in Heq.
  destruct pre; [done | simpl in Heq; lia].
Qed.

Lemma zero_pad_length (w n : nat) : String.length (zero_pad w n) = w.
Proof.
  revert n. induction w as [|w IH]; intros n; simpl; [done |].
  rewrite length_app, IH. simpl. lia.
Qed.

Lemma strftime_length (dt : datetime) : String.length (strftime dt) = 15.
Proof. unfold strftime. rewrite !length_app, !zero_pad_length. reflexivity. Qed.

Lemma append_nil_r (a : string) : a +:+ "" = a.
Proof. induction a as [|c a IH]; [done |]. change (String c (a +:+ "") = String c a). by f_equal. Qed.

Lemma slice_to_app (a b : string) : slice_to (String.length a) (a +:+ b) = a.
Proof. induction a as [|c a IH]; simpl; [by destruct b | by rewrite IH]. Qed.

Lemma digits_value_app (acc : nat) (a b : string) :
  digits_value acc (a +:+ b)
  = match digits_value acc a with
    | Some v => digits_value v b
    | None => None
    end.
Proof.
  revert acc. induction a as [|c a IH]; intros acc; simpl; [done |].
  by destruct (digit_value c).
Qed.

Lemma digit_value_digit (d : nat) :
  (d < 10)%nat → digit_value (ascii_of_nat (48 + d)) = Some d.
Proof.
  intros H. unfold digit_value. rewrite nat_ascii_embedding by lia.
  replace ((48 <=? 48 + d)%nat) with true by (symmetry; apply Nat.leb_le; lia).
  replace ((48 + d <=? 57)%nat) with true by (symmetry; apply Nat.leb_le; lia).
  simpl. f_equal. lia.
Qed.

(** The digits [zero_pad] writes read back as the number, up to the
    width. *)
Lemma digits_value_zero_pad (w n : nat) :
  digits_value 0 (zero_pad w n) = Some (n mod 10 ^ w)%nat.
Proof.
  revert n. induction w as [|w IH]; intros n.
  - cbn [zero_pad digits_value]. change (10 ^ 0)%nat with 1%nat. by rewrite Nat.mod_1_r.
  - cbn [zero_pad]. rewrite digits_value_app, IH. cbn [digits_value].
    rewrite digit_value_digit by (apply Nat.mod_upper_bound; lia).
    f_equal. rewrite Nat.pow_succ_r', Nat.Div0.mod_mul_r. lia.
Qed.

Lemma take_number_app (w n : nat) (a rest : string) :
  String.length a = w → digits_value 0 a = Some n →
  take_number w (a +:+ rest) = Some (n, rest).
Proof.
  intros <- Hv. unfold take_number.
  replace ((String.length a <=? String.length (a +:+ rest))%nat) with true
    by (symmetry; apply Nat.leb_le; rewrite length_app; lia).
  by rewrite slice_to_app, slice_from_app, Hv.
Qed.

Lemma take_number_zero_pad (w n : nat) (rest : string) :
  (n < 10 ^ w)%nat → take_number w (zero_pad w n +:+ rest) = Some (n, rest).
Proof.
  intros H. apply take_number_app; [apply zero_pad_length |].
  by rewrite digits_value_zero_pad, Nat.mod_small.
Qed.

Lemma valid_datetime_bounds (dt : datetime) :
  valid_datetime dt = true →
  (year dt < 10 ^ 4 ∧ month dt < 10 ^ 2 ∧ day dt < 10 ^ 2
   ∧ hour dt < 10 ^ 2 ∧ minute dt < 10 ^ 2 ∧ second dt < 10 ^ 2)%nat.
Proof.
  unfold valid_datetime. rewrite !andb_true_iff, !Nat.leb_le, !Nat.ltb_lt.
  change (10 ^ 2)%nat with 100%nat. intros H. split; [tauto | lia].
Qed.

(** The timestamp read back gives the time to the second. *)
Lemma strptime_strftime (dt : datetime) :
  valid_datetime dt = true → strptime (strftime dt) = Some (replace_microsecond 0 dt).
Proof.
  intros H. apply valid_datetime_bounds in H as (HY & Hm & Hd & HH & HM & HS).
  unfold strptime, strftime.
  rewrite (take_number_zero_pad 4 _ _ HY). cbn [mbind option_bind].
  rewrite (take_number_zero_pad 2 _ _ Hm). cbn [mbind option_bind].
  rewrite (take_number_zero_pad 2 _ _ Hd). cbn [mbind option_bind].
  change ("_" +:+ ?rest) with (String "_" rest). cbv beta iota.
  rewrite (take_number_zero_pad 2 _ _ HH). cbn [mbind option_bind].
  rewrite (take_number_zero_pad 2 _ _ HM). cbn [mbind option_bind].
  rewrite <- (append_nil_r (zero_pad 2 (second dt))).
  by rewrite (take_number_zero_pad 2 _ _ HS).
Qed.

Example strftime_dt0 : strftime dt0 = "20240309_140507".
Proof. reflexivity. Qed.

Example humanized_name :
  title (replace_char "_" " " (replace_char "-" " " "disabled_sd-webui")) = "Disabled Sd Webui".
Proof. reflexivity. Qed.

Example backup_id_dt0 :
  backup_id_of "foo" "before_install" dt0 = "foo_before_install_20240309_140507".
Proof. reflexivity. Qed.

(** ** The file-system tree *)

Lemma lookup_path_app (p q : path) (t : node) :
  lookup_path (p ++ q) t =
  match lookup_path p t with Some c => lookup_path q c | None => None end.
Proof.
  revert t. induction p as [|n p IH]; intros t; simpl; [done |].
  destruct t as [|es]; [done |]. destruct (es !! n); [apply IH | done].
Qed.

Lemma lookup_path_below_none (p q : path) (t : node) :
  lookup_path p t = None → lookup_path (p ++ q) t = None.
Proof. intros H. by rewrite lookup_path_app, H. Qed.

Lemma diverge_app (r p q : path) : diverge (r ++ p) (r ++ q) = diverge p q.
Proof. induction r as [|x r IH]; simpl; [done |]. by rewrite decide_True. Qed.

Lemma diverge_sym (p q : path) : diverge p q = diverge q p.
Proof.
  revert q. induction p as [|x p IH]; intros [|y q]; simpl; try done.
  destruct (decide (x = y)) as [->|Hne].
  - rewrite decide_True by done. apply IH.
  - by rewrite decide_False by congruence.
Qed.

Lemma diverge_below (p q r : path) : diverge p q = true → diverge p (q ++ r) = true.
Proof.
  revert q. induction p as [|x p IH]; intros [|y q]; simpl; try done.
  destruct (decide (x = y)); [apply IH | done].
Qed.

Lemma lookup_put_eq (b : bool) (p : path) (v t t' : node) :
  put_path b p v t = Some t' → lookup_path p t' = Some v.
Proof.
  revert t t'. induction p as [|n p IH]; intros t t' H; simpl in *.
  - by inversion H.
  - destruct t as [|es]; [done |].
    destruct (es !! n) as [c|] eqn:Hn.
    + destruct (put_path b p v c) as [c'|] eqn:Hc; [|done].
      inversion H; subst. rewrite lookup_insert_eq. eauto.
    + destruct p as [|m p'].
      * inversion H; subst. by rewrite lookup_insert_eq.
      * destruct b; [|done].
        destruct (put_path true (m :: p') v (Dir ∅)) as [c'|] eqn:Hc; [|done].
        inversion H; subst. rewrite lookup_insert_eq. eauto.
Qed.

Lemma lookup_put_diverge (b : bool) (p q : path) (v t t' : node) :
  put_path b p v t = Some t' → diverge p q = true →
  lookup_path q t' = lookup_path q t.
Proof.
  revert q t t'. induction p as [|n p IH]; intros q t t' H Hd; [done |].
  destruct q as [|y q]; [done |]. simpl in Hd, H.
  destruct t as [|es]; [done |].
  destruct (decide (n = y)) as [->|Hne].
  - destruct (es !! y) as [c|] eqn:Hn.
    + destruct (put_path b p v c) as [c'|] eqn:Hc; [|done].
      inversion H; subst. simpl. rewrite lookup_insert_eq, Hn. eauto.
    + destruct p as [|m p']; [done |].
      destruct b; [|done].
      destruct (put_path true (m :: p') v (Dir ∅)) as [c'|] eqn:Hc; [|done].
      inversion H; subst. simpl. rewrite lookup_insert_eq, Hn.
      rewrite (IH _ _ _ Hc Hd). destruct q; [done |]. simpl. by rewrite lookup_empty.
  - assert (∃ c', t' = Dir (<[n := c']> es)) as [c' ->].
    { destruct (es !! n) as [c|]; [destruct (put_path b p v c); inversion H; eauto |].
      destruct p as [|m p']; [inversion H; eauto |]. destruct b; [|done].
      destruct (put_path true (m :: p') v (Dir ∅)); inversion H; eauto. }
    simpl. by rewrite lookup_insert_ne.
Qed.

Lemma lookup_remove_below (p q : path) (t : node) :
  p ≠ [] → lookup_path (p ++ q) (remove_path p t) = None.
Proof.
  revert t. induction p as [|n p IH]; intros t Hp; [done |].
  destruct t as [|es]; [done |]. simpl.
  destruct p as [|m p'].
  - simpl. by rewrite lookup_delete_eq.
  - destruct (es !! n) as [c|] eqn:Hn.
    + simpl. rewrite lookup_insert_eq. by apply IH.
    + simpl. by rewrite Hn.
Qed.

Lemma lookup_remove_eq (p : path) (t : node) :
  p ≠ [] → lookup_path p (remove_path p t) = None.
Proof. intros Hp. rewrite <- (app_nil_r p) at 1. by apply lookup_remove_below. Qed.

Lemma lookup_remove_diverge (p q : path) (t : node) :
  diverge p q = true → lookup_path q (remove_path p t) = lookup_path q t.
Proof.
  revert q t. induction p as [|n p IH]; intros q t Hd; [done |].
  destruct q as [|y q]; [done |]. simpl in Hd.
  destruct t as [|es]; [done |].
  destruct (decide (n = y)) as [->|Hne].
  - destruct p as [|m p']; [done |]. simpl.
    destruct (es !! y) as [c|] eqn:Hn.
    + simpl. rewrite lookup_insert_eq. by apply IH.
    + simpl. by rewrite Hn.
  - simpl. destruct p as [|m p'].
    + simpl. by rewrite lookup_delete_ne.
    + destruct (es !! n); simpl; [by rewrite lookup_insert_ne | done].
Qed.

Lemma put_path_cons (b : bool) (n : string) (p : path) (v : node) (es : gmap string node) :
  put_path b (n :: p) v (Dir es) =
  match es !! n with
  | Some c =>
      match put_path b p v c with
      | Some c' => Some (Dir (<[n := c']> es))
      | None => None
      end
  | None =>
      match p with
      | [] => Some (Dir (<[n := v]> es))
      | _ :: _ =>
          if b then
            match put_path b p v (Dir ∅) with
            | Some c' => Some (Dir (<[n := c']> es))
            | None => None
            end
          else None
      end
  end.
Proof. reflexivity. Qed.

Lemma remove_path_cons (n m : string) (p : path) (es : gmap string node) :
  remove_path (n :: m :: p) (Dir es) =
  match es !! n with
  | Some c => Dir (<[n := remove_path (m :: p) c]> es)
  | None => Dir es
  end.
Proof. reflexivity. Qed.

(** Putting back what was removed restores the tree. *)
Lemma put_remove_id (p : path) (v t : node) :
  lookup_path p t = Some v → put_path false p v (remove_path p t) = Some t.
Proof.
  revert t. induction p as [|n p IH]; intros t H.
  - simpl in *. congruence.
  - destruct t as [|es]; [done |]. simpl in H.
    destruct (es !! n) as [c|] eqn:Hn; [|done].
    destruct p as [|m p'].
    + simpl in H. inversion H; subst. simpl. rewrite lookup_delete_eq.
      by rewrite insert_delete_eq, insert_id.
    + rewrite remove_path_cons, Hn, put_path_cons, lookup_insert_eq.
      rewrite (IH _ H). by rewrite insert_insert_eq, insert_id.
Qed.

(** Removing what was put at a free place restores the tree. *)
Lemma remove_put_id (p : path) (v t t' : node) :
  p ≠ [] → lookup_path p t = None → put_path false p v t = Some t' →
  remove_path p t' = t.
Proof.
  revert t t'. induction p as [|n p IH]; intros t t' Hp Hnone H; [done |].
  destruct t as [|es]; [done |]. rewrite put_path_cons in H. simpl in Hnone.
  destruct (es !! n) as [c|] eqn:Hn.
  - destruct p as [|m p']; [done |].
    destruct (put_path false (m :: p') v c) as [c'|] eqn:Hc; [|done].
    inversion H; subst. rewrite remove_path_cons, lookup_insert_eq.
    rewrite (IH c c'); [|done..]. by rewrite insert_insert_eq, insert_id.
  - destruct p as [|m p']; [|done].
    inversion H; subst. simpl. by rewrite delete_insert_id.
Qed.

(** A free name in an existing directory can always be taken. *)
Lemma put_in_dir (b : bool) (p : path) (n : string) (v t : node) (es : gmap string node) :
  lookup_path p t = Some (Dir es) →
  ∃ t', put_path b (p ++ [n]) v t = Some t'.
Proof.
  revert t. induction p as [|m p IH]; intros t H; simpl in *.
  - inversion H; subst. destruct (es !! n); eauto.
  - destruct t as [|es']; [done |].
    destruct (es' !! m) as [c|] eqn:Hm; [|done].
    destruct (IH _ H) as [c' ->]. eauto.
Qed.

(** Removing an entry leaves its parent a directory. *)
Lemma lookup_remove_parent (p : path) (n : string) (t : node) (es : gmap string node) :
  lookup_path p t = Some (Dir es) →
  lookup_path p (remove_path (p ++ [n]) t) = Some (Dir (delete n es)).
Proof.
  revert t. induction p as [|m p IH]; intros t H.
  - simpl in *. by inversion H.
  - destruct t as [|es']; [done |]. simpl in H.
    destruct (es' !! m) as [c|] eqn:Hm; [|done].
    rewrite <- app_comm_cons.
    destruct (p ++ [n])%list as [|x l] eqn:Hl; [by destruct p |].
    rewrite remove_path_cons, Hm. cbn [lookup_path]. rewrite lookup_insert_eq.
    by apply IH.
Qed.

(** Putting an entry into a directory leaves it a directory. *)
Lemma lookup_put_parent (b : bool) (p : path) (n : string) (v t t' : node)
    (es : gmap string node) :
  lookup_path p t = Some (Dir es) →
  put_path b (p ++ [n]) v t = Some t' →
  lookup_path p t' = Some (Dir (<[n := v]> es)).
Proof.
  revert t t'. induction p as [|m p IH]; intros t t' H Hp.
  - simpl in *. inversion H; subst. destruct (es !! n); by inversion Hp.
  - destruct t as [|es']; [done |]. simpl in H.
    destruct (es' !! m) as [c|] eqn:Hm; [|done].
    rewrite <- app_comm_cons, put_path_cons, Hm in Hp.
    destruct (put_path b (p ++ [n]) v c) as [c'|] eqn:Hc; [|done].
    inversion Hp; subst. cbn [lookup_path]. rewrite lookup_insert_eq. eauto.
Qed.

(** ** The primitives *)

Ltac run :=
  unfold bind, ret, raise, get_fs, put_fs, print, datetime_now,
    os_path_exists, os_path_isdir in *; simpl in *.

Lemma bind_ret_run {A B} (m : M A) (k : A → M B) (w w' : World) (a : A) :
  m w = (Ret a, w') → bind m k w = k a w'.
Proof. intros H. unfold bind. by rewrite H. Qed.

Lemma bind_raise_run {A B} (m : M A) (k : A → M B) (w w' : World) (e : Exn) :
  m w = (Raise e, w') → bind m k w = (Raise e, w').
Proof. intros H. unfold bind. by rewrite H. Qed.

Lemma try_except_ret {A} (m : M A) (h : Exn → M A) (w w' : World) (a : A) :
  m w = (Ret a, w') → try_except m h w = (Ret a, w').
Proof. intros H. unfold try_except. by rewrite H. Qed.

Lemma try_except_raise {A} (m : M A) (h : Exn → M A) (w w' : World) (e : Exn) :
  m w = (Raise e, w') → try_except m h w = h e w'.
Proof. intros H. unfold try_except. by rewrite H. Qed.

(** A handler that returns makes the whole [try] return. *)
Lemma try_except_total {A} (m : M A) (f : Exn → A) (w : World) :
  ∃ a w', try_except m (λ e, ret (f e)) w = (Ret a, w')
          ∧ match m w with
            | (Ret b, w1) => a = b ∧ w' = w1
            | (Raise e, w1) => a = f e ∧ w' = w1
            end.
Proof.
  unfold try_except, ret. destruct (m w) as [[b|e] w1]; simpl; eauto.
Qed.

Lemma os_call_frame (w w' : World) (o : Outcome unit) :
  os_call w = (o, w') → fs w' = fs w ∧ now w' = now w ∧ stdout w' = stdout w.
Proof.
  unfold os_call. destruct (faults w) as [|[e|] l]; intros H; inversion H; by subst.
Qed.

Lemma os_call_allowed (w : World) :
  calls_allowed 1 w = true → ∃ w', os_call w = (Ret tt, w') ∧
    fs w' = fs w ∧ now w' = now w ∧ stdout w' = stdout w ∧ faults w' = tail (faults w).
Proof.
  unfold calls_allowed, os_call. destruct w as [t d l o]; simpl.
  destruct l as [|[e|] l]; simpl; intros H; [eauto 10 | done | eauto 10].
Qed.

Lemma calls_allowed_S (n : nat) (w w' : World) :
  calls_allowed (S n) w = true → faults w' = tail (faults w) →
  calls_allowed n w' = true.
Proof.
  unfold calls_allowed. intros H ->. destruct (faults w) as [|[e|] l]; simpl in *;
    [by destruct n | done | done].
Qed.

Lemma calls_allowed_1 (n : nat) (w : World) :
  calls_allowed (S n) w = true → calls_allowed 1 w = true.
Proof.
  unfold calls_allowed. by destruct (faults w) as [|[e|] l].
Qed.

Lemma allowed_add (n m : nat) (l : list (option Exn)) :
  allowed (take (n + m) l) = true →
  allowed (take n l) = true ∧ allowed (take m (drop n l)) = true.
Proof.
  rewrite <- take_take_drop, forallb_app. by intros [??]%andb_true_iff.
Qed.

(** Induction on trees. *)
Lemma depth_child (es : gmap string node) (name : string) (child : node) :
  es !! name = Some child → depth child < depth (Dir es).
Proof.
  intros H. apply elem_of_map_to_list in H. cbn [depth]. rewrite map_fold_foldr.
  induction (map_to_list es) as [|[k c] entries IH]; [by apply elem_of_nil in H |].
  apply elem_of_cons in H as [H|H]; simpl in *.
  - inversion H; subst. lia.
  - specialize (IH H). lia.
Qed.

Lemma node_induction (P : node → Prop) :
  (∀ data, P (File data)) →
  (∀ es, (∀ name child, es !! name = Some child → P child) → P (Dir es)) →
  ∀ n, P n.
Proof.
  intros Hfile Hdir n. remember (depth n) as k eqn:Hk. revert n Hk.
  induction k as [k IH] using lt_wf_ind. intros [data|es] ->; [apply Hfile |].
  apply Hdir. intros name child H. eapply IH; [by eapply depth_child | done].
Qed.

Lemma copystat_complete (copied copied' : gmap string node) (l rest : list (option Exn)) :
  copystat (copied, [], l) = (copied', [], rest) → copied' = copied.
Proof. destruct l as [|[e|] l]; simpl; intros H; by inversion H. Qed.

Lemma copy_list_complete (entries : list (string * node)) :
  (∀ name child, (name, child) ∈ entries →
     ∀ l rest c, copy_node child l = (c, [], rest) → c = Some child) →
  ∀ l copied rest,
    foldr (uncurry (copy_entry copy_node)) (λ l, (∅, [], l)) entries l = (copied, [], rest) →
    copied = list_to_map entries.
Proof.
  induction entries as [|[name child] entries IHe]; intros IH l0 copied r.
  - simpl. intros H. by inversion H.
  - simpl. unfold copy_entry at 1.
    destruct (copy_node child l0) as [[c0 errs] l1] eqn:Hc.
    destruct (foldr _ _ entries l1) as [[copied1 errors1] rest1] eqn:Hf.
    intros H. inversion H as [[Hcopied Herr Hrest]].
    apply app_eq_nil in Herr as [-> ->].
    apply (IH name) in Hc as ->; [|by left].
    apply IHe in Hf as ->; [done |].
    intros name' child' Hin. apply (IH name'). by right.
Qed.

Lemma copy_list_allowed (entries : list (string * node)) :
  (∀ name child, (name, child) ∈ entries →
     ∀ l, allowed (take (copy_calls child) l) = true →
          copy_node child l = (Some child, [], drop (copy_calls child) l)) →
  ∀ l, allowed (take (foldr (uncurry (λ _ child r, copy_calls child + r)) 0 entries) l)
       = true →
       foldr (uncurry (copy_entry copy_node)) (λ l, (∅, [], l)) entries l
       = (list_to_map entries, [],
          drop (foldr (uncurry (λ _ child r, copy_calls child + r)) 0 entries) l).
Proof.
  induction entries as [|[name child] entries IHe]; intros IH l0.
  - by simpl.
  - simpl. intros [H1 H2]%allowed_add. unfold copy_entry at 1.
    rewrite (IH name child) by (done || by left).
    rewrite IHe; [by rewrite drop_drop | | done].
    intros name' child' Hin. apply (IH name'). by right.
Qed.

(** A copy that met no error copied everything. *)
Lemma copy_node_complete (n : node) (l rest : list (option Exn)) (c : option node) :
  copy_node n l = (c, [], rest) → c = Some n.
Proof.
  revert l rest c. induction n as [data|es IH] using node_induction; intros l rest c.
  - destruct l as [|[e|] l]; simpl; intros H; by inversion H.
  - cbn [copy_node].
    assert (∀ l copied rest, copy_entries copy_node es l = (copied, [], rest) → copied = es)
      as Hes.
    { intros l0 copied r H. unfold copy_entries in H. rewrite map_fold_foldr in H.
      apply copy_list_complete in H; [by rewrite list_to_map_to_list in H |].
      intros name child Hin. apply (IH name). by apply elem_of_map_to_list. }
    destruct l as [|[e|] l]; [| intros H; inversion H |].
    + destruct (copy_entries copy_node es (tail [])) as [[copied errors] r] eqn:Hc.
      destruct (copystat (copied, errors, r)) as [[copied' errors'] r'] eqn:Hs.
      intros H. inversion H; subst.
      assert (errors = []) as -> by (destruct r as [|[e|] r]; simpl in Hs; inversion Hs;
        subst; by try apply app_eq_nil in H2 as [? ?]).
      apply copystat_complete in Hs as ->. by apply Hes in Hc as ->.
    + destruct (copy_entries copy_node es (tail (None :: l))) as [[copied errors] r] eqn:Hc.
      destruct (copystat (copied, errors, r)) as [[copied' errors'] r'] eqn:Hs.
      intros H. inversion H; subst.
      assert (errors = []) as -> by (destruct r as [|[e|] r]; simpl in Hs; inversion Hs;
        subst; by try apply app_eq_nil in H2 as [? ?]).
      apply copystat_complete in Hs as ->. by apply Hes in Hc as ->.
Qed.

Lemma copy_entries_complete (es copied : gmap string node) (l rest : list (option Exn)) :
  copystat (copy_entries copy_node es l) = (copied, [], rest) → copied = es.
Proof.
  intros H.
  assert (copy_node (Dir es) (None :: l) = (Some (Dir copied), [], rest)) as Hn
    by (cbn [copy_node tail]; by rewrite H).
  apply copy_node_complete in Hn. by inversion Hn.
Qed.

(** A copy the system lets through copies everything, and takes the
    calls counted by [copy_calls]. *)
Lemma copy_node_allowed (n : node) (l : list (option Exn)) :
  allowed (take (copy_calls n) l) = true →
  copy_node n l = (Some n, [], drop (copy_calls n) l).
Proof.
  revert l. induction n as [data|es IH] using node_induction; intros l.
  - destruct l as [|[e|] l]; simpl; by try rewrite drop_0.
  - cbn [copy_node copy_calls].
    assert (∀ l, allowed (take (map_fold (λ _ child r, copy_calls child + r) 0 es) l) = true →
              copy_entries copy_node es l
              = (es, [], drop (map_fold (λ _ child r, copy_calls child + r) 0 es) l)) as Hes.
    { intros l0 H. unfold copy_entries. rewrite !map_fold_foldr in *.
      rewrite copy_list_allowed; [by rewrite list_to_map_to_list | | done].
      intros name child Hin. apply (IH name). by apply elem_of_map_to_list. }
    set (k := map_fold (λ _ child r, copy_calls child + r) 0 es) in *.
    destruct l as [|[e|] l]; [| done |]; cbn [tail].
    + intros _. rewrite Hes by (by rewrite take_nil). by rewrite drop_nil.
    + simpl take. simpl forallb. simpl drop. replace (S k) with (k + 1) by lia.
      intros [H1 H2]%allowed_add. rewrite Hes by done. rewrite <- drop_drop.
      destruct (drop k l) as [|[e|] r]; [done | done |]. simpl. by rewrite drop_0.
Qed.

Lemma shutil_copytree_ret (src dst : path) (w w' : World) :
  shutil_copytree src dst w = (Ret tt, w') →
  ∃ es, lookup_path src (fs w) = Some (Dir es)
        ∧ lookup_path dst (fs w) = None
        ∧ put_path true dst (Dir es) (fs w) = Some (fs w')
        ∧ now w' = now w ∧ stdout w' = stdout w.
Proof.
  unfold shutil_copytree, bind at 1. destruct (os_call w) as [[[]|e] w1] eqn:Hc; [|done].
  apply os_call_frame in Hc as (Hf & Hn & Ho). run. unfold path_exists.
  rewrite Hf. destruct (lookup_path src (fs w)) as [[|es]|]; try done.
  destruct (lookup_path dst (fs w)); [done |].
  destruct (copystat _) as [[copied errors] rest] eqn:Hcopy.
  destruct (put_path true dst _ (fs w)) as [t'|] eqn:Hp; [|done].
  destruct errors; [|done]. intros H; inversion H; subst. simpl.
  apply copy_entries_complete in Hcopy as ->. eauto 10.
Qed.

(** A copy that raises has either changed nothing, or has made the
    destination and left in it what it had copied. *)
Lemma shutil_copytree_raise (src dst : path) (w w' : World) (e : Exn) :
  shutil_copytree src dst w = (Raise e, w') →
  now w' = now w ∧ stdout w' = stdout w
  ∧ (fs w' = fs w
     ∨ ∃ es copied, lookup_path src (fs w) = Some (Dir es)
                    ∧ lookup_path dst (fs w) = None
                    ∧ put_path true dst (Dir copied) (fs w) = Some (fs w')).
Proof.
  unfold shutil_copytree, bind at 1. destruct (os_call w) as [[[]|e'] w1] eqn:Hc;
    apply os_call_frame in Hc as (Hf & Hn & Ho).
  - run. unfold path_exists. rewrite Hf.
    destruct (lookup_path src (fs w)) as [[|es]|];
      try (intros H; inversion H; subst; by eauto).
    destruct (lookup_path dst (fs w)); [intros H; inversion H; subst; by eauto |].
    destruct (copystat _) as [[copied errors] rest] eqn:Hcopy.
    destruct (put_path true dst _ (fs w)) as [t'|] eqn:Hp;
      [|intros H; inversion H; subst; by eauto].
    intros H; inversion H; subst. simpl. split; [done |]. split; [done |]. right.
    by exists es, copied.
  - intros H; inversion H; subst; eauto.
Qed.

(** Raising or not, a copy changes nothing outside its destination. *)
Lemma shutil_copytree_frame (src dst q : path) (w w' : World) (o : Outcome unit) :
  shutil_copytree src dst w = (o, w') → diverge dst q = true →
  lookup_path q (fs w') = lookup_path q (fs w).
Proof.
  intros H Hd. destruct o as [[]|e].
  - apply shutil_copytree_ret in H as (es & _ & _ & Hp & _).
    by eapply lookup_put_diverge.
  - apply shutil_copytree_raise in H as (_ & _ & [->|(es & copied & _ & _ & Hp)]); [done |].
    by eapply lookup_put_diverge.
Qed.

Lemma shutil_copytree_ok (src dst : path) (w : World) (es eb : gmap string node) (n : string) (bp : path) :
  dst = join bp n →
  calls_allowed (copy_calls (Dir es)) w = true →
  lookup_path src (fs w) = Some (Dir es) →
  lookup_path bp (fs w) = Some (Dir eb) →
  lookup_path dst (fs w) = None →
  ∃ w', shutil_copytree src dst w = (Ret tt, w')
        ∧ faults w' = drop (copy_calls (Dir es)) (faults w).
Proof.
  intros -> Ha Hs Hb Hd. unfold calls_allowed in Ha.
  pose proof (copy_node_allowed (Dir es) (faults w) Ha) as Hcopy.
  unfold join in *. unfold shutil_copytree, bind at 1. unfold os_call.
  cbn [copy_node] in Hcopy.
  destruct (put_in_dir true bp n (Dir es) (fs w) eb Hb) as [t' Ht'].
  destruct (faults w) as [|[e|] l] eqn:Hl; [| done |].
  - run. unfold path_exists. rewrite Hs, Hd, Hl. cbn [tail] in Hcopy.
    destruct (copystat _) as [[copied errors] rest]. inversion Hcopy; subst.
    rewrite Ht'. eexists. split; [done |]. done.
  - run. unfold path_exists. rewrite Hs, Hd. cbn [tail] in Hcopy.
    destruct (copystat _) as [[copied errors] rest]. inversion Hcopy; subst.
    rewrite Ht'. eexists. split; [done |]. done.
Qed.

Lemma shutil_rmtree_ret (p : path) (w w' : World) :
  shutil_rmtree p w = (Ret tt, w') →
  (∃ es, lookup_path p (fs w) = Some (Dir es))
  ∧ fs w' = remove_path p (fs w) ∧ now w' = now w ∧ stdout w' = stdout w.
Proof.
  unfold shutil_rmtree, bind at 1. destruct (os_call w) as [[[]|e] w1] eqn:Hc; [|done].
  apply os_call_frame in Hc as (Hf & Hn & Ho). run.
  rewrite Hf. destruct (lookup_path p (fs w)) as [[|es]|]; try done.
  intros H; inversion H; subst. simpl. eauto 10.
Qed.

Lemma shutil_rmtree_ok (p : path) (w : World) (es : gmap string node) :
  calls_allowed 1 w = true → lookup_path p (fs w) = Some (Dir es) →
  ∃ w', shutil_rmtree p w = (Ret tt, w').
Proof.
  intros Ha Hp. destruct (os_call_allowed w Ha) as (w1 & Hc & Hf & _).
  unfold shutil_rmtree, bind at 1. rewrite Hc. run. rewrite Hf, Hp. eauto.
Qed.

Lemma os_rename_ok (src dst : path) (v : node) (w : World) :
  calls_allowed 1 w = true →
  lookup_path src (fs w) = Some v →
  lookup_path dst (fs w) = None →
  ∀ t', put_path false dst v (remove_path src (fs w)) = Some t' →
  ∃ w', os_rename src dst w = (Ret tt, w') ∧ fs w' = t'
        ∧ now w' = now w ∧ stdout w' = stdout w ∧ faults w' = tail (faults w).
Proof.
  intros Ha Hs Hd t' Hp. destruct (os_call_allowed w Ha) as (w1 & Hc & Hf & Hn & Ho & Hl).
  unfold os_rename, bind at 1. rewrite Hc. run. unfold path_exists.
  rewrite Hf, Hs, Hd, Hp. eexists. split; [done |]. simpl. eauto.
Qed.

(** ** The operations *)

Section Properties.

Variable env : Env.
Variable self : ExtensionAPI.

Lemma extension_backup_diverge (extension_id backup_id : string) :
  diverge (backup_dir self backup_id) (extension_dir self extension_id) = true.
Proof.
  unfold backup_dir, extension_dir, join, backup_path, extensions_path.
  rewrite <- !app_assoc. by rewrite diverge_app.
Qed.

Lemma extension_dir_diverge (a b : string) :
  a ≠ b → diverge (extension_dir self a) (extension_dir self b) = true.
Proof.
  intros Hne. unfold extension_dir, join. rewrite diverge_app. simpl.
  by rewrite decide_False.
Qed.

Lemma extension_dir_nonempty (a : string) : extension_dir self a ≠ [].
Proof. unfold extension_dir, join. by destruct (extensions_path self). Qed.

(** *** Backup manager *)

Lemma create_backup_absent (extension_id reason : string) (w : World) :
  lookup_path (extension_dir self extension_id) (fs w) = None →
  _create_backup self extension_id reason w
  = (Ret (backup_id_of extension_id reason (now w)), w).
Proof.
  unfold extension_dir. intros H. unfold _create_backup. run. unfold path_exists.
  by rewrite H.
Qed.

Lemma create_backup_ret (extension_id reason b : string) (w w' : World) :
  _create_backup self extension_id reason w = (Ret b, w') →
  b = backup_id_of extension_id reason (now w)
  ∧ now w' = now w ∧ stdout w' = stdout w
  ∧ (lookup_path (extension_dir self extension_id) (fs w) = None ∧ w' = w
     ∨ ∃ es, lookup_path (extension_dir self extension_id) (fs w) = Some (Dir es)
             ∧ lookup_path (backup_dir self b) (fs w) = None
             ∧ put_path true (backup_dir self b) (Dir es) (fs w) = Some (fs w')).
Proof.
  unfold extension_dir, backup_dir, _create_backup. run. unfold path_exists.
  destruct (lookup_path (join (extensions_path self) extension_id) (fs w)) as [d|] eqn:Hs.
  - destruct (shutil_copytree _ _ w) as [[[]|e] w1] eqn:Hc; [|done].
    intros H; inversion H; subst.
    apply shutil_copytree_ret in Hc as (es & Hs' & Hd & Hp & Hn & Ho).
    repeat split; try done. right. exists es. rewrite <- Hs, Hs'. eauto.
  - intros H; inversion H; subst. eauto 10.
Qed.

(** A backup that raises has changed nothing, or has left a backup
    directory holding a part of the extension. *)
Lemma create_backup_raise (extension_id reason : string) (e : Exn) (w w' : World) :
  _create_backup self extension_id reason w = (Raise e, w') →
  now w' = now w ∧ stdout w' = stdout w
  ∧ (fs w' = fs w
     ∨ ∃ es copied,
         lookup_path (extension_dir self extension_id) (fs w) = Some (Dir es)
         ∧ lookup_path (backup_dir self (backup_id_of extension_id reason (now w))) (fs w) = None
         ∧ put_path true (backup_dir self (backup_id_of extension_id reason (now w)))
             (Dir copied) (fs w) = Some (fs w')).
Proof.
  unfold extension_dir, backup_dir, _create_backup. run.
  destruct (path_exists _ _); [|done].
  destruct (shutil_copytree _ _ w) as [[[]|e'] w1] eqn:Hc; [done |].
  intros H; inversion H; subst. by apply shutil_copytree_raise in Hc.
Qed.

(** Returning or raising, a backup changes nothing outside the
    directory of the backup. *)
Lemma create_backup_outside (extension_id reason : string) (o : Outcome string) (q : path)
    (w w' : World) :
  _create_backup self extension_id reason w = (o, w') →
  diverge (backup_dir self (backup_id_of extension_id reason (now w))) q = true →
  lookup_path q (fs w') = lookup_path q (fs w).
Proof.
  intros H Hd. destruct o as [b|e].
  - apply create_backup_ret in H as (-> & _ & _ & [[_ ->]|(es & _ & _ & Hp)]); [done |].
    by eapply lookup_put_diverge.
  - apply create_backup_raise in H as (_ & _ & [->|(es & copied & _ & _ & Hp)]); [done |].
    by eapply lookup_put_diverge.
Qed.

(** Returning or raising, a backup leaves the extensions as they are. *)
Lemma create_backup_extensions (extension_id reason : string) (o : Outcome string) (q : path)
    (w w' : World) :
  _create_backup self extension_id reason w = (o, w') →
  lookup_path (extensions_path self ++ q) (fs w')
  = lookup_path (extensions_path self ++ q) (fs w).
Proof.
  intros H. eapply create_backup_outside; [exact H |].
  unfold backup_dir, join, backup_path, extensions_path.
  rewrite <- !app_assoc. by rewrite diverge_app.
Qed.

(** A backup leaves every extension directory as it was, and holds a
    copy of the one it was taken of. *)
Lemma create_backup_frame (extension_id reason b other : string) (w w' : World) :
  _create_backup self extension_id reason w = (Ret b, w') →
  lookup_path (extension_dir self other) (fs w') = lookup_path (extension_dir self other) (fs w).
Proof.
  intros H. apply create_backup_ret in H as (_ & _ & _ & [[_ ->]|(es & _ & _ & Hp)]); [done |].
  eapply lookup_put_diverge; [exact Hp | apply extension_backup_diverge].
Qed.

Lemma create_backup_copy (extension_id reason b : string) (d : node) (w w' : World) :
  _create_backup self extension_id reason w = (Ret b, w') →
  lookup_path (extension_dir self extension_id) (fs w) = Some d →
  lookup_path (backup_dir self b) (fs w) = None
  ∧ lookup_path (backup_dir self b) (fs w') = Some d.
Proof.
  intros H Hd. apply create_backup_ret in H as (_ & _ & _ & [[Hn _]|(es & Hs & Hfree & Hp)]).
  - congruence.
  - split; [done |]. rewrite Hd in Hs. inversion Hs; subst.
    by apply lookup_put_eq in Hp.
Qed.

(** C6. For every extension identifier and reason, [_create_backup]
    returns the identifier [{extensionId}_{reason}_{timestamp}].  The
    timestamp is the current time written as [%Y%m%d_%H%M%S], fifteen
    characters: read back it gives the current time to the second, so
    two times have the same timestamp exactly when they agree up to the
    second, whatever their microseconds.  If the source directory
    exists (and the copy is not refused: the backup root is a directory
    with no entry of that name, and the system lets every call of the
    copy through), the directory is copied whole to the backup root
    under the identifier; if the source does not exist the identifier
    is returned all the same and nothing is copied: the world is
    unchanged. *)
Theorem create_backup_spec (extension_id reason : string) (w : World) :
  let b := backup_id_of extension_id reason (now w) in
  b = extension_id +:+ "_" +:+ reason +:+ "_" +:+ strftime (now w)
  ∧ String.length (strftime (now w)) = 15
  ∧ (∀ us, strftime (replace_microsecond us (now w)) = strftime (now w))
  ∧ (valid_datetime (now w) = true →
       strptime (strftime (now w)) = Some (replace_microsecond 0 (now w)))
  ∧ (∀ dt, valid_datetime (now w) = true → valid_datetime dt = true →
       (strftime dt = strftime (now w)
        ↔ replace_microsecond 0 dt = replace_microsecond 0 (now w)))
  ∧ (∀ b' w', _create_backup self extension_id reason w = (Ret b', w') → b' = b)
  ∧ (∀ es eb,
       lookup_path (extension_dir self extension_id) (fs w) = Some (Dir es) →
       lookup_path (backup_path self) (fs w) = Some (Dir eb) →
       lookup_path (backup_dir self b) (fs w) = None →
       calls_allowed (copy_calls (Dir es)) w = true →
       ∃ w', _create_backup self extension_id reason w = (Ret b, w')
             ∧ lookup_path (backup_dir self b) (fs w') = Some (Dir es)
             ∧ lookup_path (extension_dir self extension_id) (fs w') = Some (Dir es))
  ∧ (lookup_path (extension_dir self extension_id) (fs w) = None →
       _create_backup self extension_id reason w = (Ret b, w)).
Proof.
  intros b. split_and!.
  - done.
  - apply strftime_length.
  - done.
  - apply strptime_strftime.
  - intros dt Hw Hdt. split.
    + intros H. apply strptime_strftime in Hw, Hdt. congruence.
    + intros H. change (strftime (replace_microsecond 0 dt)
                        = strftime (replace_microsecond 0 (now w))).
      by rewrite H.
  - intros b' w' H. by apply create_backup_ret in H as (-> & _).
  - intros es eb Hs Hb Hfree Ha.
    destruct (shutil_copytree_ok (extension_dir self extension_id) (backup_dir self b)
                w es eb b (backup_path self) eq_refl Ha Hs Hb Hfree) as (w' & Hc & _).
    assert (_create_backup self extension_id reason w = (Ret b, w')) as Hr.
    { unfold _create_backup. run. unfold path_exists. fold (extension_dir self extension_id).
      rewrite Hs. fold b. fold (backup_dir self b). by rewrite Hc. }
    exists w'. split; [done |]. split.
    + by apply (create_backup_copy _ _ _ _ _ _ Hr Hs).
    + by rewrite (create_backup_frame _ _ _ _ _ _ Hr).
  - intros Hs. by apply create_backup_absent.
Qed.

(** *** Uninstall *)

Lemma uninstall_body_present (extension_id : string) (d : node) (w : World) :
  lookup_path (extension_dir self extension_id) (fs w) = Some d →
  uninstall_body self extension_id w
  = (backup_id <- _create_backup self extension_id "before_uninstall" ;;
     shutil_rmtree (extension_dir self extension_id) ;;;
     ret (uninstall_ok extension_id backup_id)) w.
Proof.
  unfold extension_dir. intros H. unfold uninstall_body. run. unfold path_exists.
  by rewrite H.
Qed.

(** C4. When the directory of the identifier is absent under the
    extensions root, [uninstall_extension] returns the failure result
    "Extension not found" and leaves the world as it is: no backup, no
    deletion.  When the directory exists and the backup and the deletion
    succeed, it returns success with the backup identifier; the backup
    holds the directory as it was, and nothing is left at or below the
    directory's path. *)
Theorem uninstall_spec (extension_id : string) (w : World) :
  (lookup_path (extension_dir self extension_id) (fs w) = None →
     uninstall_extension self extension_id w
     = (Ret (failure extension_id "Extension not found"), w))
  ∧ (∀ d b w1 w2,
       lookup_path (extension_dir self extension_id) (fs w) = Some d →
       _create_backup self extension_id "before_uninstall" w = (Ret b, w1) →
       shutil_rmtree (extension_dir self extension_id) w1 = (Ret tt, w2) →
       uninstall_extension self extension_id w = (Ret (uninstall_ok extension_id b), w2)
       ∧ b = backup_id_of extension_id "before_uninstall" (now w)
       ∧ lookup_path (backup_dir self b) (fs w) = None
       ∧ lookup_path (backup_dir self b) (fs w2) = Some d
       ∧ ∀ q, lookup_path (extension_dir self extension_id ++ q) (fs w2) = None).
Proof.
  split.
  - unfold extension_dir. intros H.
    unfold uninstall_extension, try_except, uninstall_body. run. unfold path_exists.
    by rewrite H.
  - intros d b w1 w2 Hd Hb Hr. split; [|split; [|split; [|split]]].
    + unfold uninstall_extension. erewrite try_except_ret; [done |].
      rewrite (uninstall_body_present _ d) by done.
      erewrite bind_ret_run by exact Hb. by erewrite bind_ret_run by exact Hr.
    + by apply create_backup_ret in Hb as (-> & _).
    + by apply (create_backup_copy _ _ _ _ _ _ Hb Hd).
    + apply shutil_rmtree_ret in Hr as (_ & -> & _).
      rewrite lookup_remove_diverge.
      * by apply (create_backup_copy _ _ _ _ _ _ Hb Hd).
      * rewrite diverge_sym. apply extension_backup_diverge.
    + intros q. apply shutil_rmtree_ret in Hr as (_ & -> & _).
      apply lookup_remove_below, extension_dir_nonempty.
Qed.

(** C7 (amended). If the backup raises during the uninstall of an
    existing extension, [uninstall_extension] returns a failure result
    carrying the error and the deletion does not run: the extension
    directory, and every path at or below the extensions root, holds
    what it held.  Nothing has changed outside the directory of the
    backup; that directory itself may have been made, and partly or
    wholly filled, before the copy raised, so the file system need not
    be as it was. *)
Theorem uninstall_backup_failure (extension_id : string) (d : node) (e : Exn) (w w1 : World) :
  lookup_path (extension_dir self extension_id) (fs w) = Some d →
  _create_backup self extension_id "before_uninstall" w = (Raise e, w1) →
  let b := backup_id_of extension_id "before_uninstall" (now w) in
  uninstall_extension self extension_id w
  = (Ret (failure extension_id ("Uninstallation failed: " +:+ str e)), w1)
  ∧ lookup_path (extension_dir self extension_id) (fs w1) = Some d
  ∧ (∀ q, lookup_path (extensions_path self ++ q) (fs w1)
          = lookup_path (extensions_path self ++ q) (fs w))
  ∧ (∀ q, diverge (backup_dir self b) q = true →
          lookup_path q (fs w1) = lookup_path q (fs w))
  ∧ (fs w1 = fs w
     ∨ ∃ es copied, d = Dir es
                    ∧ lookup_path (backup_dir self b) (fs w) = None
                    ∧ lookup_path (backup_dir self b) (fs w1) = Some (Dir copied)).
Proof.
  intros Hd Hb b. split_and!.
  - unfold uninstall_extension. erewrite try_except_raise; [done |].
    rewrite (uninstall_body_present _ d) by done.
    by erewrite bind_raise_run by exact Hb.
  - unfold extension_dir, join in *.
    by rewrite (create_backup_extensions _ _ _ _ _ _ Hb).
  - intros q. by apply (create_backup_extensions _ _ _ _ _ _ Hb).
  - intros q Hq. by apply (create_backup_outside _ _ _ _ _ _ Hb).
  - apply create_backup_raise in Hb as (_ & _ & [Hfs|(es & copied & Hs & Hfree & Hp)]);
      [by left | right].
    exists es, copied. split_and!; [congruence | done |].
    by apply lookup_put_eq in Hp.
Qed.

(** *** Toggle *)

(** C10. When the identifier already encodes the requested state,
    [toggle_extension] returns success and leaves the world untouched,
    whether or not a directory of that name exists: enabling an
    identifier without the [disabled_] prefix, and disabling one that
    has it, that is, any identifier of the form [disabled_X], whatever
    [X] is. *)
Theorem toggle_same_state (extension_id : string) (w : World) :
  (startswith extension_id "disabled_" = false →
     toggle_extension self extension_id true w = (Ret (toggle_ok extension_id true), w))
  ∧ (startswith extension_id "disabled_" = true →
     toggle_extension self extension_id false w = (Ret (toggle_ok extension_id false), w))
  ∧ toggle_extension self ("disabled_" +:+ extension_id) false w
    = (Ret (toggle_ok ("disabled_" +:+ extension_id) false), w).
Proof.
  split_and!.
  - intros H. unfold toggle_extension, try_except, toggle_body. rewrite H. by run.
  - intros H. unfold toggle_extension, try_except, toggle_body. rewrite H. by run.
  - unfold toggle_extension, try_except, toggle_body.
    rewrite (startswith_app "disabled_" extension_id). by run.
Qed.

Lemma toggle_rename (extension_id new_id : string) (enabled : bool) (d : node) (w : World) :
  (if enabled then startswith extension_id "disabled_" = true
                   ∧ new_id = slice_from 9 extension_id
   else startswith extension_id "disabled_" = false
        ∧ new_id = "disabled_" +:+ extension_id) →
  extension_id ≠ new_id →
  lookup_path (extension_dir self extension_id) (fs w) = Some d →
  lookup_path (extension_dir self new_id) (fs w) = None →
  calls_allowed 1 w = true →
  ∃ w', toggle_extension self extension_id enabled w = (Ret (toggle_ok extension_id enabled), w')
        ∧ put_path false (extension_dir self new_id) d
            (remove_path (extension_dir self extension_id) (fs w)) = Some (fs w')
        ∧ lookup_path (extension_dir self new_id) (fs w') = Some d
        ∧ lookup_path (extension_dir self extension_id) (fs w') = None
        ∧ faults w' = tail (faults w).
Proof.
  intros Hcase Hne Hd Hfree Ha.
  assert (∃ eb, lookup_path (extensions_path self) (fs w) = Some (Dir eb)) as [eb Heb].
  { unfold extension_dir, join in Hd. rewrite lookup_path_app in Hd.
    destruct (lookup_path (extensions_path self) (fs w)) as [[|eb]|]; [done | eauto | done]. }
  pose proof (lookup_remove_parent _ extension_id _ _ Heb) as Heb'.
  fold (join (extensions_path self) extension_id) in Heb'.
  fold (extension_dir self extension_id) in Heb'.
  destruct (put_in_dir false (extensions_path self) new_id d _ _ Heb') as [t' Ht'].
  fold (join (extensions_path self) new_id) in Ht'. fold (extension_dir self new_id) in Ht'.
  destruct (os_rename_ok _ _ d w Ha Hd Hfree t' Ht') as (w' & Hr & Hfs & _ & _ & Hfl).
  exists w'. split; [|split; [by rewrite Hfs | split; [|split; [|done]]]].
  - unfold toggle_extension. erewrite try_except_ret; [done |].
    unfold toggle_body. destruct enabled; destruct Hcase as [-> ->]; simpl;
      fold (extension_dir self extension_id);
      [fold (extension_dir self (slice_from 9 extension_id))
      |fold (extension_dir self ("disabled_" +:+ extension_id))];
      by erewrite bind_ret_run by exact Hr.
  - rewrite Hfs. by apply lookup_put_eq in Ht'.
  - rewrite Hfs. rewrite (lookup_put_diverge _ _ _ _ _ _ Ht').
    + apply lookup_remove_eq, extension_dir_nonempty.
    + apply extension_dir_diverge. congruence.
Qed.

(** C2. For a directory name [X] without the [disabled_] prefix,
    [toggle_extension X false] renames the directory to [disabled_X];
    [toggle_extension disabled_X true] renames it back to [X], which
    restores the file system; toggling to the state the name already
    encodes renames nothing and returns success.  (The renames are
    those the operating system carries out: the target name is free and
    the call is not refused.) *)
Theorem toggle_disable_enable (X : string) (d : node) (w : World) :
  startswith X "disabled_" = false →
  lookup_path (extension_dir self X) (fs w) = Some d →
  lookup_path (extension_dir self ("disabled_" +:+ X)) (fs w) = None →
  calls_allowed 2 w = true →
  ∃ w1 w2,
    toggle_extension self X false w = (Ret (toggle_ok X false), w1)
    ∧ lookup_path (extension_dir self ("disabled_" +:+ X)) (fs w1) = Some d
    ∧ lookup_path (extension_dir self X) (fs w1) = None
    ∧ toggle_extension self ("disabled_" +:+ X) true w1
      = (Ret (toggle_ok ("disabled_" +:+ X) true), w2)
    ∧ lookup_path (extension_dir self X) (fs w2) = Some d
    ∧ lookup_path (extension_dir self ("disabled_" +:+ X)) (fs w2) = None
    ∧ fs w2 = fs w
    ∧ toggle_extension self X true w = (Ret (toggle_ok X true), w)
    ∧ toggle_extension self ("disabled_" +:+ X) false w1
      = (Ret (toggle_ok ("disabled_" +:+ X) false), w1).
Proof.
  intros Hx Hd Hfree Ha.
  assert (X ≠ "disabled_" +:+ X) as Hne by (by apply prefixed_ne).
  destruct (toggle_rename X ("disabled_" +:+ X) false d w (conj Hx eq_refl) Hne Hd Hfree
              (calls_allowed_1 _ _ Ha)) as (w1 & Ht1 & Hp1 & Hnew1 & Hold1 & Hfl1).
  pose proof (calls_allowed_S _ _ _ Ha Hfl1) as Ha1.
  destruct (toggle_rename ("disabled_" +:+ X) X true d w1
              (conj (startswith_app "disabled_" X) eq_refl) (not_eq_sym Hne) Hnew1 Hold1 Ha1)
    as (w2 & Ht2 & Hp2 & Hnew2 & Hold2 & _).
  exists w1, w2. repeat split; try done.
  - assert (remove_path (extension_dir self ("disabled_" +:+ X)) (fs w1)
            = remove_path (extension_dir self X) (fs w)) as Hrm.
    { eapply remove_put_id; [apply extension_dir_nonempty | | exact Hp1].
      rewrite lookup_remove_diverge; [done |]. by apply extension_dir_diverge. }
    rewrite Hrm, (put_remove_id _ _ _ Hd) in Hp2. congruence.
  - unfold toggle_extension, try_except, toggle_body. rewrite Hx. by run.
  - unfold toggle_extension, try_except, toggle_body.
    rewrite (startswith_app "disabled_" X). by run.
Qed.

(** *** No operation raises *)

Lemma install_body_ret (request : InstallRequest) (metadata : ExtensionMetadata)
    (r : Result) (w w' : World) :
  install_body env self request metadata w = (Ret r, w') → r = install_ok request metadata.
Proof.
  unfold install_body, bind.
  destruct (install_materialize env self request metadata w) as [[[]|e] w1]; [|done].
  destruct (_configure_extension env (req_extensionId request) _ w1) as [[[]|e] w2]; [|done].
  unfold ret. by inversion 1.
Qed.

Lemma uninstall_body_ret (extension_id : string) (r : Result) (w w' : World) :
  uninstall_body self extension_id w = (Ret r, w') →
  r = failure extension_id "Extension not found" ∨ ∃ b, r = uninstall_ok extension_id b.
Proof.
  unfold uninstall_body. run. destruct (path_exists _ _); simpl.
  - destruct (_create_backup self extension_id "before_uninstall" w) as [[b|e] w1]; [|done].
    destruct (shutil_rmtree _ w1) as [[[]|e] w2]; [|done].
    inversion 1; eauto.
  - inversion 1; eauto.
Qed.

Lemma toggle_body_ret (extension_id : string) (enabled : bool) (r : Result) (w w' : World) :
  toggle_body self extension_id enabled w = (Ret r, w') → r = toggle_ok extension_id enabled.
Proof.
  unfold toggle_body, bind.
  match goal with |- context [match ?m w with _ => _ end] =>
    destruct (m w) as [[[]|e] w1]; [|done] end.
  unfold ret. by inversion 1.
Qed.

(** C1. For every input, [install_extension], [uninstall_extension]
    and [toggle_extension] return a result and never raise: the result
    of the [try] block when it returns, and, for any exception raised
    at any step of the block, a failure result whose message carries
    the text of the exception.  [success] tells the outcome: it is
    false exactly on the failure results, whose message is never
    empty. *)
Theorem operations_never_raise (w : World) :
  (∀ request metadata, ∃ r w',
     install_extension env self request metadata w = (Ret r, w')
     ∧ match install_body env self request metadata w with
       | (Ret r0, w0) => r = r0 ∧ w' = w0 ∧ success r = true
       | (Raise e, w0) =>
           r = failure (req_extensionId request) ("Installation failed: " +:+ str e)
           ∧ w' = w0 ∧ success r = false
       end
     ∧ (success r = false → message r ≠ ""))
  ∧ (∀ extension_id, ∃ r w',
       uninstall_extension self extension_id w = (Ret r, w')
       ∧ match uninstall_body self extension_id w with
         | (Ret r0, w0) => r = r0 ∧ w' = w0
         | (Raise e, w0) =>
             r = failure extension_id ("Uninstallation failed: " +:+ str e)
             ∧ w' = w0 ∧ success r = false
         end
       ∧ (success r = false → message r ≠ ""))
  ∧ (∀ extension_id enabled, ∃ r w',
       toggle_extension self extension_id enabled w = (Ret r, w')
       ∧ match toggle_body self extension_id enabled w with
         | (Ret r0, w0) => r = r0 ∧ w' = w0 ∧ success r = true
         | (Raise e, w0) =>
             r = failure extension_id ("Toggle failed: " +:+ str e)
             ∧ w' = w0 ∧ success r = false
         end
       ∧ (success r = false → message r ≠ "")).
Proof.
  split; [|split].
  - intros request metadata. unfold install_extension, try_except.
    destruct (install_body env self request metadata w) as [[r0|e] w0] eqn:Hb.
    + apply install_body_ret in Hb as ->. exists (install_ok request metadata), w0.
      by repeat split.
    + eexists _, w0. unfold ret. by repeat split.
  - intros extension_id. unfold uninstall_extension, try_except.
    destruct (uninstall_body self extension_id w) as [[r0|e] w0] eqn:Hb.
    + exists r0, w0. repeat split; try done.
      apply uninstall_body_ret in Hb as [->|[b ->]]; by simpl.
    + eexists _, w0. unfold ret. by repeat split.
  - intros extension_id enabled. unfold toggle_extension, try_except.
    destruct (toggle_body self extension_id enabled w) as [[r0|e] w0] eqn:Hb.
    + apply toggle_body_ret in Hb as ->. exists (toggle_ok extension_id enabled), w0.
      by repeat split.
    + eexists _, w0. unfold ret. by repeat split.
Qed.

(** *** Install *)

Lemma pretty_400 : pretty 400%nat = "400".
Proof. reflexivity. Qed.

Lemma pretty_500 : pretty 500%nat = "500".
Proof. reflexivity. Qed.

Lemma install_extension_raise (request : InstallRequest) (metadata : ExtensionMetadata)
    (e : Exn) (w w1 : World) :
  install_materialize env self request metadata w = (Raise e, w1) →
  install_extension env self request metadata w
  = (Ret (failure (req_extensionId request) ("Installation failed: " +:+ str e)), w1).
Proof.
  intros H. unfold install_extension. erewrite try_except_raise; [done |].
  unfold install_body. by erewrite bind_raise_run by exact H.
Qed.

Lemma materialize_unsupported (request : InstallRequest) (metadata : ExtensionMetadata)
    (w : World) :
  installMethod metadata ≠ "git_clone" →
  installMethod metadata ≠ "download_zip" →
  install_materialize env self request metadata w =
  match lookup_path (extension_dir self (req_extensionId request)) (fs w) with
  | Some _ =>
      match _create_backup self (req_extensionId request) "before_install" w with
      | (Ret _, w1) =>
          (Raise (HTTPException 400 ("Unsupported install method: " +:+ installMethod metadata)), w1)
      | (Raise e, w1) => (Raise e, w1)
      end
  | None =>
      (Raise (HTTPException 400 ("Unsupported install method: " +:+ installMethod metadata)), w)
  end.
Proof.
  intros H1 H2. unfold install_materialize, extension_dir.
  rewrite (bool_decide_eq_false_2 _ H1), (bool_decide_eq_false_2 _ H2).
  run. unfold path_exists.
  destruct (lookup_path _ (fs w)); [|done].
  by destruct (_create_backup self (req_extensionId request) "before_install" w) as [[b|e] w1].
Qed.

(** C3, as the code has it.  For an install method that is neither
    [git_clone] nor [download_zip], [install_extension] returns a
    failure result and leaves the target directory as it was (absent if
    it was absent).  When the target did not exist, the message names
    the unsupported install method and the world is unchanged.  When
    the target existed, the [before_install] backup is taken first: if
    it succeeds, a backup directory holding a copy of the target is
    created and the message names the unsupported method; if it raises,
    the message carries that error and nothing has changed outside the
    directory of the backup, which may be left partly filled. *)
Theorem install_unsupported_method (request : InstallRequest) (metadata : ExtensionMetadata)
    (w : World) :
  installMethod metadata ≠ "git_clone" →
  installMethod metadata ≠ "download_zip" →
  let id := req_extensionId request in
  let unsupported :=
    failure id ("Installation failed: 400: Unsupported install method: "
                +:+ installMethod metadata) in
  ∃ r w',
    install_extension env self request metadata w = (Ret r, w')
    ∧ success r = false
    ∧ lookup_path (extension_dir self id) (fs w') = lookup_path (extension_dir self id) (fs w)
    ∧ contains (message unsupported) "Unsupported install method" = true
    ∧ (lookup_path (extension_dir self id) (fs w) = None → r = unsupported ∧ w' = w)
    ∧ (∀ d, lookup_path (extension_dir self id) (fs w) = Some d →
         match _create_backup self id "before_install" w with
         | (Ret b, w1) =>
             r = unsupported ∧ w' = w1
             ∧ lookup_path (backup_dir self b) (fs w) = None
             ∧ lookup_path (backup_dir self b) (fs w') = Some d
         | (Raise e, w1) =>
             r = failure id ("Installation failed: " +:+ str e) ∧ w' = w1
             ∧ (∀ q, lookup_path (extensions_path self ++ q) (fs w')
                     = lookup_path (extensions_path self ++ q) (fs w))
             ∧ (∀ q, diverge (backup_dir self (backup_id_of id "before_install" (now w))) q
                     = true →
                     lookup_path q (fs w') = lookup_path q (fs w))
         end).
Proof.
  intros H1 H2 id unsupported.
  pose proof (materialize_unsupported request metadata w H1 H2) as Hm. fold id in Hm.
  assert (contains (message unsupported) "Unsupported install method" = true) as Hc
    by reflexivity.
  destruct (lookup_path (extension_dir self id) (fs w)) as [d|] eqn:Hd.
  - destruct (_create_backup self id "before_install" w) as [[b|e] w1] eqn:Hb.
    + apply install_extension_raise in Hm. simpl in Hm. rewrite pretty_400 in Hm.
      pose proof (create_backup_copy _ _ _ _ _ _ Hb Hd) as [Hfree Hcopy].
      exists unsupported, w1. split_and!; [done | done | | done | done |].
      * rewrite <- Hd. by apply (create_backup_frame _ _ _ _ _ _ Hb).
      * intros d' Hd'. inversion Hd'; subst. by split_and!.
    + apply install_extension_raise in Hm.
      eexists _, w1. split_and!; [done | done | | done | done |].
      * rewrite <- Hd. unfold extension_dir, join.
        by apply (create_backup_extensions _ _ _ _ _ _ Hb).
      * intros d' _. split_and!; [done | done | |].
        -- intros q. by apply (create_backup_extensions _ _ _ _ _ _ Hb).
        -- intros q Hq. by apply (create_backup_outside _ _ _ _ _ _ Hb).
  - apply install_extension_raise in Hm. simpl in Hm. rewrite pretty_400 in Hm.
    exists unsupported, w. by split_and!.
Qed.

Lemma extension_parent (extension_id : string) (d t : node) :
  lookup_path (extension_dir self extension_id) t = Some d →
  ∃ eb, lookup_path (extensions_path self) t = Some (Dir eb).
Proof.
  unfold extension_dir, join. rewrite lookup_path_app.
  destruct (lookup_path (extensions_path self) t) as [[|eb]|]; [done | eauto | done].
Qed.




(** C9. When the materialization of an install succeeds and the
    target has an install script, a script that runs into the timeout
    of 300 seconds or exits with a non-zero status only adds a warning
    to the output: [install_extension] returns the success result. *)
Theorem install_script_warning (request : InstallRequest) (metadata : ExtensionMetadata)
    (out : ProcOutcome) (t2 : node) (w w1 : World) :
  let id := req_extensionId request in
  let script := join (extension_dir self id) "install.py" in
  install_materialize env self request metadata w = (Ret tt, w1) →
  path_exists script (fs w1) = true →
  subprocess_run env script (extension_dir self id) 300 (fs w1) = (out, t2) →
  out = TimedOut ∨ (∃ code, out = Completed code ∧ code ≠ 0%Z) →
  ∃ w2 warning,
    install_extension env self request metadata w = (Ret (install_ok request metadata), w2)
    ∧ success (install_ok request metadata) = true
    ∧ fs w2 = t2
    ∧ stdout w2 = (stdout w1 ++ [warning])%list
    ∧ contains warning ("Install script for " +:+ id) = true.
Proof.
  intros id script Hm He Hs Hout.
  assert (∀ s, contains ("Install script for " +:+ id +:+ s) ("Install script for " +:+ id) = true)
    as Hcontains.
  { intros s. apply contains_startswith. rewrite append_assoc. apply startswith_app. }
  assert (∃ e, subprocess_run_check env script (extension_dir self id) install_script_timeout w1
               = (Raise e, set_fs t2 w1)
               ∧ ((∃ t, e = TimeoutExpired t) ∨ (∃ c t, e = CalledProcessError c t))) as (e & Hrun & Hcls).
  { unfold subprocess_run_check, install_script_timeout. run. rewrite Hs.
    destruct Hout as [->|(code & -> & Hc)].
    - eexists; split; [done | left; eauto].
    - destruct code; [done | |]; (eexists; split; [done | right; eauto]). }
  assert (∃ warning, _configure_extension env id (extension_dir self id) w1
                     = (Ret tt, add_stdout warning (set_fs t2 w1))
                     ∧ contains warning ("Install script for " +:+ id) = true) as (warning & Hc & Hw).
  { unfold _configure_extension. fold script. run. rewrite He.
    erewrite try_except_raise by exact Hrun.
    destruct Hcls as [[t ->]|(c & t & ->)]; (eexists; split; [done | apply Hcontains]). }
  exists (add_stdout warning (set_fs t2 w1)), warning. split_and!; try done.
  unfold install_extension. erewrite try_except_ret; [done |].
  unfold install_body. fold id. fold (extension_dir self id).
  erewrite bind_ret_run by exact Hm. by erewrite bind_ret_run by exact Hc.
Qed.

(** *** Scanner *)

Lemma path_exists_join (p : path) (n : string) (t : node) :
  path_exists (join p n) t =
  match lookup_path p t with
  | Some (Dir es) => match es !! n with Some _ => true | None => false end
  | _ => false
  end.
Proof.
  unfold path_exists, join. rewrite lookup_path_app.
  destruct (lookup_path p t) as [[|es]|]; simpl; try done. by destruct (es !! n).
Qed.

Lemma path_isdir_join (p : path) (n : string) (t : node) :
  path_isdir (join p n) t =
  match lookup_path p t with
  | Some (Dir es) => match es !! n with Some (Dir _) => true | _ => false end
  | _ => false
  end.
Proof.
  unfold path_isdir, join. rewrite lookup_path_app.
  destruct (lookup_path p t) as [[|es]|]; simpl; try done. by destruct (es !! n).
Qed.

Lemma info_files_present_run (ext_path : path) (w : World) :
  info_files_present ext_path w
  = (Ret match lookup_path ext_path (fs w) with
         | Some (Dir es) => has_info_file es
         | _ => false
         end, w).
Proof.
  unfold info_files_present, has_info_file. run.
  destruct (lookup_path ext_path (fs w)) as [[|es]|] eqn:Hl.
  - repeat (rewrite ?path_exists_join, ?path_isdir_join, ?Hl; run). done.
  - rewrite path_exists_join, Hl. destruct (es !! "install.py"); [done |]. run.
    rewrite path_isdir_join, Hl. destruct (es !! "scripts") as [[|?]|]; try done; run;
      rewrite path_exists_join, Hl; (destruct (es !! "__init__.py"); [done |]); run;
      by rewrite path_exists_join, Hl.
  - repeat (rewrite ?path_exists_join, ?path_isdir_join, ?Hl; run). done.
Qed.

Lemma git_short_version_run (ext_path : path) (w : World) :
  ∃ v, git_short_version env ext_path w = (Ret v, w).
Proof.
  unfold git_short_version, try_except. run.
  destruct (path_exists (join ext_path ".git") (fs w)); [|eauto].
  destruct (lookup_path ext_path (fs w)); [|eauto].
  destruct (git_head_hexsha env n) as [e|[sha|]]; eauto.
Qed.

Lemma parse_extension_info_run (item : string) (ext_path : path)
    (es : gmap string node) (w : World) :
  lookup_path ext_path (fs w) = Some (Dir es) →
  ∃ o, _parse_extension_info env item ext_path w = (Ret o, w)
       ∧ match o with
         | Some ext => has_info_file es = true ∧ ext_id ext = item
                       ∧ isEnabled ext = negb (startswith item "disabled_")
         | None => has_info_file es = false
         end.
Proof.
  intros H. unfold _parse_extension_info, try_except.
  unfold bind at 1. rewrite info_files_present_run, H.
  destruct (has_info_file es); simpl; [|by exists None].
  destruct (git_short_version_run ext_path w) as [v Hv].
  unfold bind at 1. rewrite Hv.
  unfold os_path_getctime. run. unfold path_exists. rewrite H.
  eexists (Some _). split; [done |]. by simpl.
Qed.

Lemma scan_item_run (item : string) (w : World) :
  ∃ found, scan_item env self item w = (Ret found, w)
           ∧ map ext_id found = if scan_accepts self (fs w) item then [item] else [].
Proof.
  unfold scan_item, scan_accepts. run. unfold path_isdir.
  destruct (lookup_path (join (extensions_path self) item) (fs w)) as [[|es]|] eqn:Hl;
    simpl; try (by exists []).
  destruct (negb (startswith item ".")); simpl; [|by exists []].
  destruct (parse_extension_info_run item _ es w Hl) as ([ext|] & -> & Ho).
  - destruct Ho as (-> & <- & _). by exists [ext].
  - rewrite Ho. by exists [].
Qed.

Lemma scan_items_run (items : list string) (acc : list InstalledExtension) (w : World) :
  ∃ l, scan_items env self items acc w = (Ret l, w)
       ∧ map ext_id l = (map ext_id acc ++ List.filter (scan_accepts self (fs w)) items)%list.
Proof.
  revert acc. induction items as [|item rest IH]; intros acc.
  - exists acc. simpl. by rewrite app_nil_r.
  - destruct (scan_item_run item w) as (found & Hf & Hids).
    destruct (IH (acc ++ found)%list) as (l & Hl & Hmap).
    exists l. cbn [scan_items]. rewrite Hf. split; [done |].
    rewrite Hmap, map_app, Hids. cbn [List.filter].
    destruct (scan_accepts self (fs w) item); simpl; [|by rewrite app_nil_r].
    by rewrite <- app_assoc.
Qed.

(** C5, as the code has it.  [_scan_installed_extensions] returns the
    empty list, with no error printed, when the extensions root does
    not exist.  When the root is a directory, the scan returns, without
    printing anything, an entry for a name exactly when the name is an
    immediate subdirectory of the root, does not begin with ['.'], and
    the subdirectory has an entry named [install.py], [__init__.py] or
    [README.md] (a file or a directory) or a subdirectory [scripts];
    the other directories are skipped. *)
Theorem scan_spec (w : World) :
  (lookup_path (extensions_path self) (fs w) = None →
     _scan_installed_extensions env self w = (Ret [], w))
  ∧ (∀ eb, lookup_path (extensions_path self) (fs w) = Some (Dir eb) →
       ∃ l, _scan_installed_extensions env self w = (Ret l, w)
            ∧ ∀ name, name ∈ map ext_id l ↔
                ∃ es, eb !! name = Some (Dir es)
                      ∧ startswith name "." = false
                      ∧ has_info_file es = true).
Proof.
  split.
  - intros H. unfold _scan_installed_extensions. run. unfold path_exists. by rewrite H.
  - intros eb H. unfold _scan_installed_extensions. run. unfold path_exists.
    rewrite H. simpl. unfold os_listdir. run. rewrite H.
    destruct (scan_items_run (map fst (map_to_list eb)) [] w) as (l & Hl & Hmap).
    exists l. split; [done |]. intros name. rewrite Hmap. simpl.
    rewrite list_elem_of_In, filter_In, <- list_elem_of_In.
    unfold scan_accepts, join. rewrite lookup_path_app, H. simpl.
    rewrite list_elem_of_fmap. split.
    + intros [_ Hacc]. destruct (eb !! name) as [[|es]|]; try done.
      apply andb_true_iff in Hacc as [Hdot Hinfo]. exists es.
      split_and!; [done | by apply negb_true_iff | done].
    + intros (es & Hname & Hdot & Hinfo). split.
      * exists (name, Dir es). split; [done |]. by apply elem_of_map_to_list.
      * rewrite Hname, Hdot, Hinfo. done.
Qed.

End Properties.

(** ** The properties at work on the example worlds *)

Ltac compute_eq := vm_compute; reflexivity.

Lemma operations_never_raise_witness :
  ∃ r w', toggle_extension api0 "ghost" false w0 = (Ret r, w')
          ∧ (success r = false → message r ≠ "").
Proof.
  destruct (operations_never_raise env0 api0 w0) as (_ & _ & H).
  destruct (H "ghost" false) as (r & w' & Hr & _ & Hmsg). by exists r, w'.
Defined.

Lemma toggle_disable_enable_witness :
  ∃ w1 w2,
    toggle_extension api0 "foo" false w0 = (Ret (toggle_ok "foo" false), w1)
    ∧ path_isdir (extension_dir api0 "disabled_foo") (fs w1) = true
    ∧ path_exists (extension_dir api0 "foo") (fs w1) = false
    ∧ toggle_extension api0 "disabled_foo" true w1 = (Ret (toggle_ok "disabled_foo" true), w2)
    ∧ fs w2 = fs w0.
Proof.
  destruct (toggle_disable_enable api0 "foo" (Dir (<["install.py" := File "print('hi')"]> ∅)) w0)
    as (w1 & w2 & H1 & H2 & H3 & H4 & _ & _ & H7 & _);
    [compute_eq | compute_eq | compute_eq | compute_eq |].
  change ("disabled_" +:+ "foo") with "disabled_foo" in *.
  exists w1, w2. unfold path_isdir, path_exists. by rewrite H2, H3.
Defined.

Lemma toggle_same_state_witness :
  path_exists (extension_dir api0 "ghost") (fs w0) = false
  ∧ path_exists (extension_dir api0 "disabled_ghost") (fs w0) = false
  ∧ path_exists (extension_dir api0 "disabled_disabled_foo") (fs w0) = false
  ∧ toggle_extension api0 "ghost" true w0 = (Ret (toggle_ok "ghost" true), w0)
  ∧ toggle_extension api0 "disabled_ghost" false w0
    = (Ret (toggle_ok "disabled_ghost" false), w0)
  ∧ toggle_extension api0 "disabled_disabled_foo" false w0
    = (Ret (toggle_ok "disabled_disabled_foo" false), w0).
Proof.
  destruct (toggle_same_state api0 "ghost" w0) as (H1 & _ & H2).
  destruct (toggle_same_state api0 "disabled_disabled_foo" w0) as (_ & H3 & _).
  change ("disabled_" +:+ "ghost") with "disabled_ghost" in *.
  split_and!; [compute_eq | compute_eq | compute_eq | apply H1; compute_eq | exact H2
               | apply H3; compute_eq].
Defined.

Lemma create_backup_spec_witness :
  strptime "20240309_140507" = Some (replace_microsecond 0 dt0)
  ∧ ∃ w', _create_backup api0 "foo" "before_uninstall" w0
        = (Ret "foo_before_uninstall_20240309_140507", w')
        ∧ lookup_path (backup_dir api0 "foo_before_uninstall_20240309_140507") (fs w')
          = lookup_path (extension_dir api0 "foo") (fs w0)
        ∧ path_isdir (extension_dir api0 "foo") (fs w') = true.
Proof.
  destruct (create_backup_spec api0 "foo" "before_uninstall" w0)
    as (_ & _ & _ & Hread & _ & _ & H & _).
  destruct (H (<["install.py" := File "print('hi')"]> ∅) ∅) as (w' & H1 & H2 & H3);
    [compute_eq | compute_eq | compute_eq | compute_eq |].
  split; [apply Hread; compute_eq |].
  exists w'. split_and!; [exact H1 | |].
  - etransitivity; [exact H2 | compute_eq].
  - unfold path_isdir. by rewrite H3.
Defined.

Lemma uninstall_spec_witness :
  uninstall_extension api0 "foo" w0
  = (Ret (uninstall_ok "foo" "foo_before_uninstall_20240309_140507"),
     w0_removed "before_uninstall")
  ∧ path_exists (extension_dir api0 "foo") (fs (w0_removed "before_uninstall")) = false
  ∧ lookup_path (backup_dir api0 "foo_before_uninstall_20240309_140507")
      (fs (w0_removed "before_uninstall"))
    = lookup_path (extension_dir api0 "foo") (fs w0).
Proof.
  destruct (uninstall_spec api0 "foo" w0) as [_ H].
  destruct (H (Dir (<["install.py" := File "print('hi')"]> ∅))
              "foo_before_uninstall_20240309_140507"
              (w0_backed_up "before_uninstall") (w0_removed "before_uninstall"))
    as (H1 & _ & _ & H4 & H5); [compute_eq | compute_eq | compute_eq |].
  split_and!; [exact H1 | |].
  - unfold path_exists. specialize (H5 []). rewrite app_nil_r in H5. by rewrite H5.
  - etransitivity; [exact H4 | compute_eq].
Defined.

(** C7, as stated, fails: when the system lets [shutil.copytree] make
    the backup directory and refuses the copy of [install.py],
    uninstalling [foo] returns a failure and [foo] is not deleted, yet
    the state is not unchanged: an empty backup directory is left. *)
Lemma uninstall_backup_failure_leaves_backup :
  ∃ e w1,
    _create_backup api0 "foo" "before_uninstall" w0_second_refused = (Raise e, w1)
    ∧ uninstall_extension api0 "foo" w0_second_refused
      = (Ret (failure "foo" ("Uninstallation failed: " +:+ str e)), w1)
    ∧ path_isdir (extension_dir api0 "foo") (fs w1) = true
    ∧ path_exists (backup_dir api0 "foo_before_uninstall_20240309_140507")
        (fs w0_second_refused) = false
    ∧ lookup_path (backup_dir api0 "foo_before_uninstall_20240309_140507") (fs w1)
      = Some (Dir ∅)
    ∧ fs w1 ≠ fs w0_second_refused.
Proof.
  exists (Error "Error" "Permission denied"), w0_partial_backup.
  split_and!; [compute_eq | compute_eq | compute_eq | compute_eq | compute_eq |].
  intros H.
  assert (lookup_path (backup_dir api0 "foo_before_uninstall_20240309_140507")
            (fs w0_partial_backup) = Some (Dir ∅)) as H1 by compute_eq.
  rewrite H in H1. vm_compute in H1. discriminate H1.
Qed.

Lemma uninstall_backup_failure_witness :
  (∃ e, uninstall_extension api0 "foo" w0_second_refused
        = (Ret (failure "foo" ("Uninstallation failed: " +:+ str e)), w0_partial_backup))
  ∧ path_isdir (extension_dir api0 "foo") (fs w0_partial_backup) = true
  ∧ lookup_path (backup_dir api0 "foo_before_uninstall_20240309_140507")
      (fs w0_partial_backup) = Some (Dir ∅)
  ∧ uninstall_extension api0 "foo" w0_refused
    = (Ret (failure "foo" "Uninstallation failed: Permission denied"),
       set_faults [] w0_refused)
  ∧ fs (set_faults [] w0_refused) = fs w0_refused.
Proof.
  destruct (uninstall_backup_failure api0 "foo"
              (Dir (<["install.py" := File "print('hi')"]> ∅))
              (Error "Error" "Permission denied") w0_second_refused
              w0_partial_backup) as (H1 & H2 & _ & _ & H5);
    [compute_eq | compute_eq |].
  destruct (uninstall_backup_failure api0 "foo"
              (Dir (<["install.py" := File "print('hi')"]> ∅))
              (Error "PermissionError" "Permission denied") w0_refused
              (set_faults [] w0_refused)) as (H6 & _);
    [compute_eq | compute_eq |].
  split_and!; [eexists; exact H1 | unfold path_isdir; by rewrite H2 | compute_eq | exact H6
               | done].
Defined.

(** C3, as stated, fails: installing over the existing extension [foo]
    with the unknown method [pip] returns a failure, yet a backup
    directory has been created under the backup root. *)
Lemma install_unsupported_method_backs_up :
  installMethod (metadata0 "foo" "pip") ≠ "git_clone"
  ∧ installMethod (metadata0 "foo" "pip") ≠ "download_zip"
  ∧ ∃ r w',
      install_extension env0 api0 (request0 "foo") (metadata0 "foo" "pip") w0 = (Ret r, w')
      ∧ success r = false
      ∧ path_exists (backup_dir api0 "foo_before_install_20240309_140507") (fs w0) = false
      ∧ path_isdir (backup_dir api0 "foo_before_install_20240309_140507") (fs w') = true
      ∧ fs w' ≠ fs w0.
Proof.
  split; [done |]. split; [done |].
  exists (failure "foo" "Installation failed: 400: Unsupported install method: pip"),
    (w0_backed_up "before_install").
  split_and!; [compute_eq | done | compute_eq | compute_eq |].
  intros Heq.
  assert (path_isdir (backup_dir api0 "foo_before_install_20240309_140507")
            (fs (w0_backed_up "before_install"))
          = path_isdir (backup_dir api0 "foo_before_install_20240309_140507") (fs w0)) as Hd
    by (by rewrite Heq).
  vm_compute in Hd. discriminate.
Qed.

Lemma install_unsupported_method_witness :
  install_extension env0 api0 (request0 "new") (metadata0 "new" "pip") w0
  = (Ret (failure "new" "Installation failed: 400: Unsupported install method: pip"), w0)
  ∧ ∃ r w',
      install_extension env0 api0 (request0 "foo") (metadata0 "foo" "pip") w0_second_refused
      = (Ret r, w')
      ∧ success r = false
      ∧ path_isdir (extension_dir api0 "foo") (fs w') = true.
Proof.
  destruct (install_unsupported_method env0 api0 (request0 "new") (metadata0 "new" "pip") w0)
    as (r & w' & H1 & _ & _ & _ & H5 & _); [done | done |].
  destruct H5 as [-> ->]; [compute_eq |]. split; [exact H1 |].
  destruct (install_unsupported_method env0 api0 (request0 "foo") (metadata0 "foo" "pip")
              w0_second_refused) as (r & w' & H2 & H3 & H4 & _); [done | done |].
  exists r, w'. split_and!; [exact H2 | exact H3 |].
  unfold path_isdir. change (req_extensionId (request0 "foo")) with "foo" in H4.
  rewrite H4. compute_eq.
Defined.


Lemma install_script_warning_witness :
  ∃ w2, install_extension env1 api0 (request0 "new") (metadata0 "new" "git_clone") w0
        = (Ret (install_ok (request0 "new") (metadata0 "new" "git_clone")), w2)
        ∧ fs w2 = fs w0_cloned
        ∧ length (stdout w2) = 1.
Proof.
  destruct (install_script_warning env1 api0 (request0 "new") (metadata0 "new" "git_clone")
              (Completed 1) (fs w0_cloned) w0 w0_cloned)
    as (w2 & warning & H1 & _ & H3 & H4 & _);
    [compute_eq | compute_eq | reflexivity | right; by exists 1%Z |].
  exists w2. split_and!; [exact H1 | exact H3 |]. rewrite H4. compute_eq.
Defined.

(** C5, as stated, fails: the directory [docs] holds nothing but a
    directory named [README.md] (no install script file, no [scripts]
    subdirectory, no module marker file, no README file), and the scan
    lists it. *)
Lemma scan_lists_directory_marker :
  ∃ es l,
    lookup_path (extension_dir api0 "docs") (fs w0) = Some (Dir es)
    ∧ startswith "docs" "." = false
    ∧ has_marker_file es = false
    ∧ _scan_installed_extensions env0 api0 w0 = (Ret l, w0)
    ∧ "docs" ∈ map ext_id l.
Proof.
  exists (<["README.md" := Dir ∅]> ∅), scanned0.
  split_and!; [compute_eq | compute_eq | compute_eq | compute_eq |].
  apply list_elem_of_In. vm_compute. tauto.
Qed.

Lemma scan_spec_witness :
  ∃ l, _scan_installed_extensions env0 api0 w0 = (Ret l, w0)
       ∧ ("foo" ∈ map ext_id l) ∧ ("bar" ∉ map ext_id l) ∧ (".git" ∉ map ext_id l).
Proof.
  destruct (scan_spec env0 api0 w0) as [_ H].
  destruct (H extensions0) as (l & Hl & Hin); [compute_eq |].
  exists l. split_and!; [exact Hl | | |].
  - apply Hin. exists (<["install.py" := File "print('hi')"]> ∅).
    split_and!; compute_eq.
  - intros Hbar. apply Hin in Hbar as (es & Hes & _ & Hinfo).
    assert (es = ∅) as -> by (vm_compute in Hes; by inversion Hes).
    vm_compute in Hinfo. discriminate.
  - intros Hgit. apply Hin in Hgit as (es & _ & Hdot & _). vm_compute in Hdot. discriminate.
Defined.

(** * Further properties *)

Section MoreProperties.

Variable env : Env.
Variable self : ExtensionAPI.

(** ** Scanner *)

Lemma git_short_version_plain (ext_path : path) (w : World) :
  path_exists (join ext_path ".git") (fs w) = false →
  git_short_version env ext_path w = (Ret "unknown", w).
Proof. intros H. unfold git_short_version, try_except. run. by rewrite H. Qed.

Lemma parse_extension_info_fields (item : string) (p : path) (ext : InstalledExtension)
    (w w' : World) :
  p = join (extensions_path self) item →
  _parse_extension_info env item p w = (Ret (Some ext), w') →
  ext_id ext = item ∧ entry_describes env self (fs w) ext.
Proof.
  intros ->. unfold _parse_extension_info, try_except.
  unfold bind at 1. rewrite info_files_present_run.
  destruct (match lookup_path _ (fs w) with Some (Dir es) => has_info_file es | _ => false end);
    simpl; [|by inversion 1].
  destruct (git_short_version_run env (join (extensions_path self) item) w) as [v Hv].
  unfold bind at 1. rewrite Hv. unfold os_path_getctime. run.
  destruct (path_exists (join (extensions_path self) item) (fs w)); simpl; [|by inversion 1].
  inversion 1; subst. split; [done |]. unfold entry_describes. simpl. split_and!; try done.
  intros Hg. rewrite (git_short_version_plain _ _ Hg) in Hv. by inversion Hv.
Qed.

Lemma scan_item_fields (item : string) (found : list InstalledExtension) (w w' : World) :
  scan_item env self item w = (Ret found, w') →
  Forall (entry_describes env self (fs w)) found.
Proof.
  unfold scan_item. run.
  destruct (path_isdir _ (fs w) && negb (startswith item ".")); [|by inversion 1].
  destruct (_parse_extension_info env item _ w) as [[[ext|]|e] w1] eqn:Hp;
    inversion 1; subst; [|done].
  apply (parse_extension_info_fields item _ ext w w' eq_refl) in Hp as [_ Hd].
  by constructor.
Qed.

Lemma scan_items_fields (items : list string) (acc l : list InstalledExtension) (w w' : World) :
  Forall (entry_describes env self (fs w)) acc →
  scan_items env self items acc w = (Ret l, w') →
  Forall (entry_describes env self (fs w)) l.
Proof.
  revert acc. induction items as [|item rest IH]; intros acc Hacc.
  - simpl. unfold ret. by inversion 1; subst.
  - cbn [scan_items].
    destruct (scan_item_run env self item w) as (found & Hf & _). rewrite Hf.
    apply IH. apply Forall_app. split; [done |]. by apply (scan_item_fields item found w w).
Qed.

(** The scan of an extensions root that is a directory. *)
Lemma scan_directory_run (eb : gmap string node) (w : World) :
  lookup_path (extensions_path self) (fs w) = Some (Dir eb) →
  ∃ l, _scan_installed_extensions env self w = (Ret l, w)
       ∧ map ext_id l = List.filter (scan_accepts self (fs w)) (map fst (map_to_list eb))
       ∧ Forall (entry_describes env self (fs w)) l.
Proof.
  intros H. unfold _scan_installed_extensions. run. unfold path_exists.
  rewrite H. simpl. unfold os_listdir. run. rewrite H.
  destruct (scan_items_run env self (map fst (map_to_list eb)) [] w) as (l & Hl & Hmap).
  exists l. split_and!; [done | done |].
  eapply scan_items_fields; [|exact Hl]. constructor.
Qed.

Lemma scan_accepts_spec (eb : gmap string node) (t : node) (name : string) :
  lookup_path (extensions_path self) t = Some (Dir eb) →
  scan_accepts self t name = true ↔
  ∃ es, eb !! name = Some (Dir es) ∧ startswith name "." = false ∧ has_info_file es = true.
Proof.
  intros H. unfold scan_accepts, join. rewrite lookup_path_app, H. simpl. split.
  - destruct (eb !! name) as [[|es]|]; try done. intros Hacc.
    apply andb_true_iff in Hacc as [Hdot Hinfo]. exists es.
    split_and!; [done | by apply negb_true_iff | done].
  - intros (es & -> & -> & ->). done.
Qed.

Lemma scan_directory_member (eb : gmap string node) (l : list InstalledExtension)
    (w : World) (name : string) :
  lookup_path (extensions_path self) (fs w) = Some (Dir eb) →
  map ext_id l = List.filter (scan_accepts self (fs w)) (map fst (map_to_list eb)) →
  name ∈ map ext_id l ↔
  ∃ es, eb !! name = Some (Dir es) ∧ startswith name "." = false ∧ has_info_file es = true.
Proof.
  intros H ->. rewrite list_elem_of_In, filter_In, <- list_elem_of_In.
  rewrite (scan_accepts_spec eb _ _ H), list_elem_of_fmap. split; [by intros [_ ?] |].
  intros (es & Hname & Hrest). split; [|eauto].
  exists (name, Dir es). split; [done |]. by apply elem_of_map_to_list.
Qed.

(** X1. For every world, [_scan_installed_extensions] returns a list
    and never raises, and it leaves the file system and the schedule of
    the operating system as they were: the scan only reads. *)
Theorem scan_never_raises (w : World) :
  ∃ l w', _scan_installed_extensions env self w = (Ret l, w')
          ∧ fs w' = fs w ∧ faults w' = faults w ∧ now w' = now w.
Proof.
  destruct (lookup_path (extensions_path self) (fs w)) as [[d|eb]|] eqn:H.
  - unfold _scan_installed_extensions. run. unfold path_exists. rewrite H. simpl.
    unfold os_listdir. run. rewrite H. eauto 10.
  - destruct (scan_directory_run eb w H) as (l & Hl & _). eauto 10.
  - unfold _scan_installed_extensions. run. unfold path_exists. rewrite H. eauto 10.
Qed.

(** X2. When the extensions root exists but is a file, the listing
    fails inside the scan's [try]: the scan returns the empty list and
    prints the error instead of raising it. *)
Theorem scan_root_is_file (data : string) (w : World) :
  lookup_path (extensions_path self) (fs w) = Some (File data) →
  _scan_installed_extensions env self w
  = (Ret [], add_stdout ("Error scanning extensions: Not a directory: "
                         +:+ show_path (extensions_path self)) w).
Proof.
  intros H. unfold _scan_installed_extensions. run. unfold path_exists. rewrite H. simpl.
  unfold os_listdir. run. by rewrite H.
Qed.

(** X3. The entries of a scan: no identifier is listed twice, and each
    entry has the path of its directory under the root, the humanized
    name of its identifier, [isEnabled] false exactly when the
    identifier starts with [disabled_], [hasUpdates] false, and the
    version ["unknown"] unless the directory has a [.git] entry. *)
Theorem scan_entries (eb : gmap string node) (w : World) :
  lookup_path (extensions_path self) (fs w) = Some (Dir eb) →
  ∃ l, _scan_installed_extensions env self w = (Ret l, w)
       ∧ NoDup (map ext_id l)
       ∧ Forall (entry_describes env self (fs w)) l.
Proof.
  intros H. destruct (scan_directory_run eb w H) as (l & Hl & Hmap & Hall).
  exists l. split_and!; [done | | done].
  rewrite Hmap. apply NoDup_ListNoDup, List.NoDup_filter, NoDup_ListNoDup.
  apply NoDup_fst_map_to_list.
Qed.

(** ** Toggle *)

Lemma os_rename_missing (src dst : path) (w : World) :
  lookup_path src (fs w) = None →
  ∃ e w', os_rename src dst w = (Raise e, w') ∧ fs w' = fs w.
Proof.
  intros H. unfold os_rename, bind at 1.
  destruct (os_call w) as [[[]|e] w1] eqn:Hc; apply os_call_frame in Hc as (Hf & _).
  - run. rewrite Hf, H. eauto.
  - eauto.
Qed.

Lemma os_rename_taken (src dst : path) (v v' : node) (w : World) :
  lookup_path src (fs w) = Some v →
  lookup_path dst (fs w) = Some v' →
  ∃ e w', os_rename src dst w = (Raise e, w') ∧ fs w' = fs w.
Proof.
  intros Hs Hd. unfold os_rename, bind at 1.
  destruct (os_call w) as [[[]|e] w1] eqn:Hc; apply os_call_frame in Hc as (Hf & _).
  - run. unfold path_exists. rewrite Hf, Hs, Hd. eauto.
  - eauto.
Qed.

Lemma toggle_rename_fails (extension_id : string) (enabled : bool) (e : Exn) (w w' : World) :
  startswith extension_id "disabled_" = enabled →
  os_rename (extension_dir self extension_id)
    (extension_dir self (if enabled then slice_from 9 extension_id
                         else "disabled_" +:+ extension_id)) w = (Raise e, w') →
  toggle_extension self extension_id enabled w
  = (Ret (failure extension_id ("Toggle failed: " +:+ str e)), w').
Proof.
  intros Hp Hr. unfold toggle_extension. erewrite try_except_raise; [done |].
  unfold toggle_body. rewrite Hp.
  destruct enabled; simpl; fold (extension_dir self extension_id);
    [fold (extension_dir self (slice_from 9 extension_id))
    |fold (extension_dir self ("disabled_" +:+ extension_id))];
    by erewrite bind_raise_run by exact Hr.
Qed.

(** X4. When the requested state differs from the one the name
    encodes, so that a rename is needed, and no directory of that name
    exists, [toggle_extension] returns a failure result carrying the
    error of the rename, and the file system is unchanged. *)
Theorem toggle_missing_directory (extension_id : string) (enabled : bool) (w : World) :
  startswith extension_id "disabled_" = enabled →
  lookup_path (extension_dir self extension_id) (fs w) = None →
  ∃ e w', toggle_extension self extension_id enabled w
          = (Ret (failure extension_id ("Toggle failed: " +:+ str e)), w')
          ∧ fs w' = fs w.
Proof.
  intros Hp Hd.
  destruct (os_rename_missing (extension_dir self extension_id)
              (extension_dir self (if enabled then slice_from 9 extension_id
                                   else "disabled_" +:+ extension_id)) w Hd)
    as (e & w' & Hr & Hfs).
  exists e, w'. split; [|done]. by apply toggle_rename_fails.
Qed.

(** X5. Disabling [X] while a non-empty directory [disabled_X]
    already exists fails: [toggle_extension] returns a failure result
    and both directories stay as they were. *)
Theorem toggle_collision (X : string) (d : node) (es : gmap string node) (w : World) :
  startswith X "disabled_" = false →
  lookup_path (extension_dir self X) (fs w) = Some d →
  lookup_path (extension_dir self ("disabled_" +:+ X)) (fs w) = Some (Dir es) →
  es ≠ ∅ →
  ∃ e w', toggle_extension self X false w
          = (Ret (failure X ("Toggle failed: " +:+ str e)), w')
          ∧ lookup_path (extension_dir self X) (fs w') = Some d
          ∧ lookup_path (extension_dir self ("disabled_" +:+ X)) (fs w') = Some (Dir es).
Proof.
  intros Hp Hd Hd' _.
  destruct (os_rename_taken _ _ _ _ w Hd Hd') as (e & w' & Hr & Hfs).
  exists e, w'. rewrite Hfs. split_and!; [|done..]. by apply toggle_rename_fails.
Qed.

(** X6. Disabling an extension directory [X] that has an info file
    and scanning again: the scan lists [disabled_X], as disabled and
    under the humanized name of the prefixed identifier, and does not
    list [X]. *)
Theorem toggle_then_scan (X : string) (es : gmap string node) (w : World) :
  startswith X "disabled_" = false →
  lookup_path (extension_dir self X) (fs w) = Some (Dir es) →
  has_info_file es = true →
  lookup_path (extension_dir self ("disabled_" +:+ X)) (fs w) = None →
  calls_allowed 1 w = true →
  ∃ w1 l,
    toggle_extension self X false w = (Ret (toggle_ok X false), w1)
    ∧ _scan_installed_extensions env self w1 = (Ret l, w1)
    ∧ (("disabled_" +:+ X) ∈ map ext_id l)
    ∧ (X ∉ map ext_id l)
    ∧ ∀ e, e ∈ l → ext_id e = "disabled_" +:+ X →
        isEnabled e = false
        ∧ ext_name e = title (replace_char "_" " " (replace_char "-" " " ("disabled_" +:+ X))).
Proof.
  intros Hp Hd Hinfo Hfree Ha.
  assert (X ≠ "disabled_" +:+ X) as Hne by (by apply prefixed_ne).
  destruct (toggle_rename self X ("disabled_" +:+ X) false (Dir es) w (conj Hp eq_refl)
              Hne Hd Hfree Ha) as (w1 & Ht & Hput & Hnew & Hold & _).
  destruct (extension_parent self _ _ _ Hd) as [eb Heb].
  pose proof (lookup_remove_parent _ X _ _ Heb) as Heb1.
  pose proof (lookup_put_parent false _ ("disabled_" +:+ X) (Dir es) _ _ _ Heb1 Hput) as Heb2.
  destruct (scan_directory_run _ w1 Heb2) as (l & Hl & Hmap & Hall).
  exists w1, l. split_and!; [done | done | | |].
  - apply (scan_directory_member _ l w1 _ Heb2 Hmap). exists es.
    rewrite lookup_insert_eq. by split_and!.
  - intros Hin. apply (scan_directory_member _ l w1 _ Heb2 Hmap) in Hin as (es' & Hl' & _).
    rewrite lookup_insert_ne, lookup_delete_eq in Hl' by congruence. done.
  - intros e He Hid. rewrite Forall_forall in Hall.
    destruct (Hall e He) as (_ & Hname & Hen & _). rewrite Hname, Hen, Hid.
    by rewrite (startswith_app "disabled_" X).
Qed.

(** ** Backup and uninstall *)

Lemma shutil_rmtree_raise (p : path) (e : Exn) (w w' : World) :
  shutil_rmtree p w = (Raise e, w') →
  fs w' = fs w ∧ now w' = now w ∧ stdout w' = stdout w.
Proof.
  unfold shutil_rmtree, bind at 1. destruct (os_call w) as [[[]|e'] w1] eqn:Hc;
    apply os_call_frame in Hc as (Hf & Hn & Ho).
  - run. destruct (lookup_path p (fs w1)) as [[|es]|]; intros H; inversion H; by subst.
  - intros H; inversion H; by subst.
Qed.

Lemma uninstall_extension_raise (extension_id : string) (d : node) (e : Exn) (w w' : World) :
  lookup_path (extension_dir self extension_id) (fs w) = Some d →
  (backup_id <- _create_backup self extension_id "before_uninstall" ;;
   shutil_rmtree (extension_dir self extension_id) ;;;
   ret (uninstall_ok extension_id backup_id)) w = (Raise e, w') →
  uninstall_extension self extension_id w
  = (Ret (failure extension_id ("Uninstallation failed: " +:+ str e)), w').
Proof.
  intros Hd Hr. unfold uninstall_extension. erewrite try_except_raise; [done |].
  by rewrite (uninstall_body_present self _ d).
Qed.

Lemma shutil_copytree_exists (src dst : path) (es : gmap string node) (d' : node) (w : World) :
  calls_allowed 1 w = true →
  lookup_path src (fs w) = Some (Dir es) →
  lookup_path dst (fs w) = Some d' →
  ∃ w', shutil_copytree src dst w
        = (Raise (Error "FileExistsError" ("File exists: " +:+ show_path dst)), w')
        ∧ fs w' = fs w.
Proof.
  intros Ha Hs Hd. destruct (os_call_allowed w Ha) as (w1 & Hc & Hf & _).
  exists w1. split; [|done]. unfold shutil_copytree, bind at 1. rewrite Hc.
  run. unfold path_exists. by rewrite Hf, Hs, Hd.
Qed.

Lemma shutil_copytree_file (src dst : path) (data : string) (w : World) :
  calls_allowed 1 w = true →
  lookup_path src (fs w) = Some (File data) →
  ∃ w', shutil_copytree src dst w
        = (Raise (Error "NotADirectoryError" ("Not a directory: " +:+ show_path src)), w')
        ∧ fs w' = fs w.
Proof.
  intros Ha Hs. destruct (os_call_allowed w Ha) as (w1 & Hc & Hf & _).
  exists w1. split; [|done]. unfold shutil_copytree, bind at 1. rewrite Hc.
  run. by rewrite Hf, Hs.
Qed.

Lemma create_backup_copy_raises (extension_id reason : string) (d : node) (e : Exn)
    (w w' : World) :
  lookup_path (extension_dir self extension_id) (fs w) = Some d →
  shutil_copytree (extension_dir self extension_id)
    (backup_dir self (backup_id_of extension_id reason (now w))) w = (Raise e, w') →
  _create_backup self extension_id reason w = (Raise e, w').
Proof.
  unfold extension_dir, backup_dir. intros Hd Hc. unfold _create_backup. run.
  unfold path_exists. rewrite Hd. by rewrite Hc.
Qed.

(** X7. Backup identifiers have the resolution of a second: when a
    backup with the identifier of this second already exists, the copy
    is refused with [FileExistsError], [uninstall_extension] returns a
    failure result naming the existing backup, and nothing is deleted:
    the file system is unchanged. *)
Theorem uninstall_backup_collision (extension_id : string) (es : gmap string node)
    (d' : node) (w : World) :
  let b := backup_id_of extension_id "before_uninstall" (now w) in
  lookup_path (extension_dir self extension_id) (fs w) = Some (Dir es) →
  lookup_path (backup_dir self b) (fs w) = Some d' →
  calls_allowed 1 w = true →
  ∃ w', uninstall_extension self extension_id w
        = (Ret (failure extension_id
                  ("Uninstallation failed: File exists: " +:+ show_path (backup_dir self b))), w')
        ∧ fs w' = fs w.
Proof.
  intros b Hd Hb Ha.
  destruct (shutil_copytree_exists _ _ _ _ w Ha Hd Hb) as (w' & Hc & Hfs).
  exists w'. split; [|done].
  apply (uninstall_extension_raise _ (Dir es) (Error "FileExistsError" _)); [done |].
  by erewrite bind_raise_run by (apply (create_backup_copy_raises _ _ (Dir es)); [done | exact Hc]).
Qed.

(** X8. When the path of the identifier is a regular file,
    [uninstall_extension] does not report "not found": the backup copy
    fails with [NotADirectoryError], the result is a failure, and the
    file stays. *)
Theorem uninstall_regular_file (extension_id data : string) (w : World) :
  lookup_path (extension_dir self extension_id) (fs w) = Some (File data) →
  calls_allowed 1 w = true →
  ∃ w', uninstall_extension self extension_id w
        = (Ret (failure extension_id
                  ("Uninstallation failed: Not a directory: "
                   +:+ show_path (extension_dir self extension_id))), w')
        ∧ fs w' = fs w.
Proof.
  intros Hd Ha.
  destruct (shutil_copytree_file _ (backup_dir self
              (backup_id_of extension_id "before_uninstall" (now w))) _ w Ha Hd)
    as (w' & Hc & Hfs).
  exists w'. split; [|done].
  apply (uninstall_extension_raise _ (File data) (Error "NotADirectoryError" _)); [done |].
  by erewrite bind_raise_run by (apply (create_backup_copy_raises _ _ (File data)); [done | exact Hc]).
Qed.

(** X9. A failure result of [uninstall_extension] does not mean that
    nothing happened: when the backup succeeds and the deletion is
    refused, the result is a failure carrying that error, and the
    backup taken a moment before is there, holding a copy of the
    directory. *)
Theorem uninstall_delete_refused (extension_id b : string) (d : node) (e : Exn)
    (w w1 w2 : World) :
  lookup_path (extension_dir self extension_id) (fs w) = Some d →
  _create_backup self extension_id "before_uninstall" w = (Ret b, w1) →
  shutil_rmtree (extension_dir self extension_id) w1 = (Raise e, w2) →
  uninstall_extension self extension_id w
  = (Ret (failure extension_id ("Uninstallation failed: " +:+ str e)), w2)
  ∧ lookup_path (backup_dir self b) (fs w) = None
  ∧ lookup_path (backup_dir self b) (fs w2) = Some d.
Proof.
  intros Hd Hb Hr.
  pose proof (create_backup_copy self _ _ _ _ _ _ Hb Hd) as [Hfree Hcopy].
  pose proof (shutil_rmtree_raise _ _ _ _ Hr) as (Hfs & _).
  split_and!; [|done | by rewrite Hfs].
  apply (uninstall_extension_raise _ d); [done |].
  erewrite bind_ret_run by exact Hb. by erewrite bind_raise_run by exact Hr.
Qed.

(** X10. A backup never touches the extensions: whatever
    [_create_backup] does, returning or raising, every path at or
    below the extensions root holds afterwards what it held before. *)
Theorem create_backup_keeps_extensions (extension_id reason : string) (q : path)
    (o : Outcome string) (w w' : World) :
  _create_backup self extension_id reason w = (o, w') →
  lookup_path (extensions_path self ++ q) (fs w')
  = lookup_path (extensions_path self ++ q) (fs w).
Proof.
  intros H. destruct o as [b|e].
  - apply create_backup_ret in H as (_ & _ & _ & [[_ ->]|(es & _ & _ & Hp)]); [done |].
    eapply lookup_put_diverge; [exact Hp |].
    unfold backup_dir, join, backup_path, extensions_path.
    rewrite <- !app_assoc. by rewrite diverge_app.
  - apply create_backup_raise in H as (_ & _ & [->|(es & copied & _ & _ & Hp)]); [done |].
    eapply lookup_put_diverge; [exact Hp |].
    unfold backup_dir, join, backup_path, extensions_path.
    rewrite <- !app_assoc. by rewrite diverge_app.
Qed.

(** ** Install: the clone *)

Lemma clone_from_fresh (url extension_id : string) (checkout : node)
    (eb : gmap string node) (w : World) :
  lookup_path (extension_dir self extension_id) (fs w) = None →
  lookup_path (extensions_path self) (fs w) = Some (Dir eb) →
  git_clone_from env url = inr checkout →
  ∃ t1, put_path true (extension_dir self extension_id) checkout (fs w) = Some t1
        ∧ clone_from env url (extension_dir self extension_id) w = (Ret checkout, set_fs t1 w)
        ∧ lookup_path (extension_dir self extension_id) t1 = Some checkout
        ∧ lookup_path (extensions_path self) t1 = Some (Dir (<[extension_id := checkout]> eb)).
Proof.
  intros Hfree Heb Hg.
  destruct (put_in_dir true _ extension_id checkout _ _ Heb) as [t1 Ht1].
  pose proof (lookup_put_parent _ _ _ _ _ _ _ Heb Ht1) as Heb1.
  fold (join (extensions_path self) extension_id) in Ht1.
  fold (extension_dir self extension_id) in Ht1.
  exists t1. split_and!; [done | | by apply lookup_put_eq in Ht1 | done].
  unfold clone_from. rewrite Hg. run. by rewrite Hfree, Ht1.
Qed.

(** The clone onto a free target, up to the checkout of a version. *)
Lemma git_clone_fresh_run (url extension_id : string) (v : option string) (checkout : node)
    (eb : gmap string node) (w : World) :
  lookup_path (extension_dir self extension_id) (fs w) = None →
  lookup_path (extensions_path self) (fs w) = Some (Dir eb) →
  git_clone_from env url = inr checkout →
  ∃ t1, put_path true (extension_dir self extension_id) checkout (fs w) = Some t1
        ∧ lookup_path (extension_dir self extension_id) t1 = Some checkout
        ∧ lookup_path (extensions_path self) t1 = Some (Dir (<[extension_id := checkout]> eb))
        ∧ _git_clone_extension env url (extension_dir self extension_id) v w
          = try_except
              (match v with
               | Some v0 =>
                   if negb (bool_decide (v0 = "")) && negb (bool_decide (v0 = "latest")) then
                     try_except (checkout_version env checkout (extension_dir self extension_id) v0)
                       (λ _, print ("Could not checkout version " +:+ v0
                                    +:+ ", using default branch"))
                   else ret tt
               | None => ret tt
               end)
              (λ e, raise (HTTPException 500 ("Git clone failed: " +:+ str e)))
              (set_fs t1 w).
Proof.
  intros Hfree Heb Hg.
  destruct (clone_from_fresh url extension_id checkout eb w Hfree Heb Hg)
    as (t1 & Ht1 & Hc & Hl1 & Heb1).
  exists t1. split_and!; [done | done | done |].
  unfold _git_clone_extension, try_except.
  unfold os_path_exists, get_fs. unfold bind at 1 2. unfold ret at 1. simpl.
  unfold path_exists. rewrite Hfree.
  unfold bind at 1. unfold ret at 1. unfold bind at 1. by rewrite Hc.
Qed.

(** X11. A clone onto a free target with no version requested, or
    with the version [""] or ["latest"], leaves the default checkout at
    the target: git is never asked to move it, whatever it would
    answer, and nothing is printed. *)
Theorem clone_without_version (url extension_id : string) (v : option string)
    (checkout : node) (eb : gmap string node) (w : World) :
  lookup_path (extension_dir self extension_id) (fs w) = None →
  lookup_path (extensions_path self) (fs w) = Some (Dir eb) →
  git_clone_from env url = inr checkout →
  v = None ∨ v = Some "" ∨ v = Some "latest" →
  ∃ w', _git_clone_extension env url (extension_dir self extension_id) v w = (Ret tt, w')
        ∧ lookup_path (extension_dir self extension_id) (fs w') = Some checkout
        ∧ stdout w' = stdout w.
Proof.
  intros Hfree Heb Hg Hv.
  destruct (git_clone_fresh_run url extension_id v checkout eb w Hfree Heb Hg)
    as (t1 & _ & Hl1 & _ & ->).
  exists (set_fs t1 w). split_and!; [|done | done].
  destruct Hv as [->|[->| ->]]; done.
Qed.


(** ** Install: dependencies, script and result *)

Lemma install_dependencies_run (deps : list string) (w : World) :
  ∃ w', _install_dependencies deps w = (Ret tt, w')
        ∧ fs w' = fs w ∧ faults w' = faults w ∧ now w' = now w
        ∧ stdout w' = (stdout w ++ map (String.append "Would install dependency: ") deps)%list.
Proof.
  revert w. induction deps as [|dep rest IH]; intros w.
  - exists w. simpl. unfold ret. by rewrite app_nil_r.
  - destruct (IH (add_stdout ("Would install dependency: " +:+ dep) w))
      as (w' & Hr & Hf & Hl & Hn & Ho).
    exists w'. cbn [_install_dependencies]. unfold bind at 1, print at 1.
    split_and!; try done. rewrite Ho. simpl. by rewrite <- app_assoc.
Qed.

Lemma configure_without_script (extension_id : string) (p : path) (w : World) :
  lookup_path (join p "install.py") (fs w) = None →
  _configure_extension env extension_id p w = (Ret tt, w).
Proof. intros H. unfold _configure_extension. run. unfold path_exists. by rewrite H. Qed.

Lemma install_extension_finish (request : InstallRequest) (metadata : ExtensionMetadata)
    (o : Outcome unit) (w w1 w2 : World) :
  install_materialize env self request metadata w = (Ret tt, w1) →
  _configure_extension env (req_extensionId request)
    (extension_dir self (req_extensionId request)) w1 = (o, w2) →
  install_extension env self request metadata w
  = (Ret match o with
         | Ret _ => install_ok request metadata
         | Raise e => failure (req_extensionId request) ("Installation failed: " +:+ str e)
         end, w2).
Proof.
  intros Hm Hc. unfold install_extension, try_except, install_body.
  fold (extension_dir self (req_extensionId request)).
  erewrite bind_ret_run by exact Hm. unfold bind at 1. rewrite Hc.
  by destruct o as [[]|e].
Qed.

(** The materialization of a fresh clone with no version requested. *)
Lemma materialize_fresh_clone (request : InstallRequest) (metadata : ExtensionMetadata)
    (checkout : node) (eb : gmap string node) (w : World) :
  let id := req_extensionId request in
  installMethod metadata = "git_clone" →
  req_version request = None →
  lookup_path (extension_dir self id) (fs w) = None →
  lookup_path (extensions_path self) (fs w) = Some (Dir eb) →
  git_clone_from env (repository metadata) = inr checkout →
  ∃ w1, install_materialize env self request metadata w = (Ret tt, w1)
        ∧ put_path true (extension_dir self id) checkout (fs w) = Some (fs w1)
        ∧ faults w1 = faults w ∧ now w1 = now w
        ∧ stdout w1 = (stdout w ++ if installDependencies request
                                   then map (String.append "Would install dependency: ")
                                          (dependencies metadata)
                                   else [])%list.
Proof.
  intros id Hm Hv Hfree Heb Hg.
  destruct (git_clone_fresh_run (repository metadata) id None checkout eb w Hfree Heb Hg)
    as (t1 & Ht1 & _ & _ & Hc).
  unfold try_except, ret in Hc.
  destruct (install_dependencies_run (dependencies metadata) (set_fs t1 w))
    as (w1 & Hd & Hf & Hl & Hn & Ho).
  assert (install_materialize env self request metadata w
          = (if installDependencies request && negb (bool_decide (dependencies metadata = []))
             then _install_dependencies (dependencies metadata) else ret tt) (set_fs t1 w))
    as Hmat.
  { unfold install_materialize. fold id. fold (extension_dir self id).
    unfold os_path_exists, get_fs. unfold bind at 1 2. unfold ret at 1. simpl.
    unfold path_exists. rewrite Hfree.
    unfold bind at 1. unfold ret at 1.
    rewrite Hm, bool_decide_eq_true_2 by done.
    unfold bind at 1. by rewrite Hv, Hc. }
  rewrite Hmat.
  destruct (installDependencies request); simpl.
  - destruct (bool_decide (dependencies metadata = [])) eqn:Hdeps; simpl.
    + apply bool_decide_eq_true_1 in Hdeps. rewrite Hdeps.
      exists (set_fs t1 w). unfold ret. simpl. by rewrite app_nil_r.
    + exists w1. rewrite Hf. by split_and!.
  - exists (set_fs t1 w). unfold ret. simpl. by rewrite app_nil_r.
Qed.

(** X13. A fresh install by [git_clone] (no directory at the target,
    no version requested, a checkout without install script) succeeds:
    the target holds the checkout, every path that is not on the way
    to or below the target is untouched (no backup is taken), and the
    dependencies are only printed, one line each, never installed. *)
Theorem install_fresh_clone (request : InstallRequest) (metadata : ExtensionMetadata)
    (es eb : gmap string node) (w : World) :
  let id := req_extensionId request in
  installMethod metadata = "git_clone" →
  req_version request = None →
  lookup_path (extension_dir self id) (fs w) = None →
  lookup_path (extensions_path self) (fs w) = Some (Dir eb) →
  git_clone_from env (repository metadata) = inr (Dir es) →
  es !! "install.py" = None →
  ∃ w', install_extension env self request metadata w = (Ret (install_ok request metadata), w')
        ∧ lookup_path (extension_dir self id) (fs w') = Some (Dir es)
        ∧ (∀ q, diverge (extension_dir self id) q = true →
                lookup_path q (fs w') = lookup_path q (fs w))
        ∧ stdout w' = (stdout w ++ if installDependencies request
                                   then map (String.append "Would install dependency: ")
                                          (dependencies metadata)
                                   else [])%list.
Proof.
  intros id Hm Hv Hfree Heb Hg Hscript.
  destruct (materialize_fresh_clone request metadata (Dir es) eb w Hm Hv Hfree Heb Hg)
    as (w1 & Hmat & Hput & _ & _ & Hout).
  assert (lookup_path (extension_dir self id) (fs w1) = Some (Dir es)) as Hl
    by (by apply lookup_put_eq in Hput).
  exists w1. split_and!; [| done | | done].
  - rewrite (install_extension_finish request metadata (Ret tt) w w1 w1 Hmat); [done |].
    apply configure_without_script. unfold join. rewrite lookup_path_app. fold id.
    rewrite Hl. simpl. by rewrite Hscript.
  - intros q Hq. by apply (lookup_put_diverge _ _ _ _ _ _ Hput).
Qed.

(** X14. Round trip: a fresh install by [git_clone] followed by an
    uninstall whose backup and deletion succeed leaves no directory at
    the target, and exactly one new entry under the backup root, tagged
    [before_uninstall] and holding the checkout; the other backups are
    as before. *)
Theorem install_then_uninstall (request : InstallRequest) (metadata : ExtensionMetadata)
    (es eb : gmap string node) (r : Result) (b : string) (w w1 w2 w3 : World) :
  let id := req_extensionId request in
  installMethod metadata = "git_clone" →
  req_version request = None →
  lookup_path (extension_dir self id) (fs w) = None →
  lookup_path (extensions_path self) (fs w) = Some (Dir eb) →
  git_clone_from env (repository metadata) = inr (Dir es) →
  es !! "install.py" = None →
  install_extension env self request metadata w = (Ret r, w1) →
  _create_backup self id "before_uninstall" w1 = (Ret b, w2) →
  shutil_rmtree (extension_dir self id) w2 = (Ret tt, w3) →
  success r = true
  ∧ uninstall_extension self id w1 = (Ret (uninstall_ok id b), w3)
  ∧ b = backup_id_of id "before_uninstall" (now w)
  ∧ lookup_path (extension_dir self id) (fs w3) = None
  ∧ lookup_path (backup_dir self b) (fs w) = None
  ∧ lookup_path (backup_dir self b) (fs w3) = Some (Dir es)
  ∧ ∀ b', b' ≠ b →
      lookup_path (backup_dir self b') (fs w3) = lookup_path (backup_dir self b') (fs w).
Proof.
  intros id Hm Hv Hfree Heb Hg Hscript Hi Hb Hr.
  destruct (materialize_fresh_clone request metadata (Dir es) eb w Hm Hv Hfree Heb Hg)
    as (w1' & Hmat & Hput & _ & Hnow & _).
  assert (lookup_path (extension_dir self id) (fs w1') = Some (Dir es)) as Hl
    by (by apply lookup_put_eq in Hput).
  rewrite (install_extension_finish request metadata (Ret tt) w w1' w1' Hmat) in Hi.
  2:{ apply configure_without_script. unfold join. rewrite lookup_path_app. fold id.
      rewrite Hl. simpl. by rewrite Hscript. }
  inversion Hi; subst r w1'. clear Hi.
  pose proof (create_backup_copy self _ _ _ _ _ _ Hb Hl) as [Hbfree Hcopy].
  pose proof (create_backup_ret self _ _ _ _ _ Hb) as (Hbid & _ & _ & Hcase).
  pose proof (shutil_rmtree_ret _ _ _ Hr) as (_ & Hfs3 & _).
  assert (∀ n, diverge (extension_dir self id) (backup_dir self n) = true) as Hdiv.
  { intros n. rewrite diverge_sym. apply extension_backup_diverge. }
  split_and!; [done | | by rewrite Hbid, Hnow | | | |].
  - unfold uninstall_extension. erewrite try_except_ret; [done |].
    rewrite (uninstall_body_present self _ (Dir es)) by done.
    erewrite bind_ret_run by exact Hb. by erewrite bind_ret_run by exact Hr.
  - rewrite Hfs3. apply lookup_remove_eq, extension_dir_nonempty.
  - rewrite <- Hbfree. symmetry.
    by apply (lookup_put_diverge _ _ _ _ _ _ Hput).
  - by rewrite Hfs3, lookup_remove_diverge.
  - intros b' Hne. rewrite Hfs3, lookup_remove_diverge by done.
    destruct Hcase as [[Hnone _]|(es' & _ & _ & Hput2)]; [congruence |].
    rewrite (lookup_put_diverge _ _ _ _ _ _ Hput2).
    + by apply (lookup_put_diverge _ _ _ _ _ _ Hput).
    + unfold backup_dir, join. rewrite diverge_app. simpl. by rewrite decide_False.
Qed.

(** X15. The post-install script is forgiven only a timeout and a
    non-zero exit: when launching it raises anything else (say
    [FileNotFoundError], no [python] on the path), [install_extension]
    returns a failure result carrying that error, although the
    extension has been materialized and stays on disk. *)
Theorem install_launcher_failure (request : InstallRequest) (metadata : ExtensionMetadata)
    (cls text : string) (t2 : node) (w w1 : World) :
  let id := req_extensionId request in
  let script := join (extension_dir self id) "install.py" in
  install_materialize env self request metadata w = (Ret tt, w1) →
  path_exists script (fs w1) = true →
  subprocess_run env script (extension_dir self id) 300 (fs w1)
  = (SpawnFailed (Error cls text), t2) →
  install_extension env self request metadata w
  = (Ret (failure id ("Installation failed: " +:+ text)), set_fs t2 w1).
Proof.
  intros id script Hm He Hs.
  rewrite (install_extension_finish request metadata (Raise (Error cls text)) w w1
             (set_fs t2 w1) Hm); [done |].
  unfold _configure_extension. fold id. fold script. run. rewrite He.
  unfold try_except, subprocess_run_check, install_script_timeout. run. by rewrite Hs.
Qed.

(** X16. When the post-install script exits with status 0,
    [install_extension] returns the success result, the file system is
    the one the script left, and nothing is printed by the
    configuration step. *)
Theorem install_script_exit_zero (request : InstallRequest) (metadata : ExtensionMetadata)
    (t2 : node) (w w1 : World) :
  let id := req_extensionId request in
  let script := join (extension_dir self id) "install.py" in
  install_materialize env self request metadata w = (Ret tt, w1) →
  path_exists script (fs w1) = true →
  subprocess_run env script (extension_dir self id) 300 (fs w1) = (Completed 0, t2) →
  install_extension env self request metadata w
  = (Ret (install_ok request metadata), set_fs t2 w1)
  ∧ stdout (set_fs t2 w1) = stdout w1.
Proof.
  intros id script Hm He Hs. split; [|done].
  rewrite (install_extension_finish request metadata (Ret tt) w w1 (set_fs t2 w1) Hm); [done |].
  unfold _configure_extension. fold id. fold script. run. rewrite He.
  unfold try_except, subprocess_run_check, install_script_timeout. run. by rewrite Hs.
Qed.

(** X25. The result of [install_extension] is one of two
    dictionaries.  On success it names the requested version, or the
    descriptor's version when none or the empty string was requested,
    and the message names the extension.  On failure it has no version
    and the message starts with ["Installation failed: "].  Neither
    carries a backup identifier, even when a backup was taken. *)
Theorem install_result_shape (request : InstallRequest) (metadata : ExtensionMetadata)
    (r : Result) (w w' : World) :
  install_extension env self request metadata w = (Ret r, w') →
  extensionId r = req_extensionId request
  ∧ backupId r = None
  ∧ if success r then
      version r = Some match req_version request with
                       | Some v => if decide (v = "") then meta_version metadata else v
                       | None => meta_version metadata
                       end
      ∧ message r = "Successfully installed " +:+ meta_name metadata
    else
      version r = None
      ∧ startswith (message r) "Installation failed: " = true.
Proof.
  unfold install_extension, try_except.
  destruct (install_body env self request metadata w) as [[r0|e] w0] eqn:Hb.
  - apply install_body_ret in Hb as ->. inversion 1; subst. by split_and!.
  - unfold ret. inversion 1; subst. simpl. split_and!; try done.
    apply (startswith_app "Installation failed: ").
Qed.

(** ** Install: the archive *)

Lemma write_file_ok (dir : path) (n data : string) (et : gmap string node) (w : World) :
  calls_allowed 1 w = true →
  lookup_path dir (fs w) = Some (Dir et) →
  lookup_path (join dir n) (fs w) = None →
  ∃ w1, write_file false (join dir n) data w = (Ret tt, w1)
        ∧ put_path false (join dir n) (File data) (fs w) = Some (fs w1)
        ∧ faults w1 = tail (faults w) ∧ now w1 = now w ∧ stdout w1 = stdout w.
Proof.
  intros Ha Hdir Hfree.
  destruct (os_call_allowed w Ha) as (w0' & Hc & Hf & Hn & Ho & Hl).
  destruct (put_in_dir false dir n (File data) _ _ Hdir) as [t1 Ht1].
  fold (join dir n) in Ht1.
  exists (set_fs t1 w0'). unfold write_file, bind at 1. rewrite Hc. run.
  rewrite Hf, Hfree, Ht1. by split_and!.
Qed.

Lemma materialize_download (request : InstallRequest) (metadata : ExtensionMetadata)
    (w : World) :
  let id := req_extensionId request in
  installMethod metadata = "download_zip" →
  lookup_path (extension_dir self id) (fs w) = None →
  install_materialize env self request metadata w
  = (_download_and_extract env self (installUrl metadata) (extension_dir self id) ;;;
     if installDependencies request && negb (bool_decide (dependencies metadata = []))
     then _install_dependencies (dependencies metadata) else ret tt) w.
Proof.
  intros id Hm Hfree. unfold install_materialize. fold id. fold (extension_dir self id).
  unfold os_path_exists, get_fs. unfold bind at 1 2. unfold ret at 1. simpl.
  unfold path_exists. rewrite Hfree.
  unfold bind at 1. unfold ret at 1. rewrite Hm.
  by rewrite bool_decide_eq_false_2, bool_decide_eq_true_2 by done.
Qed.

(** Where a download is kept until it is extracted. *)
Lemma download_run (url : string) (target : path) (w : World) :
  _download_and_extract env self url target w
  = try_except
      (match requests_get env url with
       | inl e => raise e
       | inr response =>
           let temp_file := join (temp_path self)
                              ("download_" +:+ timestamp_repr env (now w) +:+ ".zip") in
           write_file false temp_file (received response) ;;;
           match interrupted response with
           | Some e => raise e
           | None =>
               data <- file_content temp_file ;;
               match zip_members env data with
               | inl e => raise e
               | inr members => extractall target members ;;; os_remove temp_file
               end
           end
       end)
      (λ e, raise (HTTPException 500 ("Download failed: " +:+ str e))) w.
Proof. reflexivity. Qed.

(** X17. A download that fails makes an install by [download_zip]
    onto a free target return a failure result carrying the error.
    When the request itself fails (no connection, an error status) the
    world is unchanged: no temporary file, no target directory.  When
    the stream breaks after the response has arrived, the temporary
    file has been opened already: it is left in the scratch directory
    with the bytes received so far, and the target is not created. *)
Theorem install_download_failure (request : InstallRequest) (metadata : ExtensionMetadata)
    (e : Exn) (w : World) :
  let id := req_extensionId request in
  let temp_file := join (temp_path self)
                     ("download_" +:+ timestamp_repr env (now w) +:+ ".zip") in
  installMethod metadata = "download_zip" →
  lookup_path (extension_dir self id) (fs w) = None →
  (requests_get env (installUrl metadata) = inl e →
     install_extension env self request metadata w
     = (Ret (failure id ("Installation failed: 500: Download failed: " +:+ str e)), w))
  ∧ (∀ body et,
       requests_get env (installUrl metadata)
       = inr {| received := body; interrupted := Some e |} →
       lookup_path (temp_path self) (fs w) = Some (Dir et) →
       lookup_path temp_file (fs w) = None →
       calls_allowed 1 w = true →
       ∃ w1, install_extension env self request metadata w
             = (Ret (failure id ("Installation failed: 500: Download failed: " +:+ str e)),
                w1)
             ∧ lookup_path temp_file (fs w1) = Some (File body)
             ∧ lookup_path (extension_dir self id) (fs w1) = None).
Proof.
  intros id temp_file Hm Hfree. split.
  - intros Hg.
    rewrite (install_extension_raise env self request metadata
               (HTTPException 500 ("Download failed: " +:+ str e)) w w).
    + simpl. by rewrite pretty_500.
    + rewrite materialize_download by done. unfold bind at 1.
      rewrite download_run. unfold try_except. by rewrite Hg.
  - intros body et Hg Htmp Htf Ha.
    destruct (write_file_ok _ _ body _ w Ha Htmp Htf) as (w1 & Hw & Hput & _).
    fold temp_file in Hw, Hput.
    exists w1. split_and!.
    + rewrite (install_extension_raise env self request metadata
                 (HTTPException 500 ("Download failed: " +:+ str e)) w w1).
      * simpl. by rewrite pretty_500.
      * rewrite materialize_download by done. unfold bind at 1.
        rewrite download_run. unfold try_except. rewrite Hg. cbn [received interrupted].
        fold temp_file. unfold bind at 1. by rewrite Hw.
    + by apply lookup_put_eq in Hput.
    + rewrite (lookup_put_diverge _ _ _ _ _ _ Hput); [done |].
      unfold temp_file, extension_dir, join, temp_path, extensions_path.
      rewrite <- !app_assoc. by rewrite diverge_app.
Qed.


(** X19. An install by [download_zip] of an archive without members
    reports success although nothing is extracted: no directory exists
    at the target afterwards, and the file system is the one before the
    call (the downloaded file is written and removed). *)
Theorem install_empty_archive (request : InstallRequest) (metadata : ExtensionMetadata)
    (body : string) (et : gmap string node) (w : World) :
  let id := req_extensionId request in
  let temp_file := join (temp_path self)
                     ("download_" +:+ timestamp_repr env (now w) +:+ ".zip") in
  installMethod metadata = "download_zip" →
  lookup_path (extension_dir self id) (fs w) = None →
  requests_get env (installUrl metadata) = inr {| received := body; interrupted := None |} →
  zip_members env body = inr [] →
  lookup_path (temp_path self) (fs w) = Some (Dir et) →
  lookup_path temp_file (fs w) = None →
  calls_allowed 2 w = true →
  ∃ w', install_extension env self request metadata w = (Ret (install_ok request metadata), w')
        ∧ fs w' = fs w
        ∧ path_exists (extension_dir self id) (fs w') = false.
Proof.
  intros id temp_file Hm Hfree Hg Hz Htmp Htf Ha.
  destruct (write_file_ok _ _ body _ w (calls_allowed_1 _ _ Ha) Htmp Htf)
    as (w1 & Hw & Hput & Hfl & _).
  fold temp_file in Hw, Hput.
  assert (lookup_path temp_file (fs w1) = Some (File body)) as Hl
    by (by apply lookup_put_eq in Hput).
  destruct (os_call_allowed w1 (calls_allowed_S _ _ _ Ha Hfl)) as (w2 & Hc & Hf2 & _).
  assert (remove_path temp_file (fs w1) = fs w) as Hback.
  { eapply remove_put_id; [|exact Htf | exact Hput]. unfold temp_file, join.
    by destruct (temp_path self). }
  assert (_download_and_extract env self (installUrl metadata) (extension_dir self id) w
          = (Ret tt, set_fs (fs w) w2)) as Hd.
  { rewrite download_run. unfold try_except. rewrite Hg. cbn [received interrupted].
    fold temp_file.
    unfold bind at 1. rewrite Hw. unfold file_content. run. rewrite Hl, Hz. simpl.
    unfold os_remove, bind at 1. rewrite Hc. run. by rewrite Hf2, Hl, Hback. }
  destruct (install_dependencies_run (dependencies metadata) (set_fs (fs w) w2))
    as (w3 & Hdeps & Hf3 & _).
  assert (∃ w', install_materialize env self request metadata w = (Ret tt, w')
                ∧ fs w' = fs w) as (w' & Hmat & Hfs).
  { rewrite materialize_download by done. unfold bind at 1. unfold id in Hd. rewrite Hd.
    destruct (installDependencies request && negb (bool_decide (dependencies metadata = [])));
      [exists w3 | exists (set_fs (fs w) w2)]; by split. }
  exists w'. split_and!; [| done | by unfold path_exists; rewrite Hfs; fold id; rewrite Hfree].
  rewrite (install_extension_finish request metadata (Ret tt) w w' w' Hmat); [done |].
  apply configure_without_script. rewrite Hfs. fold id.
  unfold join. by rewrite lookup_path_app, Hfree.
Qed.

(** ** Extraction *)

(** A file written over nothing or over a file, and a directory made
    where nothing was, leave what exists in place with its kind. *)
Lemma put_path_keeps_kinds (b : bool) (p : path) (v t t' : node) :
  put_path b p v t = Some t' →
  match lookup_path p t with
  | None => True
  | Some (File _) => is_dir_node v = false
  | Some (Dir _) => False
  end →
  ∀ q k, kind_at q t = Some k → kind_at q t' = Some k.
Proof.
  unfold kind_at. revert t t'. induction p as [|x p IH]; intros t t' Hput Hpre q k Hq.
  - simpl in *. inversion Hput; subst. destruct t as [d|es]; [|done].
    destruct q; [|done]. simpl in *. inversion Hq; subst. by rewrite Hpre.
  - destruct t as [d|es]; [done |]. rewrite put_path_cons in Hput.
    assert (∃ c', t' = Dir (<[x := c']> es)
                  ∧ ∀ c, es !! x = Some c → put_path b p v c = Some c') as (c' & -> & Hc').
    { destruct (es !! x) as [c|].
      - destruct (put_path b p v c) as [c'|] eqn:Hc; inversion Hput; subst.
        exists c'. split; [done |]. intros c0 H0. by inversion H0; subst.
      - destruct p as [|m p']; [inversion Hput; by eexists |]. destruct b; [|done].
        destruct (put_path true (m :: p') v (Dir ∅)); inversion Hput; by eexists. }
    destruct q as [|y q]; [simpl in *; by inversion Hq |].
    simpl in Hq |- *. destruct (decide (x = y)) as [->|Hne].
    + rewrite lookup_insert_eq. destruct (es !! y) as [c|] eqn:Hy; [|done].
      simpl in Hpre. rewrite Hy in Hpre. eapply IH; [by apply Hc' | done | done].
    + by rewrite lookup_insert_ne.
Qed.

Lemma write_file_ret (parents : bool) (p : path) (data : string) (w w' : World) :
  write_file parents p data w = (Ret tt, w') →
  put_path parents p (File data) (fs w) = Some (fs w')
  ∧ match lookup_path p (fs w) with Some (Dir _) => False | _ => True end.
Proof.
  unfold write_file, bind at 1. destruct (os_call w) as [[[]|e] w1] eqn:Hc; [|done].
  apply os_call_frame in Hc as (Hf & _). run. rewrite Hf.
  destruct (lookup_path p (fs w)) as [[d|es]|]; [| done |];
    (destruct (put_path parents p (File data) (fs w)) as [t'|]; [|done];
     inversion 1; by subst).
Qed.

Lemma os_makedirs_ret (p : path) (w w' : World) :
  os_makedirs p w = (Ret tt, w') →
  kind_at p (fs w') = Some true
  ∧ (fs w' = fs w
     ∨ lookup_path p (fs w) = None ∧ put_path true p (Dir ∅) (fs w) = Some (fs w')).
Proof.
  unfold os_makedirs, bind at 1, kind_at. destruct (os_call w) as [[[]|e] w1] eqn:Hc; [|done].
  apply os_call_frame in Hc as (Hf & _). run. rewrite Hf.
  destruct (lookup_path p (fs w)) as [[d|es]|] eqn:Hp; [done | |].
  - inversion 1; subst. rewrite Hf, Hp. eauto.
  - destruct (put_path true p (Dir ∅) (fs w)) as [t'|] eqn:Hput; [|done].
    inversion 1; subst. simpl. rewrite (lookup_put_eq _ _ _ _ _ Hput). eauto.
Qed.

Lemma os_makedirs_keeps_kinds (p : path) (w w' : World) :
  os_makedirs p w = (Ret tt, w') →
  ∀ q k, kind_at q (fs w) = Some k → kind_at q (fs w') = Some k.
Proof.
  intros H q k Hq. apply os_makedirs_ret in H as (_ & [->|[Hnone Hput]]); [done |].
  eapply put_path_keeps_kinds; [exact Hput | by rewrite Hnone | done].
Qed.

Lemma write_file_keeps_kinds (parents : bool) (p : path) (data : string) (w w' : World) :
  write_file parents p data w = (Ret tt, w') →
  kind_at p (fs w') = Some false
  ∧ ∀ q k, kind_at q (fs w) = Some k → kind_at q (fs w') = Some k.
Proof.
  intros H. apply write_file_ret in H as (Hput & Hpre). split.
  - unfold kind_at. by rewrite (lookup_put_eq _ _ _ _ _ Hput).
  - intros q k Hq. eapply put_path_keeps_kinds; [exact Hput | | done].
    by destruct (lookup_path p (fs w)) as [[d|es]|].
Qed.

(** Extraction puts every member in place and keeps what exists. *)
Lemma extractall_in_place (target : path) (members : list (path * option string))
    (w w' : World) :
  extractall target members w = (Ret tt, w') →
  (∀ rel o, (rel, o) ∈ members →
     kind_at (target ++ rel) (fs w') = Some match o with Some _ => false | None => true end)
  ∧ (∀ q k, kind_at q (fs w) = Some k → kind_at q (fs w') = Some k).
Proof.
  revert w. induction members as [|[rel [data|]] rest IH]; intros w H.
  - inversion H; subst. split; [|done]. intros rel o Hin. by apply elem_of_nil in Hin.
  - cbn [extractall] in H. unfold bind at 1 in H.
    destruct (write_file true (target ++ rel) data w) as [[[]|e] w1] eqn:Hw; [|done].
    apply write_file_keeps_kinds in Hw as [Hnew Hkeep].
    destruct (IH w1 H) as [Hin' Hkeep']. split; [|by eauto].
    intros rel' o Hin. apply elem_of_cons in Hin as [Heq|Hin]; [|by apply Hin'].
    inversion Heq; subst. by apply Hkeep'.
  - cbn [extractall] in H. unfold bind at 1 in H.
    destruct (os_makedirs (target ++ rel) w) as [[[]|e] w1] eqn:Hw; [|done].
    pose proof (os_makedirs_keeps_kinds _ _ _ Hw) as Hkeep.
    apply os_makedirs_ret in Hw as [Hnew _].
    destruct (IH w1 H) as [Hin' Hkeep']. split; [|by eauto].
    intros rel' o Hin. apply elem_of_cons in Hin as [Heq|Hin]; [|by apply Hin'].
    inversion Heq; subst. by apply Hkeep'.
Qed.

Lemma os_remove_ret (p : path) (w w' : World) :
  p ≠ [] → os_remove p w = (Ret tt, w') →
  fs w' = remove_path p (fs w) ∧ lookup_path p (fs w') = None.
Proof.
  intros Hp. unfold os_remove, bind at 1.
  destruct (os_call w) as [[[]|e] w1] eqn:Hc; [|done].
  apply os_call_frame in Hc as (Hf & _). run. rewrite Hf.
  destruct (lookup_path p (fs w)) as [[d|es]|]; [| done | done].
  inversion 1; subst. simpl. split; [done |]. by apply lookup_remove_eq.
Qed.

(** X20. When [_download_and_extract] returns, the archive was
    downloaded and read, every member is in place under the target
    directory of the extension (a file member as a file, a directory
    member as a directory), the temporary file has been removed, and
    whatever existed elsewhere before still exists with its kind:
    extraction merges into the target and deletes nothing. *)
Theorem download_and_extract_in_place (url extension_id : string) (w w' : World) :
  let temp_file := join (temp_path self)
                     ("download_" +:+ timestamp_repr env (now w) +:+ ".zip") in
  _download_and_extract env self url (extension_dir self extension_id) w = (Ret tt, w') →
  ∃ body members,
    requests_get env url = inr {| received := body; interrupted := None |}
    ∧ zip_members env body = inr members
    ∧ (∀ rel o, (rel, o) ∈ members →
         kind_at (extension_dir self extension_id ++ rel) (fs w')
         = Some match o with Some _ => false | None => true end)
    ∧ lookup_path temp_file (fs w') = None
    ∧ (∀ q k, diverge temp_file q = true →
         kind_at q (fs w) = Some k → kind_at q (fs w') = Some k).
Proof.
  intros temp_file. rewrite download_run. unfold try_except. fold temp_file.
  destruct (requests_get env url) as [e|[body [e|]]]; [done | |]; cbn [received interrupted].
  { unfold bind at 1. by destruct (write_file false temp_file body w) as [[[]|e'] w1]. }
  unfold bind at 1.
  destruct (write_file false temp_file body w) as [[[]|e] w1] eqn:Hw; [|done].
  pose proof (write_file_keeps_kinds _ _ _ _ _ Hw) as [_ Hkeep1].
  apply write_file_ret in Hw as [Hput _].
  unfold file_content. run. rewrite (lookup_put_eq _ _ _ _ _ Hput).
  destruct (zip_members env body) as [e|members] eqn:Hz; [done |].
  destruct (extractall (extension_dir self extension_id) members w1) as [[[]|e] w2] eqn:Hx;
    [|done].
  destruct (os_remove temp_file w2) as [[[]|e] w3] eqn:Hr; [|done].
  inversion 1; subst w3.
  assert (temp_file ≠ []) as Hne by (unfold temp_file, join; by destruct (temp_path self)).
  apply (os_remove_ret _ _ _ Hne) in Hr as [Hfs Hgone].
  apply extractall_in_place in Hx as [Hin Hkeep2].
  exists body, members. split_and!; [done | done | | done |].
  - intros rel o Hmem. unfold kind_at. rewrite Hfs, lookup_remove_diverge; [by apply Hin |].
    apply diverge_below. unfold temp_file, extension_dir, join, temp_path, extensions_path.
    rewrite <- !app_assoc. by rewrite diverge_app.
  - intros q k Hq Hk. unfold kind_at. rewrite Hfs, lookup_remove_diverge by done.
    by apply Hkeep2, Hkeep1.
Qed.

(** ** The constructor *)

(** X21. When [__init__] returns, the scratch and the backup
    directories exist; whatever existed before still exists with its
    kind; and the extensions root is not made: every path at or below
    it holds what it held before. *)
Theorem init_makes_directories (w w' : World) :
  init self w = (Ret tt, w') →
  kind_at (temp_path self) (fs w') = Some true
  ∧ kind_at (backup_path self) (fs w') = Some true
  ∧ (∀ q k, kind_at q (fs w) = Some k → kind_at q (fs w') = Some k)
  ∧ (∀ q, lookup_path (extensions_path self ++ q) (fs w')
          = lookup_path (extensions_path self ++ q) (fs w)).
Proof.
  unfold init, bind at 1.
  destruct (os_makedirs (temp_path self) w) as [[[]|e] w1] eqn:H1; [|done]. intros H2.
  pose proof (os_makedirs_keeps_kinds _ _ _ H1) as Hk1.
  pose proof (os_makedirs_keeps_kinds _ _ _ H2) as Hk2.
  apply os_makedirs_ret in H1 as [Hd1 Hc1]. apply os_makedirs_ret in H2 as [Hd2 Hc2].
  split_and!; [by apply Hk2 | done | by eauto |].
  intros q. transitivity (lookup_path (extensions_path self ++ q) (fs w1)).
  - destruct Hc2 as [->|[_ Hput]]; [done |].
    eapply lookup_put_diverge; [exact Hput |].
    unfold backup_path, extensions_path. rewrite <- !app_assoc. by rewrite diverge_app.
  - destruct Hc1 as [->|[_ Hput]]; [done |].
    eapply lookup_put_diverge; [exact Hput |].
    unfold temp_path, extensions_path. rewrite <- !app_assoc. by rewrite diverge_app.
Qed.

(** ** The routes *)

Lemma scan_returns (w : World) :
  ∃ l w', _scan_installed_extensions env self w = (Ret l, w').
Proof.
  destruct (lookup_path (extensions_path self) (fs w)) as [[d|eb]|] eqn:H.
  - unfold _scan_installed_extensions. run. unfold path_exists. rewrite H. simpl.
    unfold os_listdir. run. rewrite H. eauto.
  - destruct (scan_directory_run eb w H) as (l & Hl & _). eauto.
  - unfold _scan_installed_extensions. run. unfold path_exists. rewrite H. eauto.
Qed.

Lemma route_answers {A} (m : M A) (a : A) (w w' : World) :
  m w = (Ret a, w') →
  try_except (result <- m ;; ret {| envelope_success := true; data := result |})
    (λ e, raise (HTTPException 500 (str e))) w
  = (Ret {| envelope_success := true; data := a |}, w').
Proof. intros H. unfold try_except. by erewrite bind_ret_run by exact H. Qed.

(** X22. The routes [/install], [/uninstall], [/toggle] and
    [/installed] never answer with an error: the method they await
    always returns, so their [except] branch never runs, and the
    envelope says [success: True] whatever the result inside says.  In
    particular uninstalling an extension that is not there answers
    [success: True] around a result whose [success] is false. *)
Theorem routes_always_answer (w : World) :
  (∀ request metadata, ∃ r w',
     install_extension env self request metadata w = (Ret r, w')
     ∧ Router.install_extension env self request metadata w
       = (Ret {| envelope_success := true; data := r |}, w'))
  ∧ (∀ extension_id, ∃ r w',
       uninstall_extension self extension_id w = (Ret r, w')
       ∧ Router.uninstall_extension self extension_id w
         = (Ret {| envelope_success := true; data := r |}, w'))
  ∧ (∀ extension_id enabled, ∃ r w',
       toggle_extension self extension_id enabled w = (Ret r, w')
       ∧ Router.toggle_extension self extension_id enabled w
         = (Ret {| envelope_success := true; data := r |}, w'))
  ∧ (∃ l w',
       _scan_installed_extensions env self w = (Ret l, w')
       ∧ Router.list_installed env self w = (Ret {| envelope_success := true; data := l |}, w'))
  ∧ (∀ extension_id,
       lookup_path (extension_dir self extension_id) (fs w) = None →
       Router.uninstall_extension self extension_id w
       = (Ret {| envelope_success := true;
                 data := failure extension_id "Extension not found" |}, w)).
Proof.
  split_and!.
  - intros request metadata.
    destruct (try_except_total (install_body env self request metadata)
                (λ e, failure (req_extensionId request) ("Installation failed: " +:+ str e)) w)
      as (r & w' & Hr & _).
    exists r, w'. split; [exact Hr |]. by apply route_answers.
  - intros extension_id.
    destruct (try_except_total (uninstall_body self extension_id)
                (λ e, failure extension_id ("Uninstallation failed: " +:+ str e)) w)
      as (r & w' & Hr & _).
    exists r, w'. split; [exact Hr |]. by apply route_answers.
  - intros extension_id enabled.
    destruct (try_except_total (toggle_body self extension_id enabled)
                (λ e, failure extension_id ("Toggle failed: " +:+ str e)) w)
      as (r & w' & Hr & _).
    exists r, w'. split; [exact Hr |]. by apply route_answers.
  - destruct (scan_returns w) as (l & w' & Hl). exists l, w'. split; [done |].
    by apply route_answers.
  - intros extension_id H. apply route_answers.
    unfold uninstall_extension, try_except, uninstall_body, extension_dir in *.
    run. unfold path_exists. by rewrite H.
Qed.

(** ** Host detection *)

Variable host : HostEnv.

Lemma check_running_run (w : World) :
  _check_sd_webui_running host w
  = (Ret match ping host with inr status_code => bool_decide (status_code = 200) | inl _ => false end, w).
Proof. unfold _check_sd_webui_running, try_except. by destruct (ping host). Qed.

Lemma newest_git_tag_run (w : World) :
  newest_git_tag host self w
  = (Ret match lookup_path (sd_path self) (fs w) with
         | Some d =>
             match git_tags_newest_first host d with
             | inr (tag :: _) => Some tag
             | _ => None
             end
         | None => None
         end, w).
Proof.
  unfold newest_git_tag, try_except. run.
  destruct (lookup_path (sd_path self) (fs w)) as [d|]; [|done].
  by destruct (git_tags_newest_first host d) as [e|[|tag tags]].
Qed.

Lemma launch_py_version_run (w : World) :
  launch_py_version host self w
  = (match lookup_path (join (sd_path self) "launch.py") (fs w) with
     | Some (File data) =>
         match open_text host (join (sd_path self) "launch.py") data with
         | inl e => Raise e
         | inr content => Ret (search_version host content)
         end
     | Some (Dir _) =>
         Raise (Error "IsADirectoryError"
                  ("Is a directory: " +:+ show_path (join (sd_path self) "launch.py")))
     | None => Ret None
     end, w).
Proof.
  unfold launch_py_version. run. unfold path_exists, file_content. run.
  destruct (lookup_path (join (sd_path self) "launch.py") (fs w)) as [[data|es]|] eqn:Hl;
    simpl; rewrite ?Hl; [|done | done].
  by destruct (open_text host (join (sd_path self) "launch.py") data).
Qed.

(** What [_detect_sd_version] falls back to when [launch.py] gives no
    version. *)
Lemma detect_fallback (w : World) :
  launch_py_version host self w = (Ret None, w) →
  _detect_sd_version host self w
  = (Ret (if path_exists (join (sd_path self) ".git") (fs w) then
            match lookup_path (sd_path self) (fs w) with
            | Some d =>
                match git_tags_newest_first host d with
                | inr (tag :: _) => tag
                | _ => "unknown"
                end
            | None => "unknown"
            end
          else "unknown"), w).
Proof.
  intros H. unfold _detect_sd_version, try_except. unfold bind at 1. rewrite H.
  run. destruct (path_exists (join (sd_path self) ".git") (fs w)); [|done].
  rewrite newest_git_tag_run.
  destruct (lookup_path (sd_path self) (fs w)) as [d|]; [|done].
  by destruct (git_tags_newest_first host d) as [e|[|tag tags]].
Qed.

(** X23. [_detect_sd_version] never raises and changes nothing.  A
    version found in the text of [launch.py] wins over the git tags.
    Without [launch.py], or without a match in its text, the newest git
    tag is returned when there is a [.git] entry and git names a tag,
    and ["unknown"] otherwise (also when git fails).  When [launch.py]
    cannot be read, because it is a directory or because opening or
    decoding the file raises, the answer is ["unknown"] at once: the
    git tags are not consulted. *)
Theorem detect_sd_version_cases (w : World) :
  let launch_py := join (sd_path self) "launch.py" in
  let fallback :=
    if path_exists (join (sd_path self) ".git") (fs w) then
      match lookup_path (sd_path self) (fs w) with
      | Some d =>
          match git_tags_newest_first host d with
          | inr (tag :: _) => tag
          | _ => "unknown"
          end
      | None => "unknown"
      end
    else "unknown" in
  (∃ v, _detect_sd_version host self w = (Ret v, w))
  ∧ (∀ data content v, lookup_path launch_py (fs w) = Some (File data) →
       open_text host launch_py data = inr content →
       search_version host content = Some v →
       _detect_sd_version host self w = (Ret v, w))
  ∧ (∀ data content, lookup_path launch_py (fs w) = Some (File data) →
       open_text host launch_py data = inr content →
       search_version host content = None →
       _detect_sd_version host self w = (Ret fallback, w))
  ∧ (lookup_path launch_py (fs w) = None →
       _detect_sd_version host self w = (Ret fallback, w))
  ∧ (∀ data e, lookup_path launch_py (fs w) = Some (File data) →
       open_text host launch_py data = inl e →
       _detect_sd_version host self w = (Ret "unknown", w))
  ∧ (∀ es, lookup_path launch_py (fs w) = Some (Dir es) →
       _detect_sd_version host self w = (Ret "unknown", w)).
Proof.
  intros launch_py fallback.
  assert (∀ data content v, lookup_path launch_py (fs w) = Some (File data) →
            open_text host launch_py data = inr content →
            search_version host content = Some v →
            _detect_sd_version host self w = (Ret v, w)) as Hfile.
  { intros data content v Hl Ho Hs. unfold _detect_sd_version, try_except. unfold bind at 1.
    rewrite launch_py_version_run. fold launch_py. by rewrite Hl, Ho, Hs. }
  assert (∀ data content, lookup_path launch_py (fs w) = Some (File data) →
            open_text host launch_py data = inr content →
            search_version host content = None →
            _detect_sd_version host self w = (Ret fallback, w)) as Hnomatch.
  { intros data content Hl Ho Hs. apply detect_fallback.
    rewrite launch_py_version_run. fold launch_py. by rewrite Hl, Ho, Hs. }
  assert (lookup_path launch_py (fs w) = None →
            _detect_sd_version host self w = (Ret fallback, w)) as Habsent.
  { intros Hl. apply detect_fallback.
    rewrite launch_py_version_run. fold launch_py. by rewrite Hl. }
  assert (∀ data e, lookup_path launch_py (fs w) = Some (File data) →
            open_text host launch_py data = inl e →
            _detect_sd_version host self w = (Ret "unknown", w)) as Hunread.
  { intros data e Hl Ho. unfold _detect_sd_version, try_except. unfold bind at 1.
    rewrite launch_py_version_run. fold launch_py. by rewrite Hl, Ho. }
  assert (∀ es, lookup_path launch_py (fs w) = Some (Dir es) →
            _detect_sd_version host self w = (Ret "unknown", w)) as Hdir.
  { intros es Hl. unfold _detect_sd_version, try_except. unfold bind at 1.
    rewrite launch_py_version_run. fold launch_py. by rewrite Hl. }
  split_and!; try done.
  destruct (lookup_path launch_py (fs w)) as [[data|es]|] eqn:Hl; [| eauto | eauto].
  destruct (open_text host launch_py data) as [e|content] eqn:Ho; [eauto |].
  destruct (search_version host content) as [v|] eqn:Hs; eauto.
Qed.

Lemma detect_sd_version_run (w : World) :
  ∃ v, _detect_sd_version host self w = (Ret v, w).
Proof.
  destruct (launch_py_version host self w) as [[[v|]|e] w1] eqn:Hl;
    pose proof Hl as Hl'; rewrite launch_py_version_run in Hl'; inversion Hl'; subst w1.
  - exists v. unfold _detect_sd_version, try_except. unfold bind at 1. by rewrite Hl.
  - eexists. by apply detect_fallback.
  - exists "unknown". unfold _detect_sd_version, try_except. unfold bind at 1. by rewrite Hl.
Qed.

Lemma scan_directory_or_not (w : World) :
  ∃ l w', _scan_installed_extensions env self w = (Ret l, w') ∧ fs w' = fs w.
Proof.
  destruct (lookup_path (extensions_path self) (fs w)) as [[d|eb]|] eqn:H.
  - unfold _scan_installed_extensions. run. unfold path_exists. rewrite H. simpl.
    unfold os_listdir. run. rewrite H. eauto.
  - destruct (scan_directory_run eb w H) as (l & Hl & _). eauto.
  - unfold _scan_installed_extensions. run. unfold path_exists. rewrite H. eauto.
Qed.

(** X24. [detect_sd_webui_info] never raises and leaves the file
    system as it is.  It reports the host as running exactly when the
    ping answers with status 200 (any error counts as not running), it
    gives the API address exactly when the host is running, and its
    list of installed extensions is what the scan returns. *)
Theorem detect_sd_webui_info_spec (w : World) :
  ∃ info w',
    detect_sd_webui_info env host self w = (Ret info, w')
    ∧ fs w' = fs w
    ∧ (isRunning info = true ↔ ping host = inr 200)
    ∧ apiUrl info = (if isRunning info then Some "http://127.0.0.1:7860" else None)
    ∧ info_path info = sd_path self
    ∧ extensionsPath info = extensions_path self
    ∧ _scan_installed_extensions env self w = (Ret (installedExtensions info), w')
    ∧ _detect_sd_version host self w = (Ret (info_version info), w)
    ∧ Router.detect_sdwebui env host self w
      = (Ret {| envelope_success := true; data := info |}, w').
Proof.
  destruct (detect_sd_version_run w) as [v Hv].
  destruct (scan_directory_or_not w) as (l & w' & Hl & Hfs).
  set (running := match ping host with
                  | inr status_code => bool_decide (status_code = 200)
                  | inl _ => false
                  end).
  set (info := {| info_version := v; info_path := sd_path self;
                  extensionsPath := extensions_path self; isRunning := running;
                  apiUrl := if running then Some "http://127.0.0.1:7860" else None;
                  installedExtensions := l |}).
  assert (detect_sd_webui_info env host self w = (Ret info, w')) as Hd.
  { unfold detect_sd_webui_info. erewrite bind_ret_run by exact Hv.
    erewrite bind_ret_run by apply check_running_run.
    by erewrite bind_ret_run by exact Hl. }
  exists info, w'.
  split_and!; [exact Hd | done | | done | done | done | done | done | by apply route_answers].
  simpl. unfold running. destruct (ping host) as [e|status_code]; [done |].
  rewrite bool_decide_eq_true. split; [by intros -> | by inversion 1].
Qed.

End MoreProperties.

(** ** The further properties at work on the example worlds *)

Lemma scan_root_is_file_witness :
  _scan_installed_extensions env0 api0 w_root_file
  = (Ret [], add_stdout "Error scanning extensions: Not a directory: sd/extensions" w_root_file).
Proof. apply (scan_root_is_file env0 api0 "not a directory"). compute_eq. Defined.

Lemma scan_entries_witness :
  ∃ l, _scan_installed_extensions env0 api0 w0 = (Ret l, w0)
       ∧ NoDup (map ext_id l)
       ∧ Forall (entry_describes env0 api0 (fs w0)) l.
Proof. apply (scan_entries env0 api0 extensions0). compute_eq. Defined.

Lemma toggle_missing_directory_witness :
  ∃ e w', toggle_extension api0 "ghost" false w0
          = (Ret (failure "ghost" ("Toggle failed: " +:+ str e)), w')
          ∧ fs w' = fs w0.
Proof. apply toggle_missing_directory; compute_eq. Defined.

Lemma toggle_collision_witness :
  ∃ e w', toggle_extension api0 "foo" false w_both
          = (Ret (failure "foo" ("Toggle failed: " +:+ str e)), w')
          ∧ path_isdir (extension_dir api0 "foo") (fs w') = true
          ∧ path_isdir (extension_dir api0 "disabled_foo") (fs w') = true.
Proof.
  destruct (toggle_collision api0 "foo" (Dir (<["install.py" := File "a"]> ∅))
              (<["install.py" := File "b"]> ∅) w_both)
    as (e & w' & H1 & H2 & H3); [compute_eq | compute_eq | compute_eq | |].
  - intros H. apply (f_equal (λ m : gmap string node, m !! "install.py")) in H.
    vm_compute in H. discriminate.
  - change ("disabled_" +:+ "foo") with "disabled_foo" in H3.
    exists e, w'. unfold path_isdir. by rewrite H2, H3.
Defined.

Lemma toggle_then_scan_witness :
  ∃ w1 l,
    toggle_extension api0 "foo" false w0 = (Ret (toggle_ok "foo" false), w1)
    ∧ _scan_installed_extensions env0 api0 w1 = (Ret l, w1)
    ∧ ("disabled_foo" ∈ map ext_id l)
    ∧ ("foo" ∉ map ext_id l)
    ∧ ∀ e, e ∈ l → ext_id e = "disabled_foo" →
        isEnabled e = false ∧ ext_name e = "Disabled Foo".
Proof.
  apply (toggle_then_scan env0 api0 "foo" (<["install.py" := File "print('hi')"]> ∅) w0);
    compute_eq.
Defined.

Lemma uninstall_backup_collision_witness :
  ∃ w', uninstall_extension api0 "foo" (w0_backed_up "before_uninstall")
        = (Ret (failure "foo"
                  "Uninstallation failed: File exists: sd/backups/extensions/foo_before_uninstall_20240309_140507"), w')
        ∧ fs w' = fs (w0_backed_up "before_uninstall").
Proof.
  apply (uninstall_backup_collision api0 "foo" (<["install.py" := File "print('hi')"]> ∅)
           (Dir (<["install.py" := File "print('hi')"]> ∅)) (w0_backed_up "before_uninstall"));
    compute_eq.
Defined.

Lemma uninstall_regular_file_witness :
  ∃ w', uninstall_extension api0 "foo" w_foo_file
        = (Ret (failure "foo" "Uninstallation failed: Not a directory: sd/extensions/foo"), w')
        ∧ fs w' = fs w_foo_file.
Proof. apply (uninstall_regular_file api0 "foo" "x" w_foo_file); compute_eq. Defined.

Lemma uninstall_delete_refused_witness :
  ∃ w2, uninstall_extension api0 "foo" w0_delete_refused
        = (Ret (failure "foo" "Uninstallation failed: Permission denied"), w2)
        ∧ path_exists (backup_dir api0 "foo_before_uninstall_20240309_140507")
            (fs w0_delete_refused) = false
        ∧ path_isdir (backup_dir api0 "foo_before_uninstall_20240309_140507") (fs w2) = true.
Proof.
  destruct (uninstall_delete_refused api0 "foo" "foo_before_uninstall_20240309_140507"
              (Dir (<["install.py" := File "print('hi')"]> ∅))
              (Error "PermissionError" "Permission denied") w0_delete_refused
              (snd (_create_backup api0 "foo" "before_uninstall" w0_delete_refused))
              (snd (shutil_rmtree (extension_dir api0 "foo")
                      (snd (_create_backup api0 "foo" "before_uninstall" w0_delete_refused)))))
    as (H1 & H2 & H3); [compute_eq | compute_eq | compute_eq |].
  eexists. split_and!; [exact H1 | | ]; unfold path_exists, path_isdir; by rewrite ?H2, ?H3.
Defined.

Lemma create_backup_keeps_extensions_witness :
  lookup_path (extensions_path api0 ++ ["foo"; "install.py"]) (fs (w0_backed_up "before_install"))
  = Some (File "print('hi')").
Proof.
  rewrite (create_backup_keeps_extensions api0 "foo" "before_install" ["foo"; "install.py"]
             (Ret "foo_before_install_20240309_140507") w0 (w0_backed_up "before_install"));
    compute_eq.
Defined.

Lemma clone_without_version_witness :
  ∃ w', _git_clone_extension env_plain "https://example.org/repo.git"
          (extension_dir api0 "new") (Some "latest") w0 = (Ret tt, w')
        ∧ lookup_path (extension_dir api0 "new") (fs w')
          = Some (Dir (<["README.md" := File "plain"]> ∅))
        ∧ stdout w' = stdout w0.
Proof.
  apply (clone_without_version env_plain api0 _ "new" _ _ extensions0);
    [compute_eq | compute_eq | compute_eq | by right; right].
Defined.


Lemma install_fresh_clone_witness :
  ∃ w', install_extension env_plain api0 (request0 "new") (metadata0 "new" "git_clone") w0
        = (Ret (install_ok (request0 "new") (metadata0 "new" "git_clone")), w')
        ∧ lookup_path (extension_dir api0 "new") (fs w')
          = Some (Dir (<["README.md" := File "plain"]> ∅))
        ∧ lookup_path (backup_path api0) (fs w') = lookup_path (backup_path api0) (fs w0).
Proof.
  destruct (install_fresh_clone env_plain api0 (request0 "new") (metadata0 "new" "git_clone")
              (<["README.md" := File "plain"]> ∅) extensions0 w0)
    as (w' & H1 & H2 & H3 & _);
    [done | done | compute_eq | compute_eq | compute_eq | compute_eq |].
  exists w'. split_and!; [exact H1 | exact H2 |]. apply H3. compute_eq.
Defined.

Lemma install_then_uninstall_witness :
  ∃ w1 w3,
    install_extension env_plain api0 (request0 "new") (metadata0 "new" "git_clone") w0
    = (Ret (install_ok (request0 "new") (metadata0 "new" "git_clone")), w1)
    ∧ uninstall_extension api0 "new" w1
      = (Ret (uninstall_ok "new" "new_before_uninstall_20240309_140507"), w3)
    ∧ lookup_path (extension_dir api0 "new") (fs w3) = None
    ∧ lookup_path (backup_dir api0 "new_before_uninstall_20240309_140507") (fs w3)
      = Some (Dir (<["README.md" := File "plain"]> ∅)).
Proof.
  set (w1 := snd (install_extension env_plain api0 (request0 "new")
                    (metadata0 "new" "git_clone") w0)).
  set (w2 := snd (_create_backup api0 "new" "before_uninstall" w1)).
  set (w3 := snd (shutil_rmtree (extension_dir api0 "new") w2)).
  destruct (install_then_uninstall env_plain api0 (request0 "new") (metadata0 "new" "git_clone")
              (<["README.md" := File "plain"]> ∅) extensions0
              (install_ok (request0 "new") (metadata0 "new" "git_clone"))
              "new_before_uninstall_20240309_140507" w0 w1 w2 w3)
    as (_ & H2 & _ & H4 & _ & H6 & _);
    [done | done | compute_eq | compute_eq | compute_eq | compute_eq
    | compute_eq | compute_eq | compute_eq |].
  exists w1, w3. split_and!; [compute_eq | exact H2 | exact H4 | exact H6].
Defined.

Lemma install_launcher_failure_witness :
  ∃ w', install_extension (env_script (SpawnFailed (Error "FileNotFoundError" "python not found")))
          api0 (request0 "new") (metadata0 "new" "git_clone") w0
        = (Ret (failure "new" "Installation failed: python not found"), w')
        ∧ path_isdir (extension_dir api0 "new") (fs w') = true.
Proof.
  set (env := env_script (SpawnFailed (Error "FileNotFoundError" "python not found"))).
  set (w1 := snd (install_materialize env api0 (request0 "new") (metadata0 "new" "git_clone") w0)).
  exists (set_fs (fs w1) w1). split; [|compute_eq].
  apply (install_launcher_failure env api0 (request0 "new") (metadata0 "new" "git_clone")
           "FileNotFoundError" "python not found" (fs w1) w0 w1); compute_eq.
Defined.

Lemma install_script_exit_zero_witness :
  ∃ w', install_extension (env_script (Completed 0)) api0 (request0 "new")
          (metadata0 "new" "git_clone") w0
        = (Ret (install_ok (request0 "new") (metadata0 "new" "git_clone")), w')
        ∧ stdout w' = [].
Proof.
  set (env := env_script (Completed 0)).
  set (w1 := snd (install_materialize env api0 (request0 "new") (metadata0 "new" "git_clone") w0)).
  destruct (install_script_exit_zero env api0 (request0 "new") (metadata0 "new" "git_clone")
              (fs w1) w0 w1) as [H1 H2]; [compute_eq | compute_eq | compute_eq |].
  exists (set_fs (fs w1) w1). split; [exact H1 | compute_eq].
Defined.

Lemma install_download_failure_witness :
  install_extension env0 api0 (request0 "new") (metadata0 "new" "download_zip") w0
  = (Ret (failure "new" "Installation failed: 500: Download failed: connection refused"), w0)
  ∧ ∃ w1, install_extension env_interrupted api0 (request0 "new")
            (metadata0 "new" "download_zip") w0
          = (Ret (failure "new" "Installation failed: 500: Download failed: Connection broken"),
             w1)
          ∧ lookup_path (join (temp_path api0) "download_1709993107.123456.zip") (fs w1)
            = Some (File "PK")
          ∧ lookup_path (extension_dir api0 "new") (fs w1) = None.
Proof.
  destruct (install_download_failure env0 api0 (request0 "new") (metadata0 "new" "download_zip")
              (Error "ConnectionError" "connection refused") w0) as [H1 _];
    [done | compute_eq |].
  destruct (install_download_failure env_interrupted api0 (request0 "new")
              (metadata0 "new" "download_zip")
              (Error "ChunkedEncodingError" "Connection broken") w0) as [_ H2];
    [done | compute_eq |].
  split; [by apply H1 |].
  apply (H2 "PK" ∅); [done | compute_eq | compute_eq | compute_eq].
Defined.


Lemma install_empty_archive_witness :
  ∃ w', install_extension (env_archive (inr [])) api0 (request0 "new")
          (metadata0 "new" "download_zip") w0
        = (Ret (install_ok (request0 "new") (metadata0 "new" "download_zip")), w')
        ∧ fs w' = fs w0
        ∧ path_exists (extension_dir api0 "new") (fs w') = false.
Proof.
  apply (install_empty_archive (env_archive (inr [])) api0 (request0 "new")
           (metadata0 "new" "download_zip") "PK" ∅ w0);
    [done | compute_eq | done | done | compute_eq | compute_eq | compute_eq].
Defined.

Lemma download_and_extract_in_place_witness :
  ∃ w', _download_and_extract (env_archive (inr members0)) api0 "https://example.org/repo.zip"
          (extension_dir api0 "new") w0 = (Ret tt, w')
        ∧ kind_at (extension_dir api0 "new" ++ ["scripts"; "a.py"]) (fs w') = Some false
        ∧ kind_at (extension_dir api0 "new" ++ ["scripts"]) (fs w') = Some true
        ∧ kind_at (extension_dir api0 "foo") (fs w') = Some true
        ∧ lookup_path (join (temp_path api0) "download_1709993107.123456.zip") (fs w') = None.
Proof.
  set (env := env_archive (inr members0)).
  set (w' := snd (_download_and_extract env api0 "https://example.org/repo.zip"
                    (extension_dir api0 "new") w0)).
  destruct (download_and_extract_in_place env api0 "https://example.org/repo.zip" "new" w0 w')
    as (body & members & _ & Hz & Hin & Hgone & Hkeep); [compute_eq |].
  assert (members = members0) as -> by (vm_compute in Hz; by inversion Hz).
  exists w'. split_and!; [compute_eq | | | | exact Hgone].
  - apply (Hin ["scripts"; "a.py"] (Some "pass")). apply list_elem_of_In. simpl. auto.
  - apply (Hin ["scripts"] None). apply list_elem_of_In. simpl. auto.
  - apply Hkeep; compute_eq.
Defined.

Lemma init_makes_directories_witness :
  ∃ w', init api0 w_empty = (Ret tt, w')
        ∧ kind_at (temp_path api0) (fs w') = Some true
        ∧ kind_at (backup_path api0) (fs w') = Some true
        ∧ lookup_path (extensions_path api0) (fs w') = None.
Proof.
  set (w' := snd (init api0 w_empty)).
  destruct (init_makes_directories api0 w_empty w') as (H1 & H2 & _ & H4); [compute_eq |].
  exists w'. split_and!; [compute_eq | exact H1 | exact H2 |].
  specialize (H4 []). rewrite app_nil_r in H4. rewrite H4. compute_eq.
Defined.

Lemma detect_sd_version_cases_witness :
  _detect_sd_version host0 api0 w_host = (Ret "1.7.0", w_host)
  ∧ _detect_sd_version host0 api0 w_host_dir = (Ret "unknown", w_host_dir)
  ∧ _detect_sd_version host0 api0 w_host_undecodable = (Ret "unknown", w_host_undecodable)
  ∧ newest_git_tag host0 api0 w_host_undecodable = (Ret (Some "v1.6.0"), w_host_undecodable).
Proof.
  split_and!.
  - destruct (detect_sd_version_cases api0 host0 w_host) as (_ & H & _).
    apply (H "version = '1.7.0'" "version = '1.7.0'"); compute_eq.
  - destruct (detect_sd_version_cases api0 host0 w_host_dir) as (_ & _ & _ & _ & _ & H).
    apply (H ∅). compute_eq.
  - destruct (detect_sd_version_cases api0 host0 w_host_undecodable)
      as (_ & _ & _ & _ & H & _).
    apply (H ("version = " +:+ undecodable)
             (Error "UnicodeDecodeError" "invalid start byte")); compute_eq.
  - compute_eq.
Defined.

Lemma install_result_shape_witness :
  ∃ r w', install_extension env_plain api0
            {| req_extensionId := "foo"; req_version := Some ""; force := false;
               installDependencies := true |}
            (metadata0 "foo" "git_clone") w0 = (Ret r, w')
          ∧ success r = true ∧ version r = Some "1.0" ∧ backupId r = None
          ∧ path_isdir (backup_dir api0 "foo_before_install_20240309_140507") (fs w') = true.
Proof.
  set (request := {| req_extensionId := "foo"; req_version := Some ""; force := false;
                     installDependencies := true |}).
  set (o := install_extension env_plain api0 request (metadata0 "foo" "git_clone") w0).
  assert (o = (Ret (install_ok request (metadata0 "foo" "git_clone")), snd o)) as Ho
    by compute_eq.
  destruct (install_result_shape env_plain api0 request (metadata0 "foo" "git_clone")
              _ w0 (snd o) Ho) as (_ & H2 & H3).
  eexists _, (snd o). split; [exact Ho |]. split_and!; [done | apply H3 | exact H2 | compute_eq].
Defined.
